(** * figma-structured-mcp: the export, download, compress, upload pipeline

    A shallow embedding of the Python sources

    - [utils/image_compression.py]  (module [ImageCompression])
    - [utils/exceptions.py]         (module [Exceptions])
    - [utils/file_upload.py]        (module [FileUpload])
    - [utils/image_export.py]       (module [ImageExport])
    - [server.py]                   (module [Server])

    followed by the properties proved about them.

    Modelling conventions.
    - Python [float] values (quality, scale, ratios) are exact rationals [Q];
      [int(x)] is truncation toward zero.
    - Python [str] and [bytes] are [string]; case mapping and whitespace are
      the ASCII ones.
    - Parsed JSON is the type [json]; a Python [dict] read from JSON is an
      association list in insertion order, [None] is [JNull].
    - Effects are explicit: a computation is a function from the [World]
      (staging directory, trace of requests) to a result or a raised
      exception together with the new world.  The remote services, the clock,
      Pillow and pngquant are deterministic functions of their request,
      collected in the record [Env].
    - [asyncio.gather] runs its tasks to completion one after the other in a
      completion order given explicitly, and hands the results back in the
      order of the tasks. *)

From Stdlib Require Import ZArith QArith Qround Lqa String Ascii List Bool Lia.
From Stdlib Require Import DecimalString DecimalPos DecimalZ Sorted Permutation.
Import ListNotations.
Open Scope string_scope.
Open Scope Z_scope.
Set Warnings "-register-all".

(** ** Python values and the effect monad *)

Module Py.

(** Parsed JSON.  Numbers are rationals: [0], [0.0] and [-0.0] all test equal
    to [0], as in Python. *)
Inductive json : Type :=
| JNull
| JBool (b : bool)
| JNum (q : Q)
| JStr (s : string)
| JList (l : list json)
| JDict (kv : list (string * json)).

(** [bool(x)]: the truth value Python gives to [x]. *)
Definition truthy (x : json) : bool :=
  match x with
  | JNull => false
  | JBool b => b
  | JNum q => negb (Qeq_bool q 0)
  | JStr s => negb (String.eqb s "")
  | JList l => match l with [] => false | _ => true end
  | JDict kv => match kv with [] => false | _ => true end
  end.

(** [x == 0]: holds for the numbers equal to zero and for [False]. *)
Definition eq_zero (x : json) : bool :=
  match x with
  | JNum q => Qeq_bool q 0
  | JBool b => negb b
  | _ => false
  end.

Definition isinstance_str (x : json) : bool :=
  match x with JStr _ => true | _ => false end.

Definition isinstance_dict (x : json) : bool :=
  match x with JDict _ => true | _ => false end.

(** [d.get(key, default)] on a dict. *)
Fixpoint dict_get (d : list (string * json)) (key : string) (default : json)
  : json :=
  match d with
  | [] => default
  | (k, v) :: d' => if String.eqb k key then v else dict_get d' key default
  end.

(** [key in d] on a dict. *)
Fixpoint dict_mem (d : list (string * json)) (key : string) : bool :=
  match d with
  | [] => false
  | (k, _) :: d' => String.eqb k key || dict_mem d' key
  end.

(** Lookup in a [Dict[str, str]] built by the program itself. *)
Fixpoint lookup (d : list (string * string)) (key : string) : option string :=
  match d with
  | [] => None
  | (k, v) :: d' => if String.eqb k key then Some v else lookup d' key
  end.

(** [d[key] = v]: replaces the value in place, or appends a new key. *)
Fixpoint assign (d : list (string * string)) (key v : string)
  : list (string * string) :=
  match d with
  | [] => [(key, v)]
  | (k, x) :: d' =>
      if String.eqb k key then (k, v) :: d' else (k, x) :: assign d' key v
  end.

(** Exceptions, by the classes the handlers of the program tell apart. *)
Inductive PyExc : Type :=
| TimeoutException (msg : string)   (* httpx.TimeoutException *)
| RequestError (msg : string)       (* httpx.RequestError, timeouts apart *)
| TimeoutExpired (msg : string)     (* subprocess.TimeoutExpired *)
| PyError (cls msg : string).       (* any other subclass of Exception *)

(** [str(e)] *)
Definition str_exc (e : PyExc) : string :=
  match e with
  | TimeoutException m | RequestError m | TimeoutExpired m | PyError _ m => m
  end.

Inductive Res (A : Type) : Type :=
| Val (a : A)
| Raise (e : PyExc).
Arguments Val {A} a.
Arguments Raise {A} e.

(** An HTTP response: only what the program reads of it. *)
Record Response : Type := {
  status_code : Z;
  content : string;            (* response.content *)
  json_body : option json      (* response.json(); None: the body is not JSON *)
}.

(** A picture as Pillow sees it. *)
Record Image : Type := {
  img_format : option string;  (* img.format *)
  img_mode : string;           (* img.mode *)
  img_pixels : string
}.

(** What a finished pngquant process leaves behind. *)
Record Completed : Type := {
  returncode : Z;
  stderr : string;
  output_file : string         (* the bytes of the image file afterwards *)
}.

(** Observable actions, in the order they were performed. *)
Inductive Event : Type :=
| GetNodes (file_key ids : string)                  (* GET files/<key>/nodes, depth 1 *)
| GetImages (file_key ids format : string) (scale : Q)  (* GET images/<key> *)
| GetUrl (url : string)                             (* GET of an image URL *)
| Sleep (seconds : Z)                               (* asyncio.sleep *)
| PostFile (file_path : string)                     (* multipart POST of a file *)
| RunPngquant (image_path : string) (min_quality max_quality : Z)
| PilSave (image_path : string) (format : option string) (mode : string)
          (quality : option Z).

(** The mutable part of the world. *)
Record World : Type := {
  staging : option (list (string * string));
      (* the directory temp-images: None when it does not exist, otherwise
         its files, full path to bytes *)
  trace : list Event
}.

(** Everything the program consults but does not change. *)
Record Env : Type := {
  FIGMA_ACCESS_TOKEN : option string;
  STORAGE_PROVIDER : option string;
  CUSTOM_SECRET_KEY : option string;
  CUSTOM_UPLOAD_URL : option string;
  figma_nodes : string -> string -> Res Response;
      (* file key, ids *)
  figma_images : string -> string -> string -> Q -> Res Response;
      (* file key, ids, format, scale *)
  http_get : string -> nat -> Res Response;
      (* image URL, number of the attempt *)
  http_post : string -> string -> Res Response;
      (* file path, file bytes *)
  can_create_dir : string -> bool;
  can_write : string -> bool;
  now : nat -> string;
      (* datetime.now().strftime("%Y%m%d_%H%M%S") at the i-th iteration *)
  repr_float : Q -> string;
      (* how an f-string prints a float *)
  repr_json : json -> string;
      (* how an f-string prints a number, a list or a dict *)
  PIL_AVAILABLE : bool;
  venv_pngquant : option string;
      (* sys.prefix/bin/pngquant when that file exists *)
  pngquant : string -> Z -> Z -> Res Completed;
      (* file bytes, quality range *)
  pil_open : string -> Res Image;
  pil_save : string -> Image -> option string -> option Z -> bool -> Res string
      (* path, image, format, quality, optimize: the bytes written *)
}.

(** Computations: state passing with exceptions.  Effects performed before an
    exception is raised persist. *)
Definition M (A : Type) : Type := World -> Res A * World.

Definition ret {A} (a : A) : M A := fun w => (Val a, w).

Definition bind {A B} (c : M A) (k : A -> M B) : M B :=
  fun w =>
    match c w with
    | (Val a, w') => k a w'
    | (Raise e, w') => (Raise e, w')
    end.

Definition raise {A} (e : PyExc) : M A := fun w => (Raise e, w).

(** [try: c except Exception as e: h e] *)
Definition try_except {A} (c : M A) (h : PyExc -> M A) : M A :=
  fun w =>
    match c w with
    | (Val a, w') => (Val a, w')
    | (Raise e, w') => h e w'
    end.

Definition rbind {A B} (r : Res A) (k : A -> Res B) : Res B :=
  match r with
  | Val a => k a
  | Raise e => Raise e
  end.

(** *** Operations on values whose type is only known at run time *)

Definition attribute_error (attr : string) : PyExc :=
  PyError "AttributeError" ("object has no attribute '" ++ attr ++ "'").

Definition type_error (what : string) : PyExc := PyError "TypeError" what.

(** [x.get(key, default)] *)
Definition py_get (x : json) (key : string) (default : json) : Res json :=
  match x with
  | JDict d => Val (dict_get d key default)
  | _ => Raise (attribute_error "get")
  end.

(** [x.items()] *)
Definition py_items (x : json) : Res (list (string * json)) :=
  match x with
  | JDict d => Val d
  | _ => Raise (attribute_error "items")
  end.

(** [key in x] *)
Definition py_contains (key : string) (x : json) : Res bool :=
  match x with
  | JDict d => Val (dict_mem d key)
  | JStr s => Val (match index 0 key s with Some _ => true | None => false end)
  | JList l =>
      Val (existsb (fun y => match y with
                             | JStr s => String.eqb s key
                             | _ => false
                             end) l)
  | _ => Raise (type_error "argument is not iterable")
  end.

(** [x[key]] for a string key *)
Definition py_index (x : json) (key : string) : Res json :=
  match x with
  | JDict d =>
      if dict_mem d key then Val (dict_get d key JNull)
      else Raise (PyError "KeyError" key)
  | _ => Raise (type_error "indices must be integers")
  end.

(** The elements a [for] loop over [x] visits. *)
Definition py_iter (x : json) : Res (list json) :=
  match x with
  | JList l => Val l
  | JDict d => Val (map (fun kv => JStr (fst kv)) d)
  | JStr s =>
      Val (map (fun c => JStr (String c EmptyString)) (list_ascii_of_string s))
  | _ => Raise (type_error "object is not iterable")
  end.

(** [response.json()] *)
Definition response_json (r : Response) : Res json :=
  match json_body r with
  | Some j => Val j
  | None => Raise (PyError "JSONDecodeError" "Expecting value")
  end.

(** Lifts the answer of an oracle. *)
Definition lift {A} (r : Res A) : M A := fun w => (r, w).

Definition emit (e : Event) : M unit :=
  fun w => (Val tt, {| staging := staging w; trace := trace w ++ [e] |}).

Definition get_staging : M (option (list (string * string))) :=
  fun w => (Val (staging w), w).

Definition put_staging (s : option (list (string * string))) : M unit :=
  fun w => (Val tt, {| staging := s; trace := trace w |}).

(** [str(x)] for a value read from JSON. *)
Definition str_json (E : Env) (x : json) : string :=
  match x with
  | JStr s => s
  | JNull => "None"
  | JBool true => "True"
  | JBool false => "False"
  | _ => repr_json E x
  end.

Declare Scope py_scope.
Delimit Scope py_scope with py.
Notation "x <- c ;; k" := (bind c (fun x => k))
  (at level 61, c at next level, right associativity) : py_scope.
Notation "c ;;; k" := (bind c (fun _ => k))
  (at level 61, right associativity) : py_scope.

(** *** Strings *)

Definition is_lower (c : ascii) : bool :=
  let n := nat_of_ascii c in (97 <=? n)%nat && (n <=? 122)%nat.

Definition is_upper (c : ascii) : bool :=
  let n := nat_of_ascii c in (65 <=? n)%nat && (n <=? 90)%nat.

Definition to_upper (c : ascii) : ascii :=
  if is_lower c then ascii_of_nat (nat_of_ascii c - 32) else c.

Definition to_lower (c : ascii) : ascii :=
  if is_upper c then ascii_of_nat (nat_of_ascii c + 32) else c.

Fixpoint smap (f : ascii -> ascii) (s : string) : string :=
  match s with
  | EmptyString => EmptyString
  | String c s' => String (f c) (smap f s')
  end.

(** [s.upper()] and [s.lower()] *)
Definition upper (s : string) : string := smap to_upper s.
Definition lower (s : string) : string := smap to_lower s.

(** ASCII white space, as [str.strip] removes it. *)
Definition is_space (c : ascii) : bool :=
  let n := nat_of_ascii c in
  ((9 <=? n)%nat && (n <=? 13)%nat) || ((28 <=? n)%nat && (n <=? 32)%nat).

Fixpoint lstrip_space (s : string) : string :=
  match s with
  | String c s' => if is_space c then lstrip_space s' else s
  | EmptyString => EmptyString
  end.

Fixpoint rev_string (s : string) : string :=
  match s with
  | EmptyString => EmptyString
  | String c s' => rev_string s' ++ String c EmptyString
  end.

(** [s.strip()] *)
Definition strip (s : string) : string :=
  rev_string (lstrip_space (rev_string (lstrip_space s))).

(** [s.lstrip(".")] *)
Fixpoint lstrip_dot (s : string) : string :=
  match s with
  | String c s' => if Ascii.eqb c "." then lstrip_dot s' else s
  | EmptyString => EmptyString
  end.

(** [s.endswith(suffix)]: [suffix] is [s] or ends what follows the first
    character of [s]. *)
Fixpoint endswith (s suffix : string) : bool :=
  String.eqb s suffix
  || match s with
     | EmptyString => false
     | String _ s' => endswith s' suffix
     end.

(** The text after the last occurrence of [sep], or the whole string. *)
Fixpoint after_last (sep : ascii) (s : string) : string :=
  match s with
  | EmptyString => EmptyString
  | String c s' =>
      if Ascii.eqb c sep
      then (if existsb (Ascii.eqb sep) (list_ascii_of_string s')
            then after_last sep s' else s')
      else (if existsb (Ascii.eqb sep) (list_ascii_of_string s')
            then after_last sep s' else s)
  end.

(** [os.path.basename(p)] and [Path(p).name] *)
Definition basename (p : string) : string := after_last "/" p.

(** [Path(p).suffix]: the last dot of the name and what follows, unless that
    dot opens or closes the name. *)
Definition suffix (p : string) : string :=
  let name := basename p in
  let ext := after_last "." name in
  if existsb (Ascii.eqb ".") (list_ascii_of_string name)
  then
    if (String.length ext =? 0)%nat
       || (String.length ext + 1 =? String.length name)%nat
    then ""
    else String "." ext
  else "".

(** [str(n)] for an integer. *)
Definition str_int (n : Z) : string := NilZero.string_of_int (Z.to_int n).

(** [int(x)] for a float: truncation toward zero. *)
Definition int_of_float (x : Q) : Z := Z.quot (Qnum x) (Z.pos (Qden x)).

(** [max(a, min(b, x))] on floats, as Python evaluates it. *)
Definition fmin (a b : Q) : Q := if Qlt_le_dec b a then b else a.
Definition fmax (a b : Q) : Q := if Qlt_le_dec a b then b else a.

End Py.
Export Py.
Open Scope py_scope.

(** ** The staging directory *)

Module Files.

Definition STAGING : string := "temp-images".

(** [Path(folder) / filename] *)
Definition join (folder filename : string) : string :=
  folder ++ "/" ++ filename.

Definition no_such_file (path : string) : PyExc :=
  PyError "FileNotFoundError" ("No such file or directory: " ++ path).

(** [path.stat().st_size] *)
Definition stat_size (path : string) : M Z :=
  s <- get_staging ;;
  match s with
  | Some files =>
      match lookup files path with
      | Some bytes => ret (Z.of_nat (String.length bytes))
      | None => raise (no_such_file path)
      end
  | None => raise (no_such_file path)
  end.

(** The bytes of a file. *)
Definition read_bytes (path : string) : M string :=
  s <- get_staging ;;
  match s with
  | Some files =>
      match lookup files path with
      | Some bytes => ret bytes
      | None => raise (no_such_file path)
      end
  | None => raise (no_such_file path)
  end.

(** [os.path.exists(path)] *)
Definition exists_file (path : string) : M bool :=
  s <- get_staging ;;
  match s with
  | Some files =>
      ret (match lookup files path with Some _ => true | None => false end)
  | None => ret false
  end.

(** [with open(path, "wb") as f: f.write(bytes)] *)
Definition write_bytes (E : Env) (path bytes : string) : M unit :=
  s <- get_staging ;;
  match s with
  | Some files =>
      if can_write E path
      then put_staging (Some (assign files path bytes))
      else raise (PyError "OSError" ("cannot open " ++ path))
  | None => raise (no_such_file path)
  end.

(** What a tool that rewrites an existing file in place leaves there. *)
Definition overwrite (path bytes : string) : M unit :=
  s <- get_staging ;;
  match s with
  | Some files => put_staging (Some (assign files path bytes))
  | None => ret tt
  end.

(** [Path(STAGING).mkdir(parents=True, exist_ok=True)] *)
Definition mkdir (E : Env) : M unit :=
  s <- get_staging ;;
  match s with
  | Some _ => ret tt
  | None =>
      if can_create_dir E STAGING
      then put_staging (Some [])
      else raise (PyError "OSError" ("cannot create " ++ STAGING))
  end.

(** [if os.path.exists(STAGING): shutil.rmtree(STAGING)] *)
Definition rmtree : M unit := put_staging None.

End Files.

(** ** utils/image_compression.py *)

Module ImageCompression.

(** The dictionary a compression returns. *)
Inductive CompressResult : Type :=
| Compressed (original_size compressed_size : Z) (compression_ratio : Q)
             (size_reduction : Z) (compression_method : string)
             (quality_range : option string)
| NotCompressed (error : string).

Definition cr_success (r : CompressResult) : bool :=
  match r with Compressed _ _ _ _ _ _ => true | NotCompressed _ => false end.

(** The successful dictionary of [get_image_info]. *)
Record ImageInfo : Type := {
  info_format : option string;
  info_mode : string;
  info_size : Z * Z;
  info_width : Z;
  info_height : Z;
  info_file_size : Z
}.

(** The dictionary [get_image_info] returns. *)
Inductive InfoResult : Type :=
| Info (info : ImageInfo)
| NoInfo (error : string).

(** [(original_size - compressed_size) / original_size * 100 if original_size > 0 else 0] *)
Definition ratio (original_size compressed_size : Z) : Q :=
  if 0 <? original_size
  then (inject_Z (original_size - compressed_size) / inject_Z original_size * 100)%Q
  else 0%Q.

(** [min_quality] of [compress_png_with_pngquant], lines 66 and 70. *)
Definition min_quality (quality : Q) : Z :=
  Z.max 5 (Z.min 85 (int_of_float (5 + quality * 80)%Q)).

(** [max_quality] of [compress_png_with_pngquant], lines 67, 71 and 74-75. *)
Definition max_quality (quality : Q) : Z :=
  let max_quality := Z.max 20 (Z.min 95 (int_of_float (20 + quality * 75)%Q)) in
  if max_quality <=? min_quality quality
  then min_quality quality + 10
  else max_quality.

(** [pil_quality] of [compress_image], lines 196-197 and 205-206. *)
Definition pil_quality (quality : Q) : Z :=
  Z.max 1 (Z.min 100 (int_of_float (1 + quality * 99)%Q)).

(** [quality = max(0.0, min(1.0, quality))], line 174. *)
Definition clamp_quality (quality : Q) : Q := fmax 0 (fmin 1 quality).

(** [img.format or file_format], line 187. *)
Definition format_or (img : Image) (file_format : string) : string :=
  match img_format img with
  | Some f => if String.eqb f "" then file_format else f
  | None => file_format
  end.

(** [image_path.suffix.upper().lstrip(".")], line 177. *)
Definition file_format_of (image_path : string) : string :=
  lstrip_dot (upper (suffix image_path)).

(** [is_compression_supported] *)
Definition is_compression_supported (image_path : string) : bool :=
  existsb (String.eqb (lower (suffix image_path)))
          [".jpg"; ".jpeg"; ".png"; ".webp"].

Section WithEnv.
Variable E : Env.

Definition get_pngquant_path : option string := venv_pngquant E.

Definition check_pngquant_available : bool :=
  match get_pngquant_path with Some _ => true | None => false end.

Definition compress_png_with_pngquant (image_path : string) (quality : Q)
  : M CompressResult :=
  try_except
    (match get_pngquant_path with
     | None =>
         ret (NotCompressed
                "pngquant未找到。请安装: pip install pngquant-cli 或 brew install pngquant")
     | Some _ =>
         original_size <- Files.stat_size image_path ;;
         let lo := min_quality quality in
         let hi := max_quality quality in
         let range := str_int lo ++ "-" ++ str_int hi in
         bytes <- Files.read_bytes image_path ;;
         emit (RunPngquant image_path lo hi) ;;;
         result <- lift (pngquant E bytes lo hi) ;;
         Files.overwrite image_path (output_file result) ;;;
         if returncode result =? 0 then
           compressed_size <- Files.stat_size image_path ;;
           ret (Compressed original_size compressed_size
                  (ratio original_size compressed_size)
                  (original_size - compressed_size) "pngquant" (Some range))
         else if returncode result =? 99 then
           ret (NotCompressed
                  ("图像质量已经很好，无法在质量范围" ++ range ++ "内进一步压缩"))
         else
           let error_msg :=
             if String.eqb (stderr result) ""
             then "退出码: " ++ str_int (returncode result)
             else strip (stderr result) in
           ret (NotCompressed ("pngquant压缩失败: " ++ error_msg))
     end)
    (fun e =>
       match e with
       | TimeoutExpired _ => ret (NotCompressed "pngquant压缩超时")
       | _ => ret (NotCompressed ("pngquant压缩出错: " ++ str_exc e))
       end).

(** [img.convert(mode)] *)
Definition convert (img : Image) (mode : string) : Image :=
  {| img_format := img_format img; img_mode := mode;
     img_pixels := img_pixels img |}.

(** [img.save(image_path, format=..., quality=..., optimize=...)] *)
Definition save (image_path : string) (img : Image) (format : option string)
           (quality : option Z) (optimize : bool) : M unit :=
  emit (PilSave image_path format (img_mode img) quality) ;;;
  bytes <- lift (pil_save E image_path img format quality optimize) ;;
  Files.overwrite image_path bytes.

Definition compress_image (image_path : string) (quality : Q) (optimize : bool)
  : M CompressResult :=
  try_except
    (original_size <- Files.stat_size image_path ;;
     if negb (PIL_AVAILABLE E) then
       ret (NotCompressed "图像压缩功能需要安装 Pillow 库: pip install Pillow")
     else
       let quality := clamp_quality quality in
       let file_format := file_format_of image_path in
       if String.eqb file_format "PNG" then
         compress_png_with_pngquant image_path quality
       else
         bytes <- Files.read_bytes image_path ;;
         img <- lift (pil_open E bytes) ;;
         let img_format := format_or img file_format in
         (if existsb (String.eqb (upper img_format)) ["JPEG"; "JPG"] then
            let img :=
              if String.eqb (img_mode img) "RGB" then img
              else convert img "RGB" in
            save image_path img (Some "JPEG") (Some (pil_quality quality))
                 optimize
          else if String.eqb (upper img_format) "WEBP" then
            save image_path img (Some "WEBP") (Some (pil_quality quality))
                 optimize
          else
            save image_path img None None optimize) ;;;
         compressed_size <- Files.stat_size image_path ;;
         ret (Compressed original_size compressed_size
                (ratio original_size compressed_size)
                (original_size - compressed_size) "pillow" None))
    (fun e => ret (NotCompressed ("压缩图像失败: " ++ str_exc e))).

(** [get_image_info].  [size] is what Pillow gives as [img.size], the width
    and the height of the picture. *)
Definition get_image_info (size : Image -> Z * Z) (image_path : string)
  : M InfoResult :=
  try_except
    (if negb (PIL_AVAILABLE E) then
       ret (NoInfo "图像处理功能需要安装 Pillow 库: pip install Pillow")
     else
       bytes <- Files.read_bytes image_path ;;
       img <- lift (pil_open E bytes) ;;
       file_size <- Files.stat_size image_path ;;
       ret (Info {| info_format := img_format img;
                    info_mode := img_mode img;
                    info_size := size img;
                    info_width := fst (size img);
                    info_height := snd (size img);
                    info_file_size := file_size |}))
    (fun e => ret (NoInfo ("获取图像信息失败: " ++ str_exc e))).

End WithEnv.

End ImageCompression.

(** ** asyncio.gather *)

Module Asyncio.

Section Gather.
Context {A : Type}.

Fixpoint find_done (i : nat) (done : list (nat * Res A)) : option (Res A) :=
  match done with
  | [] => None
  | (j, r) :: done' => if Nat.eqb j i then Some r else find_done i done'
  end.

(** Runs the tasks named by [order], one after the other; an index that
    names no task, or a task that has already run, is passed over.  [done]
    pairs each finished task's index with its outcome, in completion order. *)
Fixpoint run_in_order (tasks : list (M A)) (order : list nat)
         (done : list (nat * Res A)) : World -> list (nat * Res A) * World :=
  fun w =>
    match order with
    | [] => (done, w)
    | i :: order' =>
        match nth_error tasks i, find_done i done with
        | Some task, None =>
            let (r, w') := task w in
            run_in_order tasks order' (done ++ [(i, r)]) w'
        | _, _ => run_in_order tasks order' done w
        end
    end.

(** Every task completes: first those of [order], then the rest. *)
Definition run_all (order : list nat) (tasks : list (M A))
  : World -> list (nat * Res A) * World :=
  run_in_order tasks (order ++ seq 0 (length tasks)) [].

(** The outcomes, back in the order of the tasks. *)
Definition in_task_order (n : nat) (done : list (nat * Res A)) : list (Res A) :=
  flat_map (fun i => match find_done i done with
                     | Some r => [r]
                     | None => []
                     end) (seq 0 n).

(** [await asyncio.gather] of the tasks with [return_exceptions=True] *)
Definition gather_return_exceptions (order : list nat) (tasks : list (M A))
  : M (list (Res A)) :=
  fun w =>
    let (done, w') := run_all order tasks w in
    (Val (in_task_order (length tasks) done), w').

Fixpoint first_raised (done : list (nat * Res A)) : option PyExc :=
  match done with
  | [] => None
  | (_, Raise e) :: _ => Some e
  | (_, Val _) :: done' => first_raised done'
  end.

Definition values (rs : list (Res A)) : list A :=
  flat_map (fun r => match r with Val a => [a] | Raise _ => [] end) rs.

(** [await asyncio.gather] of the tasks: the first exception raised is
    propagated to the caller. *)
Definition gather (order : list nat) (tasks : list (M A)) : M (list A) :=
  fun w =>
    let (done, w') := run_all order tasks w in
    match first_raised done with
    | Some e => (Raise e, w')
    | None => (Val (values (in_task_order (length tasks) done)), w')
    end.

End Gather.

End Asyncio.

(** ** utils/exceptions.py *)

Module Exceptions.

(** The dictionary [{"success": False, "error": ..., "status_code": ...}]. *)
Record Failure : Type := {
  error : string;
  failure_status_code : option Z
}.

(** A dictionary with a [success] key: the successful shape or the failure. *)
Inductive Result (A : Type) : Type :=
| Success (a : A)
| Failed (f : Failure).
Arguments Success {A} a.
Arguments Failed {A} f.

Definition failure (msg : string) : Failure :=
  {| error := msg; failure_status_code := None |}.

Section WithEnv.
Variable E : Env.

Definition handle_api_error (response : Response) (operation_name : string)
  : Failure :=
  let code := status_code response in
  let error_msg :=
    if code =? 403 then "访问被拒绝：请检查访问令牌权限或文件访问权限"
    else if code =? 404 then "文件未找到：请检查文件密钥是否正确"
    else if code =? 429 then "请求频率过高：已达到API速率限制，请稍后重试"
    else "API请求失败，状态码: " ++ str_int code in
  let error_msg :=
    match json_body response with
    | Some (JDict error_data) =>
        if dict_mem error_data "err" then
          error_msg ++ ", 错误信息: " ++ str_json E (dict_get error_data "err" JNull)
        else if dict_mem error_data "message" then
          error_msg ++ ", 错误信息: "
                    ++ str_json E (dict_get error_data "message" JNull)
        else error_msg
    | _ => error_msg
    end in
  {| error := error_msg; failure_status_code := Some code |}.

Definition handle_exception (e : PyExc) (operation_name : string) : Failure :=
  match e with
  | TimeoutException _ =>
      {| error := "请求超时：Figma API响应时间过长";
         failure_status_code := Some 408 |}
  | RequestError _ =>
      {| error := "网络请求错误: " ++ str_exc e; failure_status_code := Some 0 |}
  | _ =>
      {| error := operation_name ++ "时发生未知错误: " ++ str_exc e;
         failure_status_code := Some 500 |}
  end.

End WithEnv.

End Exceptions.
Export Exceptions.

(** ** utils/file_upload.py *)

Module FileUpload.

(** A constructed [CustomUploader]. *)
Record CustomUploader : Type := {
  secret_key : string;
  base_url : string
}.

(** [CustomUploader.__init__]: both configuration values must be present
    and non-empty. *)
Definition CustomUploader_init (config_secret_key config_upload_url : option string)
  : Res CustomUploader :=
  match config_secret_key with
  | None | Some "" =>
      Raise (PyError "ValueError"
               "Provider config must include 'secret_key'. Check your CUSTOM_SECRET_KEY env var.")
  | Some key =>
      match config_upload_url with
      | None | Some "" =>
          Raise (PyError "ValueError"
                   "Provider config must include 'upload_url'. Check your CUSTOM_UPLOAD_URL env var.")
      | Some url => Val {| secret_key := key; base_url := url |}
      end
  end.

(** The test of line 90: [code == 0] or a true [success]. *)
Definition reports_success (response_data : list (string * json)) : bool :=
  eq_zero (dict_get response_data "code" JNull)
  || truthy (dict_get response_data "success" JNull).

(** [CustomUploader._parse_response]: the pair [(file_url, error_msg)]. *)
Definition _parse_response (response_data : list (string * json)) : json * json :=
  if reports_success response_data
  then
    let data_field := dict_get response_data "data" JNull in
    match data_field with
    | JStr _ => (data_field, JNull)
    | JDict d => (dict_get d "url" JNull, JNull)
    | _ => (dict_get response_data "url" JNull, JNull)
    end
  else (JNull, dict_get response_data "message" (JStr "Unknown server error")).

(** The dictionary an upload returns. *)
Inductive UploadResult : Type :=
| Uploaded (file_name : string) (file_size : Z) (url : json) (file_path : string)
| NotUploaded (error : string) (file_path : string).

(** [r.get("success")] *)
Definition ur_success (r : UploadResult) : bool :=
  match r with Uploaded _ _ _ _ => true | NotUploaded _ _ => false end.

(** [r["file_path"]] *)
Definition ur_file_path (r : UploadResult) : string :=
  match r with Uploaded _ _ _ p => p | NotUploaded _ p => p end.

(** [r.get("file_size", 0)] *)
Definition ur_file_size (r : UploadResult) : Z :=
  match r with Uploaded _ s _ _ => s | NotUploaded _ _ => 0 end.

(** The dictionary [upload_multiple_files] returns. *)
Record BatchResult : Type := {
  success : bool;
  total_files : nat;
  successful_count : nat;
  failed_count : nat;
  successful_uploads : list UploadResult;
  failed_uploads : list UploadResult;
  total_size : Z
}.

(** What [upload_folder_images] returns. *)
Inductive FolderResult : Type :=
| FolderNotFound (error : string)
| NoImageFiles (message : string)
| Batch (b : BatchResult).

(** [upload_result.get("successful_uploads", [])] *)
Definition get_successful_uploads (r : FolderResult) : list UploadResult :=
  match r with
  | Batch b => successful_uploads b
  | _ => []
  end.

(** [upload_result.get("failed_uploads", [])] *)
Definition get_failed_uploads (r : FolderResult) : list UploadResult :=
  match r with
  | Batch b => failed_uploads b
  | _ => []
  end.

Section WithEnv.
Variable E : Env.

(** [CustomUploader.upload].  The signed query string (time stamp and MD5
    signature) added to the URL is left out: nothing read here depends on it. *)
Definition upload (self : CustomUploader) (file_path : string) : M UploadResult :=
  try_except
    (present <- Files.exists_file file_path ;;
     if negb present then
       ret (NotUploaded ("File does not exist: " ++ file_path) file_path)
     else
       let file_name := basename file_path in
       file_size <- Files.stat_size file_path ;;
       bytes <- Files.read_bytes file_path ;;
       emit (PostFile file_path) ;;;
       response <- lift (http_post E file_path bytes) ;;
       if negb (status_code response =? 200) then
         ret (NotUploaded ("HTTP error: " ++ str_int (status_code response))
                          file_path)
       else
         result_data <- lift (response_json response) ;;
         match result_data with
         | JDict response_data =>
             let (file_url, error_msg) := _parse_response response_data in
             if truthy error_msg then
               ret (NotUploaded ("Server error: " ++ str_json E error_msg)
                                file_path)
             else
               ret (Uploaded file_name file_size file_url file_path)
         | _ =>
             ret (NotUploaded
                    ("Server returned non-JSON response: "
                       ++ str_json E result_data) file_path)
         end)
    (fun e => ret (NotUploaded (str_exc e) file_path)).

(** [get_storage_provider].  The instance is built from the environment,
    which does not change, so building it again gives the cached one. *)
Definition get_storage_provider : Res CustomUploader :=
  let provider_name :=
    lower (match STORAGE_PROVIDER E with Some p => p | None => "custom" end) in
  if String.eqb provider_name "custom"
  then CustomUploader_init (CUSTOM_SECRET_KEY E) (CUSTOM_UPLOAD_URL E)
  else Raise (PyError "ValueError"
                ("Unsupported storage provider: " ++ provider_name)).

Definition upload_file (file_path : string) : M UploadResult :=
  try_except
    (provider <- lift get_storage_provider ;;
     upload provider file_path)
    (fun e => ret (NotUploaded (str_exc e) file_path)).

Definition sum_sizes (rs : list UploadResult) : Z :=
  fold_left (fun acc r => acc + ur_file_size r) rs 0.

(** [order] is the order in which the uploads happen to complete. *)
Definition upload_multiple_files (order : list nat) (file_paths : list string)
  : M BatchResult :=
  let tasks := map upload_file file_paths in
  results <- Asyncio.gather order tasks ;;
  let successful_uploads := filter ur_success results in
  let failed_uploads := filter (fun r => negb (ur_success r)) results in
  let total_size := sum_sizes successful_uploads in
  ret {| success := match failed_uploads with [] => true | _ => false end;
         total_files := length file_paths;
         successful_count := length successful_uploads;
         failed_count := length failed_uploads;
         successful_uploads := successful_uploads;
         failed_uploads := failed_uploads;
         total_size := total_size |}.

Definition default_extensions : list string :=
  [".png"; ".jpg"; ".jpeg"; ".gif"; ".svg"; ".webp"].

(** [p.rglob("*" + ext)] restricted to files, as strings. *)
Definition rglob (files : list (string * string)) (ext : string) : list string :=
  map fst (filter (fun f => endswith (fst f) ext) files).

Definition upload_folder_images (order : list nat) (folder_path : string)
           (file_extensions : option (list string)) : M FolderResult :=
  let file_extensions :=
    match file_extensions with
    | None => default_extensions
    | Some l => l
    end in
  s <- get_staging ;;
  match (if String.eqb folder_path Files.STAGING then s else None) with
  | None => ret (FolderNotFound ("Folder not found: " ++ folder_path))
  | Some files =>
      let image_files := flat_map (rglob files) file_extensions in
      match image_files with
      | [] =>
          ret (NoImageFiles ("No image files found in folder: " ++ folder_path))
      | _ =>
          b <- upload_multiple_files order image_files ;;
          ret (Batch b)
      end
  end.

End WithEnv.

End FileUpload.

(** ** utils/image_export.py *)

Module ImageExport.
Import ImageCompression.

(** The successful dictionary of [get_child_node_ids]. *)
Record ChildNodes : Type := {
  child_node_ids : list json;
  parent_nodes : list string;
  total_children : nat
}.

(** The successful dictionary of [get_figma_images_data]. *)
Record ImagesData : Type := {
  images : list (string * json);
  failed_nodes : list string;     (* key present only when not empty *)
  err : json
}.

(** What the compression step adds to the dictionary of a download. *)
Inductive Compression : Type :=
| NotTried
| CompressedTo (original_size : Z) (compression_ratio : Q) (size_reduction : Z)
               (compression_method : string)
| CompressionError (compression_error : string).

(** The dictionary [download_image_from_url] returns. *)
Inductive DownloadResult : Type :=
| Downloaded (file_path filename : string) (file_size : Z) (c : Compression)
| NotDownloaded (error : string).

(** An entry of [downloaded_files]. *)
Record DownloadedFile : Type := {
  df_node_id : string;
  df_file_path : string;
  df_filename : string;
  df_file_size : Z;
  uses_original_name : bool
}.

(** An entry of [failed_downloads]. *)
Record FailedDownload : Type := {
  fd_node_id : string;
  fd_error : string
}.

(** The successful dictionary of [export_figma_images_to_folder]. *)
Record Export : Type := {
  downloaded_files : list DownloadedFile;
  failed_downloads : list FailedDownload   (* key present only when not empty *)
}.

(** Lines 54-63: the ids of the direct children of every parent. *)
Fixpoint child_ids (children : list json) : Res (list json) :=
  match children with
  | [] => Val []
  | child :: rest =>
      rbind (py_get child "id" JNull) (fun child_id =>
      rbind (child_ids rest) (fun ids =>
      Val (if truthy child_id then child_id :: ids else ids)))
  end.

Fixpoint collect_children (nodes : list (string * json)) : Res (list json) :=
  match nodes with
  | [] => Val []
  | (_, node_info) :: rest =>
      rbind (if truthy node_info then py_contains "document" node_info
             else Val false) (fun has_document =>
      rbind (if has_document then
               rbind (py_index node_info "document") (fun document =>
               rbind (py_get document "children" (JList [])) (fun children =>
               rbind (py_iter children) child_ids))
             else Val []) (fun ids =>
      rbind (collect_children rest) (fun more => Val (ids ++ more)%list)))
  end.

(** The characters the regular expression of line 328 replaces by an
    underscore: the angle brackets, colon, double quote, slash, backslash,
    bar, question mark and star. *)
Definition illegal (c : ascii) : bool :=
  existsb (Ascii.eqb c)
          ["<"; ">"; ":"; "034"; "/"; "\"; "|"; "?"; "*"]%char.

Definition safe_name (node_name : string) : string :=
  strip (smap (fun c => if illegal c then "_"%char else c) node_name).

(** Lines 320-331.  The names are stored one by one: what was stored before
    an exception stays. *)
Fixpoint extract_names (nodes : list (string * json))
         (node_names : list (string * string)) : list (string * string) :=
  match nodes with
  | [] => node_names
  | (node_id, node_info) :: rest =>
      match (if truthy node_info then py_contains "document" node_info
             else Val false) with
      | Raise _ => node_names
      | Val false => extract_names rest node_names
      | Val true =>
          match rbind (py_index node_info "document")
                      (fun document => py_get document "name" (JStr "")) with
          | Val (JStr name) =>
              let node_name := strip name in
              if String.eqb node_name "" then extract_names rest node_names
              else if String.eqb (safe_name node_name) ""
                   then extract_names rest node_names
                   else extract_names rest
                          (assign node_names node_id (safe_name node_name))
          | _ => node_names
          end
      end
  end.

Fixpoint join_comma (l : list string) : string :=
  match l with
  | [] => ""
  | [x] => x
  | x :: rest => x ++ ", " ++ join_comma rest
  end.

Definition valid_formats : list string := ["jpg"; "png"; "svg"; "pdf"].

(** [0.01 <= scale <= 4.0] *)
Definition scale_in_range (scale : Q) : bool :=
  Qle_bool (1 # 100) scale && Qle_bool scale 4.

Section WithEnv.
Variable E : Env.

Definition get_child_node_ids (file_key access_token node_ids : string)
  : M (Result ChildNodes) :=
  try_except
    (emit (GetNodes file_key node_ids) ;;;
     response <- lift (figma_nodes E file_key node_ids) ;;
     if status_code response =? 200 then
       data <- lift (response_json response) ;;
       nodes <- lift (py_get data "nodes" (JDict [])) ;;
       items <- lift (py_items nodes) ;;
       ids <- lift (collect_children items) ;;
       ret (Success {| child_node_ids := ids;
                       parent_nodes := map fst items;
                       total_children := length ids |})
     else
       ret (Failed (handle_api_error E response "获取子节点信息")))
    (fun e => ret (Failed (handle_exception e "获取子节点信息"))).

Definition get_figma_images_data (file_key access_token node_ids format : string)
           (scale : Q) : M (Result ImagesData) :=
  try_except
    (if negb (existsb (String.eqb format) valid_formats) then
       ret (Failed (failure ("无效的图像格式: " ++ format ++ "。支持的格式: "
                               ++ join_comma valid_formats)))
     else if negb (scale_in_range scale) then
       ret (Failed (failure ("无效的缩放比例: " ++ repr_float E scale
                               ++ "。缩放比例必须在0.01到4之间")))
     else
       emit (GetImages file_key node_ids format scale) ;;;
       response <- lift (figma_images E file_key node_ids format scale) ;;
       if status_code response =? 200 then
         data <- lift (response_json response) ;;
         imgs <- lift (py_get data "images" (JDict [])) ;;
         e <- lift (py_get data "err" JNull) ;;
         items <- lift (py_items imgs) ;;
         let failed :=
           map fst (filter (fun kv => negb (truthy (snd kv))) items) in
         ret (Success {| images := items; failed_nodes := failed; err := e |})
       else
         ret (Failed (handle_api_error E response "图像获取")))
    (fun e => ret (Failed (handle_exception e "获取Figma图像"))).

(** [await client.get(image_url)]: a value that is not a string is refused
    before anything is sent. *)
Definition client_get (image_url : json) (attempt : nat) : M Response :=
  match image_url with
  | JStr url => emit (GetUrl url) ;;; lift (http_get E url attempt)
  | _ => raise (type_error "Invalid type for url")
  end.

(** Lines 193-241: a response with status 200 has arrived. *)
Definition store (response : Response) (full_path filename : string)
           (compression_quality : Q) : M DownloadResult :=
  Files.write_bytes E full_path (content response) ;;;
  let original_size := Z.of_nat (String.length (content response)) in
  if is_compression_supported full_path then
    compression_result <- compress_image E full_path compression_quality true ;;
    match compression_result with
    | Compressed original compressed r reduction method _ =>
        ret (Downloaded full_path filename compressed
               (CompressedTo original r reduction method))
    | NotCompressed error =>
        ret (Downloaded full_path filename original_size
               (CompressionError error))
    end
  else
    ret (Downloaded full_path filename original_size NotTried).

(** One turn of the loop of line 187: [Some r] when the turn returns [r],
    [None] when it ends in [continue]. *)
Definition attempt_once (image_url : json) (full_path filename : string)
           (compression_quality : Q) (max_retries : Z) (attempt : nat)
  : M (option DownloadResult) :=
  try_except
    (response <- client_get image_url attempt ;;
     if status_code response =? 200 then
       r <- store response full_path filename compression_quality ;;
       ret (Some r)
     else if Z.of_nat attempt <? max_retries then
       emit (Sleep (2 ^ Z.of_nat attempt)) ;;;
       ret None
     else
       ret (Some (NotDownloaded
                    ("下载失败，状态码: " ++ str_int (status_code response)))))
    (fun e =>
       if Z.of_nat attempt <? max_retries then
         emit (Sleep (2 ^ Z.of_nat attempt)) ;;;
         ret None
       else
         ret (Some (NotDownloaded ("下载图像时发生错误: " ++ str_exc e)))).

(** The loop [for attempt in range(max_retries + 1)], with [remaining] turns
    still to come, and the [return] that follows it. *)
Fixpoint attempts (image_url : json) (full_path filename : string)
         (compression_quality : Q) (max_retries : Z)
         (remaining attempt : nat) : M DownloadResult :=
  match remaining with
  | O => ret (NotDownloaded "所有下载尝试都失败了")
  | S remaining' =>
      r <- attempt_once image_url full_path filename compression_quality
             max_retries attempt ;;
      match r with
      | Some result => ret result
      | None =>
          attempts image_url full_path filename compression_quality max_retries
                   remaining' (S attempt)
      end
  end.

(** [save_path] is always the staging directory. *)
Definition download_image_from_url (image_url : json) (filename : string)
           (compression_quality : Q) (max_retries : Z) : M DownloadResult :=
  Files.mkdir E ;;;
  let full_path := Files.join Files.STAGING filename in
  attempts image_url full_path filename compression_quality max_retries
           (Z.to_nat (max_retries + 1)) 0.

(** Lines 296-334: the names of the nodes, as far as they can be had. *)
Definition fetch_node_names (file_key access_token node_ids : string)
  : M (list (string * string)) :=
  try_except
    (emit (GetNodes file_key node_ids) ;;;
     response <- lift (figma_nodes E file_key node_ids) ;;
     if status_code response =? 200 then
       nodes_data <- lift (response_json response) ;;
       nodes <- lift (py_get nodes_data "nodes" (JDict [])) ;;
       items <- lift (py_items nodes) ;;
       ret (extract_names items [])
     else ret [])
    (fun _ => ret []).

(** Lines 372-376: the file name of the node at position [i]. *)
Definition choose_filename (node_names : list (string * string))
           (format : string) (i : nat) (node_id : string) : string :=
  match lookup node_names node_id with
  | Some name => name ++ "." ++ format
  | None =>
      "figma_export_" ++ node_id ++ "_" ++ now E i ++ "_"
        ++ str_int (Z.of_nat (i + 1)) ++ "." ++ format
  end.

(** Lines 366-385, from position [i] on: the nodes without URL, and the
    download tasks with their node ids and file names. *)
Fixpoint plan_downloads (node_names : list (string * string))
         (format : string) (items : list (string * json)) (i : nat)
  : list FailedDownload * list (string * (json * string)) :=
  match items with
  | [] => ([], [])
  | (node_id, image_url) :: rest =>
      let (failed, tasks) := plan_downloads node_names format rest (S i) in
      if negb (truthy image_url)
      then ({| fd_node_id := node_id; fd_error := "图像URL为空" |} :: failed,
            tasks)
      else (failed,
            (node_id, (image_url, choose_filename node_names format i node_id))
              :: tasks)
  end.

(** Lines 394-413: one result of the gathering, put on its list. *)
Definition file_result (node_names : list (string * string))
           (node_id : string) (result : Res DownloadResult)
  : DownloadedFile + FailedDownload :=
  match result with
  | Raise e => inr {| fd_node_id := node_id; fd_error := str_exc e |}
  | Val (Downloaded file_path filename file_size _) =>
      inl {| df_node_id := node_id;
             df_file_path := file_path;
             df_filename := filename;
             df_file_size := file_size;
             uses_original_name :=
               match lookup node_names node_id with
               | Some _ => true
               | None => false
               end |}
  | Val (NotDownloaded error) =>
      inr {| fd_node_id := node_id; fd_error := error |}
  end.

Fixpoint lefts {A B} (l : list (A + B)) : list A :=
  match l with
  | [] => []
  | inl a :: l' => a :: lefts l'
  | inr _ :: l' => lefts l'
  end.

Fixpoint rights {A B} (l : list (A + B)) : list B :=
  match l with
  | [] => []
  | inl _ :: l' => rights l'
  | inr b :: l' => b :: rights l'
  end.

(** [order] is the order in which the downloads happen to complete. *)
Definition export_figma_images_to_folder (order : list nat)
           (file_key access_token node_ids format : string) (scale : Q)
           (compression_quality : Q) : M (Result Export) :=
  try_except
    (node_names <- fetch_node_names file_key access_token node_ids ;;
     images_data <- get_figma_images_data file_key access_token node_ids
                      format scale ;;
     match images_data with
     | Failed f => ret (Failed f)
     | Success data =>
         match images data with
         | [] => ret (Failed (failure "未获取到任何图像URL"))
         | items =>
             Files.mkdir E ;;;
             let (failed_early, download_tasks) :=
               plan_downloads node_names format items 0 in
             results <-
               match download_tasks with
               | [] => ret []
               | _ =>
                   Asyncio.gather_return_exceptions order
                     (map (fun t =>
                             download_image_from_url (fst (snd t)) (snd (snd t))
                               compression_quality 3)
                          download_tasks)
               end ;;
             let sorted :=
               map (fun p => file_result node_names (fst (fst p)) (snd p))
                   (combine download_tasks results) in
             ret (Success {| downloaded_files := lefts sorted;
                             failed_downloads := (failed_early ++ rights sorted)%list |})
         end
     end)
    (fun e => ret (Failed (handle_exception e "导出Figma图像到文件夹"))).

End WithEnv.

End ImageExport.

(** ** server.py *)

Module Server.
Import FileUpload ImageExport.

(** The report: the only dictionary a caller of the tool sees on success. *)
Record Report : Type := {
  report_successful_uploads : list (string * json);   (* name, url *)
  report_failed_uploads : list (string * string)      (* name, error *)
}.

(** [",".join(child_node_ids)] *)
Fixpoint join_ids (ids : list json) : Res string :=
  match ids with
  | [] => Val ""
  | JStr x :: rest =>
      match rest with
      | [] => Val x
      | _ => rbind (join_ids rest) (fun s => Val (x ++ "," ++ s))
      end
  | _ => Raise (type_error "sequence item: expected str instance")
  end.

Definition successful_entry (upload : UploadResult) : list (string * json) :=
  match upload with
  | Uploaded file_name _ url _ => [(file_name, url)]
  | NotUploaded _ _ => []
  end.

Definition failed_entry (upload : UploadResult) : list (string * string) :=
  match upload with
  | NotUploaded error file_path => [(basename file_path, error)]
  | Uploaded _ _ _ _ => []
  end.

Section WithEnv.
Variable E : Env.

(** [download_order] and [upload_order] are the orders in which the
    concurrent downloads and uploads happen to complete. *)
Definition get_figma_images (download_order upload_order : list nat)
           (file_key node_ids format : string) (scale compression_quality : Q)
           (export_children : bool) : M (Result Report) :=
  match FIGMA_ACCESS_TOKEN E with
  | None | Some "" =>
      raise (PyError "ValueError" "FIGMA_ACCESS_TOKEN environment variable not set.")
  | Some access_token =>
      try_except
        (Files.rmtree ;;;
         resolved <-
           (if export_children then
              child_nodes_result <- get_child_node_ids E file_key access_token
                                      node_ids ;;
              match child_nodes_result with
              | Failed f => ret (inr f)
              | Success c =>
                  match child_node_ids c with
                  | [] => ret (inr (failure "指定节点没有子节点可导出"))
                  | ids => target <- lift (join_ids ids) ;; ret (inl target)
                  end
              end
            else ret (inl node_ids)) ;;
         match resolved with
         | inr f => ret (Failed f)
         | inl target_node_ids =>
             result <- export_figma_images_to_folder E download_order file_key
                         access_token target_node_ids format scale
                         compression_quality ;;
             match result with
             | Failed f => ret (Failed f)
             | Success exported =>
                 match downloaded_files exported with
                 | [] =>
                     ret (Success {| report_successful_uploads := [];
                                     report_failed_uploads := [] |})
                 | _ =>
                     upload_result <- upload_folder_images E upload_order
                                        "temp-images" None ;;
                     ret (Success
                            {| report_successful_uploads :=
                                 flat_map successful_entry
                                          (get_successful_uploads upload_result);
                               report_failed_uploads :=
                                 flat_map failed_entry
                                          (get_failed_uploads upload_result) |})
                 end
             end
         end)
        (fun e => ret (Failed (handle_exception e "获取Figma图像")))
  end.

End WithEnv.

End Server.

(** * Notions used to state the properties

    Reference rounding and clamping, the outcome of a single upload or
    download run by itself, the shape of a retry trace, and the concrete
    environments in which the properties are exercised. *)

Import ImageCompression FileUpload ImageExport Server.


(** The staging directory after an optional rewrite of the file [p]. *)
Definition rewritten (p : string) (ob : option string)
           (files : list (string * string)) : list (string * string) :=
  match ob with
  | Some b => assign files p b
  | None => files
  end.

(** An environment without network, where Pillow reads every file as a JPEG
    in palette mode. *)
Definition offline_env : Env := {|
  FIGMA_ACCESS_TOKEN := Some "token";
  STORAGE_PROVIDER := None;
  CUSTOM_SECRET_KEY := Some "secret";
  CUSTOM_UPLOAD_URL := Some "https://upload.example";
  figma_nodes := fun _ _ => Raise (RequestError "offline");
  figma_images := fun _ _ _ _ => Raise (RequestError "offline");
  http_get := fun _ _ => Raise (RequestError "offline");
  http_post := fun _ _ => Raise (RequestError "offline");
  can_create_dir := fun _ => true;
  can_write := fun _ => true;
  now := fun _ => "20250101_120000";
  repr_float := fun _ => "1.0";
  repr_json := fun _ => "{}";
  PIL_AVAILABLE := true;
  venv_pngquant := None;
  pngquant := fun _ _ _ => Raise (PyError "OSError" "pngquant missing");
  pil_open := fun bytes =>
    Val {| img_format := Some "JPEG"; img_mode := "P"; img_pixels := bytes |};
  pil_save := fun _ img _ _ _ => Val (img_pixels img)
|}.

Definition jpeg_world : World :=
  {| staging := Some [("temp-images/a.jpg", "jpeg bytes")]; trace := [] |}.


(** A frame whose document has no children. *)
Definition childless_env : Env := {|
  FIGMA_ACCESS_TOKEN := Some "token";
  STORAGE_PROVIDER := None;
  CUSTOM_SECRET_KEY := Some "secret";
  CUSTOM_UPLOAD_URL := Some "https://upload.example";
  figma_nodes := fun _ _ =>
    Val {| status_code := 200; content := "";
           json_body :=
             Some (JDict [("nodes",
                           JDict [("1:2",
                                   JDict [("document",
                                           JDict [("name", JStr "Frame");
                                                  ("children", JList [])])])])]) |};
  figma_images := fun _ _ _ _ => Raise (RequestError "offline");
  http_get := fun _ _ => Raise (RequestError "offline");
  http_post := fun _ _ => Raise (RequestError "offline");
  can_create_dir := fun _ => true;
  can_write := fun _ => true;
  now := fun _ => "20250101_120000";
  repr_float := fun _ => "1.0";
  repr_json := fun _ => "{}";
  PIL_AVAILABLE := true;
  venv_pngquant := None;
  pngquant := fun _ _ _ => Raise (PyError "OSError" "pngquant missing");
  pil_open := fun _ => Raise (PyError "OSError" "cannot identify image file");
  pil_save := fun _ _ _ _ _ => Raise (PyError "OSError" "cannot write")
|}.

(** An attempt fails when the transport raises or the status is not 200. *)
Definition attempt_fails (r : Res Response) : Prop :=
  match r with
  | Val response => status_code response <> 200
  | Raise _ => True
  end.

(** The message of the failure returned after a last failed attempt. *)
Definition exhausted_error (r : Res Response) : string :=
  match r with
  | Val response => "下载失败，状态码: " ++ str_int (status_code response)
  | Raise e => "下载图像时发生错误: " ++ str_exc e
  end.

(** The requests for image URLs in a trace, and the delays slept. *)
Definition requests (t : list Event) : list string :=
  flat_map (fun e => match e with GetUrl u => [u] | _ => [] end) t.

Definition delays (t : list Event) : list Z :=
  flat_map (fun e => match e with Sleep s => [s] | _ => [] end) t.

(** [n] failed attempts each followed by its back-off, starting with the
    attempt numbered [from]. *)
Definition backoff (url : string) (from n : nat) : list Event :=
  flat_map (fun k => [GetUrl url; Sleep (2 ^ Z.of_nat k)]) (seq from n).

(** The result [upload_file] gives for a path when it runs by itself in [w]. *)
Definition upload_alone (E : Env) (w : World) (file_path : string) : UploadResult :=
  match fst (upload_file E file_path w) with
  | Val r => r
  | Raise e => NotUploaded (str_exc e) file_path
  end.

(** A successful download has written its file; a failed one has written
    nothing. *)
Definition stored (p filename : string) (r : DownloadResult)
           (ob : option string) : Prop :=
  match r with
  | Downloaded file_path name _ _ =>
      file_path = p /\ name = filename /\ ob <> None
  | NotDownloaded _ => ob = None
  end.

(** A world with an empty staging directory and nothing done yet. *)
Definition fresh_world : World := {| staging := Some []; trace := [] |}.

(** The outcome of a download task, node id with URL and file name, when it
    runs by itself in an empty staging directory. *)
Definition download_alone (E : Env) (quality : Q)
           (task : string * (json * string)) : Res DownloadResult :=
  fst (download_image_from_url E (fst (snd task)) (snd (snd task)) quality 3
                               fresh_world).

Definition download_ok (E : Env) (quality : Q)
           (task : string * (json * string)) : bool :=
  match download_alone E quality task with
  | Val (Downloaded _ _ _ _) => true
  | _ => false
  end.

(** The names [export_figma_images_to_folder] obtains for the nodes. *)
Definition node_names_of (E : Env) (file_key access_token node_ids : string)
  : list (string * string) :=
  match fst (fetch_node_names E file_key access_token node_ids fresh_world) with
  | Val names => names
  | Raise _ => []
  end.

(** Two nodes with images, of which the second cannot be fetched; the
    server accepts every file. *)
Definition mixed_env : Env := {|
  FIGMA_ACCESS_TOKEN := Some "token";
  STORAGE_PROVIDER := None;
  CUSTOM_SECRET_KEY := Some "secret";
  CUSTOM_UPLOAD_URL := Some "https://upload.example";
  figma_nodes := fun _ _ => Raise (RequestError "offline");
  figma_images := fun _ _ _ _ =>
    Val {| status_code := 200; content := "";
           json_body :=
             Some (JDict [("images",
                           JDict [("1:2", JStr "https://img.example/2");
                                  ("1:3", JStr "https://img.example/3")])]) |};
  http_get := fun url _ =>
    if String.eqb url "https://img.example/2"
    then Val {| status_code := 200; content := "image bytes"; json_body := None |}
    else Val {| status_code := 404; content := ""; json_body := None |};
  http_post := fun _ _ =>
    Val {| status_code := 200; content := "";
           json_body := Some (JDict [("success", JBool true);
                                     ("url", JStr "https://cdn.example/2.png")]) |};
  can_create_dir := fun _ => true;
  can_write := fun _ => true;
  now := fun _ => "20250101_120000";
  repr_float := fun _ => "1.0";
  repr_json := fun _ => "{}";
  PIL_AVAILABLE := false;
  venv_pngquant := None;
  pngquant := fun _ _ _ => Raise (PyError "OSError" "pngquant missing");
  pil_open := fun _ => Raise (PyError "OSError" "cannot identify image file");
  pil_save := fun _ _ _ _ _ => Raise (PyError "OSError" "cannot write")
|}.

(** A staging directory holding one image. *)
Definition one_file_world : World :=
  {| staging := Some [("temp-images/a.png", "image bytes")]; trace := [] |}.

(** [c] occurs in [s]. *)
Fixpoint occurs (c : ascii) (s : string) : bool :=
  match s with
  | EmptyString => false
  | String a s' => Ascii.eqb a c || occurs c s'
  end.

(** The file name of a download task. *)
Definition task_filename (t : string * (json * string)) : string := snd (snd t).


(** Two frames, both called icon, each with an image. *)
Definition twin_env : Env := {|
  FIGMA_ACCESS_TOKEN := Some "token";
  STORAGE_PROVIDER := None;
  CUSTOM_SECRET_KEY := Some "secret";
  CUSTOM_UPLOAD_URL := Some "https://upload.example";
  figma_nodes := fun _ _ =>
    Val {| status_code := 200; content := "";
           json_body :=
             Some (JDict [("nodes",
                           JDict [("1:2", JDict [("document",
                                                  JDict [("name", JStr "icon")])]);
                                  ("1:3", JDict [("document",
                                                  JDict [("name", JStr "icon")])])])]) |};
  figma_images := fun _ _ _ _ =>
    Val {| status_code := 200; content := "";
           json_body :=
             Some (JDict [("images",
                           JDict [("1:2", JStr "https://img.example/2");
                                  ("1:3", JStr "https://img.example/3")])]) |};
  http_get := fun url _ => Val {| status_code := 200; content := url;
                                  json_body := None |};
  http_post := fun _ _ =>
    Val {| status_code := 200; content := "";
           json_body := Some (JDict [("code", JNum 0);
                                     ("data", JStr "https://cdn.example/icon.png")]) |};
  can_create_dir := fun _ => true;
  can_write := fun _ => true;
  now := fun _ => "20250101_120000";
  repr_float := fun _ => "1.0";
  repr_json := fun _ => "{}";
  PIL_AVAILABLE := true;
  venv_pngquant := None;
  pngquant := fun _ _ _ => Raise (PyError "OSError" "pngquant missing");
  pil_open := fun _ => Raise (PyError "OSError" "cannot identify image file");
  pil_save := fun _ _ _ _ _ => Raise (PyError "OSError" "cannot write")
|}.

(** The node ids the export works on: the children when they are asked
    for, the requested nodes otherwise. *)
Definition resolves_to (E : Env) (file_key access_token node_ids : string)
           (export_children : bool) (target : string) : Prop :=
  if export_children then
    exists c,
      fst (get_child_node_ids E file_key access_token node_ids fresh_world)
      = Val (Success c) /\
      child_node_ids c <> [] /\
      join_ids (child_node_ids c) = Val target
  else target = node_ids.

(** The provider is configured and the server accepts the file at
    [file_path], whatever its bytes. *)
Definition upload_succeeds (E : Env) (file_path : string) : Prop :=
  (exists self, get_storage_provider E = Val self) /\
  forall bytes, exists response body,
      http_post E file_path bytes = Val response /\
      status_code response = 200 /\
      json_body response = Some (JDict body) /\
      truthy (snd (_parse_response body)) = false.

(** Two nodes requested; the image query leaves 1:2 without URL. *)
Definition one_empty_env : Env := {|
  FIGMA_ACCESS_TOKEN := Some "token";
  STORAGE_PROVIDER := None;
  CUSTOM_SECRET_KEY := Some "secret";
  CUSTOM_UPLOAD_URL := Some "https://upload.example";
  figma_nodes := fun _ _ => Raise (RequestError "offline");
  figma_images := fun _ _ _ _ =>
    Val {| status_code := 200; content := "";
           json_body :=
             Some (JDict [("err", JNull);
                          ("images",
                           JDict [("1:2", JNull);
                                  ("1:3", JStr "https://img.example/3")])]) |};
  http_get := fun url _ => Val {| status_code := 200; content := "image bytes";
                                  json_body := None |};
  http_post := fun _ _ =>
    Val {| status_code := 200; content := "";
           json_body := Some (JDict [("code", JNum 0);
                                     ("data", JStr "https://cdn.example/3.png")]) |};
  can_create_dir := fun _ => true;
  can_write := fun _ => true;
  now := fun _ => "20250101_120000";
  repr_float := fun _ => "1.0";
  repr_json := fun _ => "{}";
  PIL_AVAILABLE := true;
  venv_pngquant := None;
  pngquant := fun _ _ _ => Raise (PyError "OSError" "pngquant missing");
  pil_open := fun _ => Raise (PyError "OSError" "cannot identify image file");
  pil_save := fun _ _ _ _ _ => Raise (PyError "OSError" "cannot write")
|}.

(** A staging directory left over from an earlier run. *)
Definition stale_world : World :=
  {| staging := Some [("temp-images/old.png", "stale")]; trace := [] |}.

(** The situation of the example: the token is set, the node ids resolve to
    [target], the staging directory can be created, the image query answers
    with two nodes of which [empty] has no URL and [valid] has one, and the
    download and the upload of the node with a URL succeed. *)
Definition empty_url_scenario (E : Env)
           (file_key node_ids access_token target : string) (quality : Q)
           (export_children : bool) (data : ImagesData)
           (empty valid : string) (u0 u1 : json) : Prop :=
  FIGMA_ACCESS_TOKEN E = Some access_token /\
  access_token <> "" /\
  resolves_to E file_key access_token node_ids export_children target /\
  can_create_dir E Files.STAGING = true /\
  fst (get_figma_images_data E file_key access_token target "png" 1 fresh_world)
  = Val (Success data) /\
  (images data = [(empty, u0); (valid, u1)] \/
   images data = [(valid, u1); (empty, u0)]) /\
  truthy u0 = false /\
  truthy u1 = true /\
  forall task,
    In task (snd (plan_downloads
                    E (node_names_of E file_key access_token target) "png"
                    (images data) 0)) ->
    download_ok E quality task = true /\
    upload_succeeds E (Files.join Files.STAGING (task_filename task)).

(** The event is a run of pngquant or a save by Pillow. *)
Definition is_tool (e : Event) : bool :=
  match e with
  | RunPngquant _ _ _ | PilSave _ _ _ _ => true
  | _ => false
  end.

(** The event belongs to a download: a request for an image URL, a back-off
    or a compression. *)
Definition is_download (e : Event) : bool :=
  match e with
  | GetUrl _ | Sleep _ => true
  | _ => is_tool e
  end.

(** Whatever the world, [c] adds to the trace only events accepted by [P]. *)
Definition appends {A : Type} (P : Event -> bool) (c : M A) : Prop :=
  forall w, exists t,
    trace (snd (c w)) = (trace w ++ t)%list /\ forallb P t = true.

(** The value of an environment variable is there and not empty. *)
Definition nonempty (v : option string) : bool :=
  match v with
  | Some (String _ _) => true
  | _ => false
  end.


(** [E] with another upload server. *)
Definition with_http_post (E : Env) (post : string -> string -> Res Response)
  : Env := {|
  FIGMA_ACCESS_TOKEN := FIGMA_ACCESS_TOKEN E;
  STORAGE_PROVIDER := STORAGE_PROVIDER E;
  CUSTOM_SECRET_KEY := CUSTOM_SECRET_KEY E;
  CUSTOM_UPLOAD_URL := CUSTOM_UPLOAD_URL E;
  figma_nodes := figma_nodes E;
  figma_images := figma_images E;
  http_get := http_get E;
  http_post := post;
  can_create_dir := can_create_dir E;
  can_write := can_write E;
  now := now E;
  repr_float := repr_float E;
  repr_json := repr_json E;
  PIL_AVAILABLE := PIL_AVAILABLE E;
  venv_pngquant := venv_pngquant E;
  pngquant := pngquant E;
  pil_open := pil_open E;
  pil_save := pil_save E
|}.

(** [E] with another server of image files. *)
Definition with_http_get (E : Env) (get : string -> nat -> Res Response)
  : Env := {|
  FIGMA_ACCESS_TOKEN := FIGMA_ACCESS_TOKEN E;
  STORAGE_PROVIDER := STORAGE_PROVIDER E;
  CUSTOM_SECRET_KEY := CUSTOM_SECRET_KEY E;
  CUSTOM_UPLOAD_URL := CUSTOM_UPLOAD_URL E;
  figma_nodes := figma_nodes E;
  figma_images := figma_images E;
  http_get := get;
  http_post := http_post E;
  can_create_dir := can_create_dir E;
  can_write := can_write E;
  now := now E;
  repr_float := repr_float E;
  repr_json := repr_json E;
  PIL_AVAILABLE := PIL_AVAILABLE E;
  venv_pngquant := venv_pngquant E;
  pngquant := pngquant E;
  pil_open := pil_open E;
  pil_save := pil_save E
|}.

(** [E] with another access token. *)
Definition with_token (E : Env) (token : option string) : Env := {|
  FIGMA_ACCESS_TOKEN := token;
  STORAGE_PROVIDER := STORAGE_PROVIDER E;
  CUSTOM_SECRET_KEY := CUSTOM_SECRET_KEY E;
  CUSTOM_UPLOAD_URL := CUSTOM_UPLOAD_URL E;
  figma_nodes := figma_nodes E;
  figma_images := figma_images E;
  http_get := http_get E;
  http_post := http_post E;
  can_create_dir := can_create_dir E;
  can_write := can_write E;
  now := now E;
  repr_float := repr_float E;
  repr_json := repr_json E;
  PIL_AVAILABLE := PIL_AVAILABLE E;
  venv_pngquant := venv_pngquant E;
  pngquant := pngquant E;
  pil_open := pil_open E;
  pil_save := pil_save E
|}.


(** The format and the scale pass the tests of lines 102-114. *)
Definition valid_query (format : string) (scale : Q) : bool :=
  existsb (String.eqb format) valid_formats && scale_in_range scale.

(** [E] with another answer to the image query. *)
Definition with_figma_images (E : Env)
           (answer : string -> string -> string -> Q -> Res Response) : Env := {|
  FIGMA_ACCESS_TOKEN := FIGMA_ACCESS_TOKEN E;
  STORAGE_PROVIDER := STORAGE_PROVIDER E;
  CUSTOM_SECRET_KEY := CUSTOM_SECRET_KEY E;
  CUSTOM_UPLOAD_URL := CUSTOM_UPLOAD_URL E;
  figma_nodes := figma_nodes E;
  figma_images := answer;
  http_get := http_get E;
  http_post := http_post E;
  can_create_dir := can_create_dir E;
  can_write := can_write E;
  now := now E;
  repr_float := repr_float E;
  repr_json := repr_json E;
  PIL_AVAILABLE := PIL_AVAILABLE E;
  venv_pngquant := venv_pngquant E;
  pngquant := pngquant E;
  pil_open := pil_open E;
  pil_save := pil_save E
|}.

(** The files posted, in the order of their requests. *)
Definition uploads (t : list Event) : list string :=
  flat_map (fun e => match e with PostFile p => [p] | _ => [] end) t.

(** [E] with another answer to the node query. *)
Definition with_figma_nodes (E : Env)
           (answer : string -> string -> Res Response) : Env := {|
  FIGMA_ACCESS_TOKEN := FIGMA_ACCESS_TOKEN E;
  STORAGE_PROVIDER := STORAGE_PROVIDER E;
  CUSTOM_SECRET_KEY := CUSTOM_SECRET_KEY E;
  CUSTOM_UPLOAD_URL := CUSTOM_UPLOAD_URL E;
  figma_nodes := answer;
  figma_images := figma_images E;
  http_get := http_get E;
  http_post := http_post E;
  can_create_dir := can_create_dir E;
  can_write := can_write E;
  now := now E;
  repr_float := repr_float E;
  repr_json := repr_json E;
  PIL_AVAILABLE := PIL_AVAILABLE E;
  venv_pngquant := venv_pngquant E;
  pngquant := pngquant E;
  pil_open := pil_open E;
  pil_save := pil_save E
|}.

(** The ids of the children of one parent, when every child is an object:
    those that are neither missing, null nor empty. *)
Definition ids_of_children (children : list (list (string * json))) : list json :=
  filter truthy (map (fun child => dict_get child "id" JNull) children).

(** The bytes of a file of the staging directory, if it is there. *)
Definition file_at (w : World) (path : string) : option string :=
  match staging w with
  | Some files => lookup files path
  | None => None
  end.

(** * Properties *)

(** ** Arithmetic of the quality mappings *)

Section Quality.







End Quality.



Section FileFacts.

Lemma lookup_assign_same (d : list (string * string)) (k v : string) :
  lookup (assign d k v) k = Some v.
Proof.
  induction d as [|[k' x] d IH]; cbn.
  - now rewrite String.eqb_refl.
  - destruct (String.eqb k' k) eqn:Hk; cbn; rewrite Hk; [reflexivity|exact IH].
Qed.

Lemma assign_assign (d : list (string * string)) (k v v' : string) :
  assign (assign d k v) k v' = assign d k v'.
Proof.
  induction d as [|[k' x] d IH]; cbn.
  - now rewrite String.eqb_refl.
  - destruct (String.eqb k' k) eqn:Hk; cbn; rewrite Hk; [reflexivity|].
    now rewrite IH.
Qed.

Lemma assign_same (d : list (string * string)) (k v : string) :
  lookup d k = Some v -> assign d k v = d.
Proof.
  induction d as [|[k' x] d IH]; cbn; [discriminate|].
  destruct (String.eqb k' k) eqn:Hk.
  - now intros [= ->].
  - intros H. now rewrite IH.
Qed.

Lemma rewritten_twice (p : string) (ob ob' : option string)
      (files : list (string * string)) :
  rewritten p ob' (rewritten p ob files)
  = rewritten p (match ob' with Some b => Some b | None => ob end) files.
Proof.
  destruct ob' as [b'|], ob as [b|]; cbn; try reflexivity.
  apply assign_assign.
Qed.

End FileFacts.

(** Unfolds the operations of the monad and reduces what has become
    redexes, leaving the tests on symbolic values in place. *)
Ltac run_py :=
  repeat progress
    (unfold bind, try_except, ret, raise, lift, emit, get_staging, put_staging,
       Files.stat_size, Files.read_bytes, Files.overwrite, Files.write_bytes,
       Files.exists_file, Files.mkdir, Files.rmtree;
     cbv beta iota; cbn [negb fst snd staging trace]).

(** Runs a computation as far as the equations among the hypotheses
    decide its tests. *)
Ltac run_known :=
  repeat (progress (run_py;
                    repeat match goal with
                           | H : _ = _ |- _ => rewrite H
                           end;
                    rewrite ?lookup_assign_same)).

Section LossyQuality.




Variable E : Env.


End LossyQuality.




(** ** Clamping of the quality *)




(** ** The upload provider's reading of the server's answer *)

Section ParseResponse.

Lemma dict_get_absent (d : list (string * json)) (key : string) (default : json) :
  dict_mem d key = false -> dict_get d key default = default.
Proof.
  induction d as [|[k v] rest IH]; [reflexivity|].
  cbn. destruct (String.eqb k key); [discriminate|]. exact IH.
Qed.


Variable E : Env.

(** From the answer of the server to the result of [upload]. *)
Lemma upload_reads_response self path w files bytes response body :
  staging w = Some files ->
  lookup files path = Some bytes ->
  http_post E path bytes = Val response ->
  status_code response = 200 ->
  json_body response = Some (JDict body) ->
  fst (upload E self path w) =
  Val (if truthy (snd (_parse_response body))
       then NotUploaded ("Server error: " ++ str_json E (snd (_parse_response body)))
                        path
       else Uploaded (basename path) (Z.of_nat (String.length bytes))
                     (fst (_parse_response body)) path).
Proof.
  intros Hst Hlk Hpost Hcode Hbody.
  unfold upload. run_py.
  repeat (progress (rewrite ?Hst, ?Hlk; run_py)).
  rewrite Hpost. run_py. rewrite Hcode. cbn [Z.eqb Pos.eqb negb]. run_py.
  unfold response_json. rewrite Hbody. run_py.
  destruct (_parse_response body) as [file_url error_msg]. cbn [fst snd].
  destruct (truthy error_msg); reflexivity.
Qed.

End ParseResponse.



(** ** Validation before the image query *)

Section Validation.

Lemma invalid_format_test (format : string) :
  ~ In format valid_formats ->
  existsb (String.eqb format) valid_formats = false.
Proof.
  intros Hnot. destruct (existsb _ _) eqn:Hex; [|reflexivity].
  apply existsb_exists in Hex. destruct Hex as [f [Hin Heq]].
  apply String.eqb_eq in Heq. subst f. contradiction.
Qed.

Lemma invalid_scale_test (scale : Q) :
  ~ (1 # 100 <= scale <= 4)%Q -> scale_in_range scale = false.
Proof.
  intros Hnot. unfold scale_in_range.
  destruct (Qle_bool (1 # 100) scale) eqn:H1;
    destruct (Qle_bool scale 4) eqn:H2; try reflexivity.
  exfalso. apply Hnot. split; now apply Qle_bool_iff.
Qed.

End Validation.

(** C7.  A format outside jpg, png, svg, pdf, or a scale outside
    [0.01, 4.0], makes [get_figma_images_data] return a failure without a
    status code and leave the world as it was: no request is issued. *)
Theorem images_query_validates_first (E : Env)
        (file_key access_token node_ids format : string) (scale : Q) (w : World) :
  ~ In format valid_formats \/ ~ (1 # 100 <= scale <= 4)%Q ->
  exists msg,
    get_figma_images_data E file_key access_token node_ids format scale w
    = (Val (Failed (failure msg)), w).
Proof.
  intros Hbad. unfold get_figma_images_data. run_py.
  destruct (existsb (String.eqb format) valid_formats) eqn:Hf; run_py.
  - destruct (scale_in_range scale) eqn:Hs; run_py.
    + exfalso. destruct Hbad as [Hbad|Hbad].
      * apply invalid_format_test in Hbad. congruence.
      * apply invalid_scale_test in Hbad. congruence.
    + eexists. reflexivity.
  - eexists. reflexivity.
Qed.

Lemma images_query_validates_first_witness :
  exists msg,
    get_figma_images_data offline_env "KEY" "token" "1:2" "bmp" 1
                          {| staging := None; trace := [] |}
    = (Val (Failed (failure msg)), {| staging := None; trace := [] |}).
Proof.
  apply (images_query_validates_first offline_env "KEY" "token" "1:2" "bmp" 1).
  left. intros Hin. cbn in Hin.
  repeat (destruct Hin as [Hin|Hin]; [discriminate Hin|]). exact Hin.
Defined.

(** ** Parents without children *)

Section Children.
Variable E : Env.

(** The child query issues one request and its answer does not depend on
    the world. *)
Lemma get_child_node_ids_run (file_key access_token node_ids : string) :
  exists r, forall w,
      get_child_node_ids E file_key access_token node_ids w
      = (Val r, {| staging := staging w;
                   trace := (trace w ++ [GetNodes file_key node_ids])%list |}).
Proof.
  unfold get_child_node_ids.
  destruct (figma_nodes E file_key node_ids) as [response|e] eqn:Hnet;
    [destruct (status_code response =? 200) eqn:Hcode;
     [destruct (response_json response) as [data|e] eqn:Hjson;
      [destruct (py_get data "nodes" (JDict [])) as [nodes|e] eqn:Hnodes;
       [destruct (py_items nodes) as [items|e] eqn:Hitems;
        [destruct (collect_children items) as [ids|e] eqn:Hids| ]| ]| ]| ]| ];
    eexists; intros w;
    repeat (progress (run_py;
                      rewrite ?Hnet, ?Hcode, ?Hjson, ?Hnodes, ?Hitems, ?Hids));
    reflexivity.
Qed.

End Children.

(** C8.  With export of children requested, when the child query succeeds
    and finds no child, the call returns the failure "指定节点没有子节点可导出"
    and the only request issued is that one child query: no image query, no
    download, no upload. *)
Theorem no_children_is_terminal (E : Env) (download_order upload_order : list nat)
        (file_key node_ids format : string) (scale quality : Q) (w : World)
        (access_token : string) (c : ChildNodes) :
  FIGMA_ACCESS_TOKEN E = Some access_token ->
  access_token <> "" ->
  fst (get_child_node_ids E file_key access_token node_ids w) = Val (Success c) ->
  child_node_ids c = [] ->
  get_figma_images E download_order upload_order file_key node_ids format scale
                   quality true w
  = (Val (Failed (failure "指定节点没有子节点可导出")),
     {| staging := None;
        trace := (trace w ++ [GetNodes file_key node_ids])%list |}).
Proof.
  intros Htok Hne Hchild Hnone.
  destruct (get_child_node_ids_run E file_key access_token node_ids) as [r Hrun].
  rewrite Hrun in Hchild. cbn in Hchild. injection Hchild as ->.
  unfold get_figma_images. rewrite Htok.
  destruct access_token as [|a s]; [contradiction|].
  run_py. rewrite Hrun. run_py. rewrite Hnone. run_py. reflexivity.
Qed.

Lemma no_children_is_terminal_witness :
  get_figma_images childless_env [] [] "KEY" "1:2" "png" 1 (85 # 100) true
                   {| staging := Some [("temp-images/old.png", "stale")];
                      trace := [] |}
  = (Val (Failed (failure "指定节点没有子节点可导出")),
     {| staging := None; trace := [GetNodes "KEY" "1:2"] |}).
Proof.
  apply (no_children_is_terminal childless_env [] [] "KEY" "1:2" "png" 1
           (85 # 100) {| staging := Some [("temp-images/old.png", "stale")];
                         trace := [] |} "token"
           {| child_node_ids := []; parent_nodes := ["1:2"];
              total_children := 0 |}).
  - reflexivity.
  - discriminate.
  - reflexivity.
  - reflexivity.
Defined.

(** ** Retries of a download *)

Section Retry.
Variable E : Env.
Variables (url filename : string) (quality : Q) (max_retries : Z).
Hypothesis always_fails : forall attempt, attempt_fails (http_get E url attempt).

Let full_path := Files.join Files.STAGING filename.

Lemma attempt_once_fails (attempt : nat) (w : World) :
  attempt_once E (JStr url) full_path filename quality max_retries attempt w
  = if Z.of_nat attempt <? max_retries
    then (Val None,
          {| staging := staging w;
             trace := (trace w ++ [GetUrl url; Sleep (2 ^ Z.of_nat attempt)])%list |})
    else (Val (Some (NotDownloaded (exhausted_error (http_get E url attempt)))),
          {| staging := staging w; trace := (trace w ++ [GetUrl url])%list |}).
Proof.
  unfold attempt_once, client_get. run_py.
  pose proof (always_fails attempt) as Hfail.
  destruct (http_get E url attempt) as [response|e]; cbn in Hfail |- *.
  - apply Z.eqb_neq in Hfail. rewrite Hfail.
    destruct (Z.of_nat attempt <? max_retries); run_py;
      rewrite <- ?app_assoc; reflexivity.
  - destruct (Z.of_nat attempt <? max_retries); run_py;
      rewrite <- ?app_assoc; reflexivity.
Qed.

Lemma attempts_S (remaining attempt : nat) :
  attempts E (JStr url) full_path filename quality max_retries
           (S remaining) attempt
  = (r <- attempt_once E (JStr url) full_path filename quality max_retries
            attempt ;;
     match r with
     | Some result => ret result
     | None =>
         attempts E (JStr url) full_path filename quality max_retries
                  remaining (S attempt)
     end).
Proof. reflexivity. Qed.

Lemma attempts_exhaust (remaining attempt : nat) (w : World) :
  Z.of_nat attempt + Z.of_nat remaining = max_retries ->
  attempts E (JStr url) full_path filename quality max_retries
           (S remaining) attempt w
  = (Val (NotDownloaded
            (exhausted_error (http_get E url (attempt + remaining)))),
     {| staging := staging w;
        trace := (trace w ++ backoff url attempt remaining ++ [GetUrl url])%list |}).
Proof.
  revert attempt w. induction remaining as [|remaining IH]; intros attempt w Hsum.
  - rewrite attempts_S. unfold bind. rewrite attempt_once_fails.
    destruct (Z.ltb_spec (Z.of_nat attempt) max_retries); [lia|].
    unfold ret. rewrite Nat.add_0_r. reflexivity.
  - rewrite attempts_S. unfold bind at 1. rewrite attempt_once_fails.
    destruct (Z.ltb_spec (Z.of_nat attempt) max_retries); [|lia].
    rewrite IH by lia. cbn [staging trace].
    replace (S attempt + remaining)%nat with (attempt + S remaining)%nat by lia.
    unfold backoff. cbn [seq flat_map].
    rewrite <- !app_assoc. reflexivity.
Qed.

Lemma requests_backoff (from n : nat) :
  requests (backoff url from n) = repeat url n.
Proof.
  revert from. induction n as [|n IH]; intros from; [reflexivity|].
  unfold backoff in *. cbn. f_equal. apply IH.
Qed.

Lemma delays_backoff (from n : nat) :
  delays (backoff url from n) = map (fun k => 2 ^ Z.of_nat k) (seq from n).
Proof.
  revert from. induction n as [|n IH]; intros from; [reflexivity|].
  unfold backoff in *. cbn [seq flat_map map]. cbn [delays flat_map app].
  f_equal. apply IH.
Qed.

End Retry.

Lemma delays_increase (from n : nat) :
  StronglySorted Z.lt (map (fun k => 2 ^ Z.of_nat k) (seq from n)).
Proof.
  revert from. induction n as [|n IH]; intros from; cbn [seq map].
  - constructor.
  - constructor; [apply IH|].
    apply Forall_forall. intros x Hx.
    apply in_map_iff in Hx. destruct Hx as [k [<- Hk]].
    apply in_seq in Hk. apply Z.pow_lt_mono_r; lia.
Qed.

(** C3.  Against a URL whose every attempt fails, by a status other than 200
    or by an exception of the transport, a download with [max_retries >= 0]
    (the directory being there or creatable) issues exactly
    [max_retries + 1] requests, sleeps [2^attempt] after each attempt but the
    last, these delays 1, 2, 4, ... being strictly increasing, and returns a
    failure dictionary instead of raising. *)
Theorem download_retries_with_backoff (E : Env) (url filename : string)
        (quality : Q) (max_retries : Z) (w : World) :
  0 <= max_retries ->
  staging w <> None \/ can_create_dir E Files.STAGING = true ->
  (forall attempt, attempt_fails (http_get E url attempt)) ->
  exists w' new,
    download_image_from_url E (JStr url) filename quality max_retries w
    = (Val (NotDownloaded
              (exhausted_error (http_get E url (Z.to_nat max_retries)))), w') /\
    trace w' = (trace w ++ new)%list /\
    new = (backoff url 0 (Z.to_nat max_retries) ++ [GetUrl url])%list /\
    requests new = repeat url (Z.to_nat (max_retries + 1)) /\
    delays new = map (fun k => 2 ^ Z.of_nat k) (seq 0 (Z.to_nat max_retries)) /\
    StronglySorted Z.lt (delays new).
Proof.
  intros Hmr Hdir Hfail.
  assert (Hnew_r : requests (backoff url 0 (Z.to_nat max_retries) ++ [GetUrl url])
                   = repeat url (Z.to_nat (max_retries + 1))).
  { unfold requests. rewrite flat_map_app. fold (requests (backoff url 0 (Z.to_nat max_retries))).
    rewrite requests_backoff. cbn [flat_map app].
    replace (Z.to_nat (max_retries + 1)) with (Z.to_nat max_retries + 1)%nat by lia.
    rewrite repeat_app. reflexivity. }
  assert (Hnew_d : delays (backoff url 0 (Z.to_nat max_retries) ++ [GetUrl url])
                   = map (fun k => 2 ^ Z.of_nat k) (seq 0 (Z.to_nat max_retries))).
  { unfold delays. rewrite flat_map_app. fold (delays (backoff url 0 (Z.to_nat max_retries))).
    rewrite delays_backoff. cbn [flat_map app]. apply app_nil_r. }
  assert (Hrun : forall w0,
             attempts E (JStr url) (Files.join Files.STAGING filename) filename
                      quality max_retries (Z.to_nat (max_retries + 1)) 0 w0
             = (Val (NotDownloaded
                       (exhausted_error (http_get E url (Z.to_nat max_retries)))),
                {| staging := staging w0;
                   trace := (trace w0 ++ backoff url 0 (Z.to_nat max_retries)
                                     ++ [GetUrl url])%list |})).
  { intros w0.
    replace (Z.to_nat (max_retries + 1)) with (S (Z.to_nat max_retries)) by lia.
    rewrite (attempts_exhaust E url filename quality max_retries Hfail) by lia.
    reflexivity. }
  unfold download_image_from_url. run_py.
  destruct (staging w) as [files|] eqn:Hst.
  - run_py. rewrite Hrun. cbn [staging trace].
    eexists; eexists. split; [reflexivity|]. cbn [trace].
    split; [reflexivity|]. split; [reflexivity|].
    split; [exact Hnew_r|]. split; [exact Hnew_d|].
    rewrite Hnew_d. apply delays_increase.
  - destruct Hdir as [Hdir|Hdir]; [congruence|]. rewrite Hdir. run_py.
    rewrite Hrun. cbn [staging trace].
    eexists; eexists. split; [reflexivity|]. cbn [trace].
    split; [reflexivity|]. split; [reflexivity|].
    split; [exact Hnew_r|]. split; [exact Hnew_d|].
    rewrite Hnew_d. apply delays_increase.
Qed.

Lemma download_retries_with_backoff_witness :
  exists w' new,
    download_image_from_url offline_env (JStr "https://img.example/1") "a.png"
                            (85 # 100) 3 {| staging := None; trace := [] |}
    = (Val (NotDownloaded "下载图像时发生错误: offline"), w') /\
    trace w' = new /\
    new = [GetUrl "https://img.example/1"; Sleep 1;
           GetUrl "https://img.example/1"; Sleep 2;
           GetUrl "https://img.example/1"; Sleep 4;
           GetUrl "https://img.example/1"] /\
    requests new = repeat "https://img.example/1" 4 /\
    delays new = [1; 2; 4] /\
    StronglySorted Z.lt (delays new).
Proof.
  apply (download_retries_with_backoff offline_env "https://img.example/1"
           "a.png" (85 # 100) 3 {| staging := None; trace := [] |}).
  - lia.
  - right. reflexivity.
  - intros attempt. exact I.
Defined.

(** ** Gathering concurrent tasks *)

Section GatherFacts.
Context {A : Type}.
Import Asyncio.

Lemma find_done_app (i j : nat) (r : Res A) (done : list (nat * Res A)) :
  find_done i (done ++ [(j, r)])
  = match find_done i done with
    | Some x => Some x
    | None => if Nat.eqb j i then Some r else None
    end.
Proof.
  induction done as [|[k x] done IH]; cbn; [reflexivity|].
  destruct (Nat.eqb k i); [reflexivity|exact IH].
Qed.

Lemma find_done_In (i : nat) (r : Res A) (done : list (nat * Res A)) :
  find_done i done = Some r -> In (i, r) done.
Proof.
  induction done as [|[k x] done IH]; cbn; [discriminate|].
  destruct (Nat.eqb_spec k i) as [->|Hne].
  - intros [= ->]. now left.
  - intros H. right. now apply IH.
Qed.

(** Reading back, in task order, outcomes that are all there. *)
Lemma in_task_order_all (results : list (Res A)) (done : list (nat * Res A)) :
  (forall i, (i < length results)%nat -> find_done i done = nth_error results i) ->
  in_task_order (length results) done = results.
Proof.
  unfold in_task_order.
  assert (H : forall (l : list (Res A)) (k : nat),
             (forall i, (i < length l)%nat ->
                        find_done (k + i) done = nth_error l i) ->
             flat_map (fun i => match find_done i done with
                                | Some r => [r]
                                | None => []
                                end) (seq k (length l)) = l).
  { induction l as [|x l IH]; intros k Hk; [reflexivity|].
    cbn [length seq flat_map].
    specialize (Hk 0%nat) as H0. rewrite Nat.add_0_r in H0.
    rewrite H0 by (cbn; lia). cbn [nth_error app]. f_equal.
    apply IH. intros i Hi.
    replace (S k + i)%nat with (k + S i)%nat by lia.
    apply (Hk (S i)). cbn; lia. }
  intros Hall. apply (H results 0%nat). exact Hall.
Qed.

(** The tasks, the outcome each has whenever it starts in a world
    satisfying [Inv], and [Inv] is kept by every task. *)
Variable Inv : World -> Prop.
Variable tasks : list (M A).
Variable results : list (Res A).
Hypothesis same_length : length results = length tasks.
Hypothesis task_outcome :
  forall i task r w,
    nth_error tasks i = Some task -> nth_error results i = Some r -> Inv w ->
    fst (task w) = r /\ Inv (snd (task w)).

Lemma run_in_order_outcomes (order : list nat) :
  forall done w,
    Inv w ->
    (forall i r, In (i, r) done -> nth_error results i = Some r) ->
    Inv (snd (run_in_order tasks order done w)) /\
    (forall i r, In (i, r) (fst (run_in_order tasks order done w)) ->
                 nth_error results i = Some r) /\
    (forall i, find_done i done <> None ->
               find_done i (fst (run_in_order tasks order done w)) <> None) /\
    (forall i, In i order -> (i < length tasks)%nat ->
               find_done i (fst (run_in_order tasks order done w)) <> None).
Proof.
  induction order as [|j order IH]; intros done w Hinv Hdone.
  - cbn. repeat split; auto; intros i [].
  - cbn [run_in_order].
    destruct (nth_error tasks j) as [task|] eqn:Htask.
    + destruct (find_done j done) as [x|] eqn:Hfound.
      * destruct (IH done w Hinv Hdone) as (H1 & H2 & H3 & H4).
        repeat split; auto.
        intros i [<-|Hin] Hlt; [|now apply H4].
        apply H3. congruence.
      * destruct (nth_error results j) as [r|] eqn:Hres.
        2:{ apply nth_error_None in Hres.
            assert (nth_error tasks j <> None) as Hn by congruence.
            apply nth_error_Some in Hn. lia. }
        destruct (task_outcome j task r w Htask Hres Hinv) as [Hr Hinv'].
        destruct (task w) as [r' w'] eqn:Hrun. cbn [fst snd] in Hr, Hinv'.
        subst r'.
        assert (Hdone' : forall i x, In (i, x) (done ++ [(j, r)]) ->
                                     nth_error results i = Some x).
        { intros i x Hin. apply in_app_or in Hin.
          destruct Hin as [Hin|[Heq|[]]]; [now apply Hdone|].
          injection Heq as <- <-. exact Hres. }
        destruct (IH (done ++ [(j, r)])%list w' Hinv' Hdone') as (H1 & H2 & H3 & H4).
        repeat split; auto.
        -- intros i Hi. apply H3. rewrite find_done_app.
           destruct (find_done i done); [discriminate|contradiction].
        -- intros i [<-|Hin] Hlt; [|now apply H4].
           apply H3. rewrite find_done_app, Hfound, Nat.eqb_refl. discriminate.
    + destruct (IH done w Hinv Hdone) as (H1 & H2 & H3 & H4).
      repeat split; auto.
      intros i [<-|Hin] Hlt; [|now apply H4].
      apply nth_error_None in Htask. lia.
Qed.

(** Whatever the completion order, the gathered outcomes are those of the
    tasks, in the order of the tasks. *)
Lemma run_all_outcomes (order : list nat) (w : World) :
  Inv w ->
  in_task_order (length tasks) (fst (run_all order tasks w)) = results /\
  (forall i r, In (i, r) (fst (run_all order tasks w)) ->
               nth_error results i = Some r) /\
  Inv (snd (run_all order tasks w)).
Proof.
  intros Hinv. unfold run_all.
  set (l := (order ++ seq 0 (length tasks))%list).
  destruct (run_in_order_outcomes l [] w Hinv)
    as (H1 & H2 & _ & H4); [intros i r []|].
  set (done := fst (run_in_order tasks l [] w)) in *.
  split; [|split; assumption].
  rewrite <- same_length. apply in_task_order_all.
  intros i Hi. rewrite same_length in Hi.
  specialize (H4 i).
  destruct (find_done i done) as [r|] eqn:Hfound.
  - symmetry. apply H2. now apply find_done_In.
  - exfalso. apply H4; [|exact Hi|reflexivity].
    apply in_or_app. right. apply in_seq. lia.
Qed.

Lemma gather_return_exceptions_outcomes (order : list nat) (w : World) :
  Inv w ->
  fst (gather_return_exceptions order tasks w) = Val results /\
  Inv (snd (gather_return_exceptions order tasks w)).
Proof.
  intros Hinv. unfold gather_return_exceptions.
  destruct (run_all_outcomes order w Hinv) as (H1 & _ & H3).
  destruct (run_all order tasks w) as [done w']. cbn [fst snd] in *.
  rewrite H1. split; [reflexivity|exact H3].
Qed.

Lemma first_raised_none (done : list (nat * Res A)) :
  (forall i r, In (i, r) done -> exists a, r = Val a) ->
  first_raised done = None.
Proof.
  induction done as [|[i r] done IH]; intros Hall; [reflexivity|].
  destruct (Hall i r (or_introl eq_refl)) as [a ->]. cbn.
  apply IH. intros j x Hin. apply (Hall j x). now right.
Qed.

Lemma values_map_Val (l : list A) : values (map Val l) = l.
Proof.
  unfold values. induction l as [|a l IH]; cbn; [reflexivity|].
  f_equal. exact IH.
Qed.

End GatherFacts.

Section GatherValues.
Context {A : Type}.
Import Asyncio.
Variable Inv : World -> Prop.
Variable tasks : list (M A).
Variable outcomes : list A.
Hypothesis same_length : length outcomes = length tasks.
Hypothesis task_outcome :
  forall i task a w,
    nth_error tasks i = Some task -> nth_error outcomes i = Some a -> Inv w ->
    fst (task w) = Val a /\ Inv (snd (task w)).

(** When no task raises, [gather] returns the values in task order. *)
Lemma gather_outcomes (order : list nat) (w : World) :
  Inv w ->
  fst (gather order tasks w) = Val outcomes /\
  Inv (snd (gather order tasks w)).
Proof.
  intros Hinv. unfold gather.
  assert (Hlen : length (map Val outcomes) = length tasks)
    by (rewrite length_map; exact same_length).
  assert (Htask : forall i task r w0,
             nth_error tasks i = Some task ->
             nth_error (map Val outcomes) i = Some r -> Inv w0 ->
             fst (task w0) = r /\ Inv (snd (task w0))).
  { intros i task r w0 Ht Hr Hw. rewrite nth_error_map in Hr.
    destruct (nth_error outcomes i) as [a|] eqn:Ha; [|discriminate].
    injection Hr as <-. now apply (task_outcome i task a w0). }
  destruct (run_all_outcomes Inv tasks (map Val outcomes) Hlen Htask order w Hinv)
    as (H1 & H2 & H3).
  destruct (run_all order tasks w) as [done w']. cbn [fst snd] in *.
  rewrite first_raised_none.
  - cbn [fst snd]. rewrite H1, values_map_Val. split; [reflexivity|exact H3].
  - intros i r Hin. apply H2 in Hin. rewrite nth_error_map in Hin.
    destruct (nth_error outcomes i) as [a|]; [|discriminate].
    injection Hin as <-. now exists a.
Qed.

End GatherValues.

(** ** Batches of uploads *)

Section Uploads.
Variable E : Env.

(** An upload never raises, leaves the staging directory as it is, and its
    result depends on the world through that directory only. *)
Lemma upload_file_run (file_path : string)
      (s : option (list (string * string))) :
  exists r t,
    ur_file_path r = file_path /\
    forall w, staging w = s ->
              upload_file E file_path w
              = (Val r, {| staging := s; trace := (trace w ++ t)%list |}).
Proof.
  unfold upload_file, upload.
  destruct (get_storage_provider E) as [self|e] eqn:Hprov.
  2:{ exists (NotUploaded (str_exc e) file_path), [].
      split; [reflexivity|]. intros w <-. run_py. rewrite app_nil_r.
      destruct w; reflexivity. }
  destruct s as [files|].
  2:{ exists (NotUploaded ("File does not exist: " ++ file_path) file_path), [].
      split; [reflexivity|]. intros w Hst. run_py. rewrite Hst. run_py.
      rewrite app_nil_r. destruct w; cbn in *; subst; reflexivity. }
  destruct (lookup files file_path) as [bytes|] eqn:Hlk.
  2:{ exists (NotUploaded ("File does not exist: " ++ file_path) file_path), [].
      split; [reflexivity|]. intros w Hst.
      repeat (progress (run_py; rewrite ?Hst, ?Hlk)).
      rewrite app_nil_r. destruct w; cbn in *; subst; reflexivity. }
  destruct (http_post E file_path bytes) as [response|e] eqn:Hpost.
  2:{ exists (NotUploaded (str_exc e) file_path), [PostFile file_path].
      split; [reflexivity|]. intros w Hst.
      repeat (progress (run_py; rewrite ?Hst, ?Hlk, ?Hpost)). reflexivity. }
  destruct (status_code response =? 200) eqn:Hcode.
  2:{ eexists; exists [PostFile file_path].
      split; [|intros w Hst;
               repeat (progress (run_py; rewrite ?Hst, ?Hlk, ?Hpost, ?Hcode));
               reflexivity].
      reflexivity. }
  destruct (response_json response) as [data|e] eqn:Hjson.
  2:{ exists (NotUploaded (str_exc e) file_path), [PostFile file_path].
      split; [reflexivity|]. intros w Hst.
      repeat (progress (run_py; rewrite ?Hst, ?Hlk, ?Hpost, ?Hcode, ?Hjson)).
      reflexivity. }
  destruct data as [ |b|q|str|l|body];
    try (eexists; exists [PostFile file_path];
         split; [|intros w Hst;
                  repeat (progress (run_py;
                                    rewrite ?Hst, ?Hlk, ?Hpost, ?Hcode, ?Hjson));
                  reflexivity];
         reflexivity).
  destruct (_parse_response body) as [file_url error_msg] eqn:Hparse.
  destruct (truthy error_msg) eqn:Herr;
    (eexists; exists [PostFile file_path];
     split; [|intros w Hst;
              repeat (progress (run_py;
                                rewrite ?Hst, ?Hlk, ?Hpost, ?Hcode, ?Hjson,
                                  ?Hparse, ?Herr));
              reflexivity];
     reflexivity).
Qed.

Lemma upload_alone_is_the_result (file_path : string) (w w' : World) :
  staging w' = staging w ->
  fst (upload_file E file_path w') = Val (upload_alone E w file_path) /\
  staging (snd (upload_file E file_path w')) = staging w.
Proof.
  intros Hst.
  destruct (upload_file_run file_path (staging w)) as (r & t & _ & Hrun).
  unfold upload_alone. rewrite (Hrun w eq_refl), (Hrun w' Hst). now split.
Qed.

Lemma upload_alone_path (file_path : string) (w : World) :
  ur_file_path (upload_alone E w file_path) = file_path.
Proof.
  destruct (upload_file_run file_path (staging w)) as (r & t & Hpath & Hrun).
  unfold upload_alone. rewrite (Hrun w eq_refl). exact Hpath.
Qed.

(** An exception raised while the provider is built or while it uploads
    becomes the failure of that one file. *)
Lemma upload_failure_is_per_item (file_path : string) (w : World) (e : PyExc) :
  get_storage_provider E = Raise e ->
  upload_alone E w file_path = NotUploaded (str_exc e) file_path.
Proof.
  intros Hprov. unfold upload_alone, upload_file. run_py. rewrite Hprov.
  reflexivity.
Qed.

Lemma map_filter_path (f : UploadResult -> bool) (w : World) (paths : list string) :
  map ur_file_path (filter f (map (upload_alone E w) paths))
  = filter (fun p => f (upload_alone E w p)) paths.
Proof.
  rewrite filter_map_swap, map_map.
  erewrite map_ext; [apply map_id|].
  intros p. apply upload_alone_path.
Qed.

Lemma upload_multiple_files_run (order : list nat) (paths : list string)
      (w : World) :
  let results := map (upload_alone E w) paths in
  exists b w',
    upload_multiple_files E order paths w = (Val b, w') /\
    staging w' = staging w /\
    successful_uploads b = filter ur_success results /\
    failed_uploads b = filter (fun r => negb (ur_success r)) results /\
    total_files b = length paths /\
    successful_count b = length (successful_uploads b) /\
    failed_count b = length (failed_uploads b) /\
    success b = (failed_count b =? 0)%nat /\
    total_size b = sum_sizes (successful_uploads b).
Proof.
  intros results.
  destruct (gather_outcomes (fun w' => staging w' = staging w)
              (map (upload_file E) paths) results) with (order := order) (w := w)
    as [Hres Hinv].
  - unfold results. now rewrite !length_map.
  - intros i task a w0 Htask Ha Hw0.
    unfold results in Ha. rewrite nth_error_map in Ha, Htask.
    destruct (nth_error paths i) as [p|]; [|discriminate].
    cbn in Ha, Htask. injection Ha as <-. injection Htask as <-.
    now apply upload_alone_is_the_result.
  - reflexivity.
  - unfold upload_multiple_files. unfold bind at 1.
    destruct (Asyncio.gather order (map (upload_file E) paths) w) as [r w'].
    cbn [fst snd] in Hres, Hinv. subst r. unfold ret.
    eexists; eexists. split; [reflexivity|]. cbn.
    repeat split; try assumption.
    fold results. destruct (filter _ results); reflexivity.
Qed.

End Uploads.

(** ** Runs of a compression and of a download *)

Section Runs.
Variable E : Env.

Lemma compress_png_with_pngquant_run (p : string) (q : Q) (b0 : string) :
  exists r ob t,
    forall w files,
      staging w = Some files -> lookup files p = Some b0 ->
      compress_png_with_pngquant E p q w
      = (Val r, {| staging := Some (rewritten p ob files);
                   trace := (trace w ++ t)%list |}).
Proof.
  unfold compress_png_with_pngquant, get_pngquant_path.
  destruct (venv_pngquant E) as [tool|].
  2:{ eexists; exists None, []. intros w files Hst Hlk. run_known.
      cbn. rewrite app_nil_r. destruct w; cbn in *; subst; reflexivity. }
  destruct (pngquant E b0 (min_quality q) (max_quality q)) as [result|e] eqn:Hrun.
  2:{ destruct e; eexists; exists None; eexists; intros w files Hst Hlk;
        run_known; reflexivity. }
  destruct (returncode result =? 0) eqn:H0;
    [|destruct (returncode result =? 99) eqn:H99];
    eexists; exists (Some (output_file result)); eexists;
    intros w files Hst Hlk; run_known; reflexivity.
Qed.

Lemma save_run (p : string) (img : Image) (format : option string)
      (quality : option Z) (optimize : bool) :
  exists r ob,
    forall w files,
      staging w = Some files ->
      save E p img format quality optimize w
      = (r, {| staging := Some (rewritten p ob files);
               trace := (trace w ++ [PilSave p format (img_mode img) quality])%list |}).
Proof.
  unfold save.
  destruct (pil_save E p img format quality optimize) as [bytes|e] eqn:Hsave.
  - exists (Val tt), (Some bytes). intros w files Hst. run_known. reflexivity.
  - exists (Raise e), None. intros w files Hst. run_known. reflexivity.
Qed.

Lemma compress_image_run (p : string) (q : Q) (optimize : bool) (b0 : string) :
  exists r ob t,
    forall w files,
      staging w = Some files -> lookup files p = Some b0 ->
      compress_image E p q optimize w
      = (Val r, {| staging := Some (rewritten p ob files);
                   trace := (trace w ++ t)%list |}).
Proof.
  unfold compress_image.
  destruct (PIL_AVAILABLE E) eqn:Hpil.
  2:{ eexists; exists None, []. intros w files Hst Hlk. run_known.
      cbn. rewrite app_nil_r. destruct w; cbn in *; subst; reflexivity. }
  destruct (String.eqb (file_format_of p) "PNG") eqn:Hpng.
  { destruct (compress_png_with_pngquant_run p (clamp_quality q) b0)
      as (r & ob & t & Hrun).
    exists r, ob, t. intros w files Hst Hlk.
    repeat (progress (run_py; rewrite ?Hst, ?Hlk)).
    rewrite (Hrun w files Hst Hlk). reflexivity. }
  destruct (pil_open E b0) as [img|e] eqn:Hopen.
  2:{ eexists; exists None, []. intros w files Hst Hlk. run_known.
      cbn. rewrite app_nil_r. destruct w; cbn in *; subst; reflexivity. }
  set (f := upper (format_or img (file_format_of p))).
  set (img' := if String.eqb (img_mode img) "RGB" then img else convert img "RGB").
  assert (Hsaved : exists r ob ev,
             forall w files,
               staging w = Some files ->
               (if existsb (String.eqb f) ["JPEG"; "JPG"]
                then save E p img' (Some "JPEG")
                          (Some (pil_quality (clamp_quality q))) optimize
                else if String.eqb f "WEBP"
                     then save E p img (Some "WEBP")
                               (Some (pil_quality (clamp_quality q))) optimize
                     else save E p img None None optimize) w
               = (r, {| staging := Some (rewritten p ob files);
                        trace := (trace w ++ [ev])%list |})).
  { destruct (existsb (String.eqb f) ["JPEG"; "JPG"]);
      [|destruct (String.eqb f "WEBP")];
      match goal with
      | |- context [save E p ?i ?fmt ?ql optimize] =>
          destruct (save_run p i fmt ql optimize) as (r & ob & Hrun);
          exists r, ob; eexists; exact Hrun
      end. }
  destruct Hsaved as (r & ob & ev & Hsaved).
  destruct r as [[]|e]; [destruct ob as [b|]|].
  - eexists; exists (Some b), [ev]. intros w files Hst Hlk.
    repeat (progress (run_py; rewrite ?Hst, ?Hlk)).
    rewrite Hopen. run_py. fold f. fold img'.
    rewrite (Hsaved w files Hst). run_py. cbn [rewritten].
    rewrite lookup_assign_same. run_py. reflexivity.
  - eexists; exists None, [ev]. intros w files Hst Hlk.
    repeat (progress (run_py; rewrite ?Hst, ?Hlk)).
    rewrite Hopen. run_py. fold f. fold img'.
    rewrite (Hsaved w files Hst). run_py. cbn [rewritten].
    rewrite Hlk. run_py. reflexivity.
  - eexists; exists ob, [ev]. intros w files Hst Hlk.
    repeat (progress (run_py; rewrite ?Hst, ?Hlk)).
    rewrite Hopen. run_py. fold f. fold img'.
    rewrite (Hsaved w files Hst). run_py. reflexivity.
Qed.

End Runs.

Section DownloadRuns.
Variable E : Env.
Variables (filename : string) (quality : Q) (max_retries : Z).

Let p := Files.join Files.STAGING filename.

Lemma store_run (response : Response) :
  exists r ob t,
    (forall w files,
        staging w = Some files ->
        store E response p filename quality w
        = (r, {| staging := Some (rewritten p ob files);
                 trace := (trace w ++ t)%list |})) /\
    match r with
    | Val d => stored p filename d ob /\ ob <> None
    | Raise _ => ob = None
    end.
Proof.
  unfold store.
  destruct (can_write E p) eqn:Hcan.
  2:{ eexists; exists None, []. split.
      - intros w files Hst. run_known. cbn. rewrite app_nil_r.
        destruct w; cbn in *; subst; reflexivity.
      - reflexivity. }
  destruct (is_compression_supported p) eqn:Hsup.
  2:{ eexists; exists (Some (content response)), []. split.
      - intros w files Hst. run_known. cbn. rewrite app_nil_r. reflexivity.
      - cbn. repeat split; discriminate. }
  destruct (compress_image_run E p quality true (content response))
    as (r & ob & t & Hrun).
  destruct r as [o c ra red m qr|err];
    (eexists;
     exists (Some (match ob with Some b => b | None => content response end)), t;
     split;
     [intros w files Hst; run_known;
      (erewrite Hrun; [|reflexivity|apply lookup_assign_same]);
      run_py; destruct ob; cbn [rewritten]; rewrite ?assign_assign; reflexivity
     |cbn; repeat split; discriminate]).
Qed.

Lemma attempt_once_run (image_url : json) (attempt : nat) :
  exists r ob t,
    (forall w files,
        staging w = Some files ->
        attempt_once E image_url p filename quality max_retries attempt w
        = (Val r, {| staging := Some (rewritten p ob files);
                     trace := (trace w ++ t)%list |})) /\
    match r with
    | Some d => stored p filename d ob
    | None => ob = None
    end.
Proof.
  unfold attempt_once, client_get.
  destruct (Z.of_nat attempt <? max_retries) eqn:Hlt.
  - (* another attempt will follow a failure *)
    destruct image_url as [ |b|n|url|l|d];
      try (exists None, None, [Sleep (2 ^ Z.of_nat attempt)];
           split; [intros w files Hst; run_known; reflexivity|reflexivity]).
    destruct (http_get E url attempt) as [response|e] eqn:Hget.
    2:{ exists None, None, [GetUrl url; Sleep (2 ^ Z.of_nat attempt)].
        split; [|reflexivity]. intros w files Hst. run_known.
        rewrite <- app_assoc. reflexivity. }
    destruct (status_code response =? 200) eqn:Hcode.
    2:{ exists None, None, [GetUrl url; Sleep (2 ^ Z.of_nat attempt)].
        split; [|reflexivity]. intros w files Hst. run_known.
        rewrite <- app_assoc. reflexivity. }
    destruct (store_run response) as (r & ob & t & Hrun & Hs).
    destruct r as [d|e].
    + exists (Some d), ob, ([GetUrl url] ++ t)%list. split; [|apply Hs].
      intros w files Hst. run_known. erewrite Hrun by reflexivity. run_py.
      rewrite <- app_assoc. reflexivity.
    + subst ob.
      exists None, None, ([GetUrl url] ++ t ++ [Sleep (2 ^ Z.of_nat attempt)])%list.
      split; [|reflexivity]. intros w files Hst. run_known.
      erewrite Hrun by reflexivity. run_known. cbn [rewritten].
      rewrite <- !app_assoc. reflexivity.
  - (* this is the last attempt *)
    destruct image_url as [ |b|n|url|l|d];
      try (eexists; exists None, [];
           split; [intros w files Hst; run_known; rewrite app_nil_r;
                   destruct w; cbn in *; subst; reflexivity|reflexivity]).
    destruct (http_get E url attempt) as [response|e] eqn:Hget.
    2:{ eexists; exists None, [GetUrl url].
        split; [intros w files Hst; run_known; reflexivity|reflexivity]. }
    destruct (status_code response =? 200) eqn:Hcode.
    2:{ eexists; exists None, [GetUrl url].
        split; [intros w files Hst; run_known; reflexivity|reflexivity]. }
    destruct (store_run response) as (r & ob & t & Hrun & Hs).
    destruct r as [d|e].
    + exists (Some d), ob, ([GetUrl url] ++ t)%list. split; [|apply Hs].
      intros w files Hst. run_known. erewrite Hrun by reflexivity. run_py.
      rewrite <- app_assoc. reflexivity.
    + subst ob.
      eexists; exists None, ([GetUrl url] ++ t)%list.
      split; [intros w files Hst; run_known;
              erewrite Hrun by reflexivity; run_known; cbn [rewritten];
              rewrite <- !app_assoc; reflexivity|].
      reflexivity.
Qed.

Lemma attempts_run (image_url : json) (remaining : nat) :
  forall attempt,
  exists r ob t,
    (forall w files,
        staging w = Some files ->
        attempts E image_url p filename quality max_retries remaining attempt w
        = (Val r, {| staging := Some (rewritten p ob files);
                     trace := (trace w ++ t)%list |})) /\
    stored p filename r ob.
Proof.
  induction remaining as [|remaining IH]; intros attempt.
  - eexists; exists None, []. split.
    + intros w files Hst. cbn. unfold ret. rewrite app_nil_r.
      destruct w; cbn in *; subst; reflexivity.
    + reflexivity.
  - destruct (attempt_once_run image_url attempt) as (r1 & ob1 & t1 & Hrun1 & Hs1).
    destruct r1 as [d|].
    + exists d, ob1, t1. split; [|exact Hs1].
      intros w files Hst. cbn [attempts]. unfold bind.
      rewrite (Hrun1 w files Hst). reflexivity.
    + subst ob1.
      destruct (IH (S attempt)) as (r & ob & t & Hrun & Hs).
      exists r, ob, (t1 ++ t)%list. split; [|exact Hs].
      intros w files Hst. cbn [attempts]. unfold bind.
      rewrite (Hrun1 w files Hst). cbn [rewritten].
      erewrite Hrun by reflexivity. cbn [staging trace].
      rewrite <- app_assoc. reflexivity.
Qed.

(** A download in an existing staging directory never raises; its result
    and its events do not depend on the world, and the only file it may
    touch is its own. *)
Lemma download_run (image_url : json) :
  exists r ob t,
    (forall w files,
        staging w = Some files ->
        download_image_from_url E image_url filename quality max_retries w
        = (Val r, {| staging := Some (rewritten p ob files);
                     trace := (trace w ++ t)%list |})) /\
    stored p filename r ob.
Proof.
  destruct (attempts_run image_url (Z.to_nat (max_retries + 1)) 0) as (r & ob & t & Hrun & Hs).
  exists r, ob, t. split; [|exact Hs].
  intros w files Hst. unfold download_image_from_url. run_py. rewrite Hst.
  run_py. fold p. apply (Hrun w files Hst).
Qed.

End DownloadRuns.

(** ** The download fan-out of an export *)

Section ExportStage.
Variable E : Env.

Lemma fetch_node_names_run (file_key access_token node_ids : string) (w : World) :
  fetch_node_names E file_key access_token node_ids w
  = (Val (node_names_of E file_key access_token node_ids),
     {| staging := staging w;
        trace := (trace w ++ [GetNodes file_key node_ids])%list |}).
Proof.
  unfold node_names_of, fetch_node_names.
  destruct (figma_nodes E file_key node_ids) as [response|e] eqn:Hnet;
    [destruct (status_code response =? 200) eqn:Hcode;
     [destruct (response_json response) as [data|e] eqn:Hjson;
      [destruct (py_get data "nodes" (JDict [])) as [nodes|e] eqn:Hnodes;
       [destruct (py_items nodes) as [items|e] eqn:Hitems| ]| ]| ]| ];
    run_known; reflexivity.
Qed.

Lemma get_figma_images_data_run
      (file_key access_token node_ids format : string) (scale : Q) :
  exists r t,
    forall w,
      get_figma_images_data E file_key access_token node_ids format scale w
      = (Val r, {| staging := staging w; trace := (trace w ++ t)%list |}).
Proof.
  unfold get_figma_images_data.
  destruct (existsb (String.eqb format) valid_formats) eqn:Hfmt.
  2:{ eexists; exists []. intros w. run_known. rewrite app_nil_r.
      destruct w; reflexivity. }
  destruct (scale_in_range scale) eqn:Hscale.
  2:{ eexists; exists []. intros w. run_known. rewrite app_nil_r.
      destruct w; reflexivity. }
  destruct (figma_images E file_key node_ids format scale)
    as [response|e] eqn:Hnet;
    [destruct (status_code response =? 200) eqn:Hcode;
     [destruct (response_json response) as [data|e] eqn:Hjson;
      [destruct (py_get data "images" (JDict [])) as [imgs|e] eqn:Himgs;
       [destruct (py_get data "err" JNull) as [er|e] eqn:Herr;
        [destruct (py_items imgs) as [items|e] eqn:Hitems| ]| ]| ]| ]| ];
    eexists; exists [GetImages file_key node_ids format scale];
    intros w; run_known; reflexivity.
Qed.

(** In an existing staging directory a download gives its own outcome and
    leaves the directory in existence. *)
Lemma download_in_staging (quality : Q) (task : string * (json * string))
      (w : World) :
  staging w <> None ->
  fst (download_image_from_url E (fst (snd task)) (snd (snd task)) quality 3 w)
  = download_alone E quality task /\
  staging (snd (download_image_from_url E (fst (snd task)) (snd (snd task))
                                        quality 3 w)) <> None.
Proof.
  intros Hst. destruct (staging w) as [files|] eqn:Hfiles; [|contradiction].
  destruct (download_run E (snd (snd task)) quality 3 (fst (snd task)))
    as (r & ob & t & Hrun & _).
  unfold download_alone.
  rewrite (Hrun w files Hfiles), (Hrun fresh_world [] eq_refl).
  split; [reflexivity|discriminate].
Qed.

Lemma combine_map_r {A B} (f : A -> B) (l : list A) :
  combine l (map f l) = map (fun a => (a, f a)) l.
Proof. induction l as [|a l IH]; cbn; [reflexivity|now rewrite IH]. Qed.

(** Sorting the outcomes keeps every task on the side of its own outcome. *)
Lemma sorted_downloads (names : list (string * string)) (quality : Q)
      (tasks : list (string * (json * string))) :
  let sorted :=
    map (fun t => file_result names (fst t) (download_alone E quality t)) tasks in
  map df_node_id (lefts sorted) = map fst (filter (download_ok E quality) tasks) /\
  map fd_node_id (rights sorted)
  = map fst (filter (fun t => negb (download_ok E quality t)) tasks).
Proof.
  cbv zeta. unfold download_ok.
  induction tasks as [|t tasks [IHl IHr]]; [split; reflexivity|].
  cbn [map filter].
  destruct (download_alone E quality t) as [[fp fn sz c|err]|e];
    cbn [file_result lefts rights map negb df_node_id fd_node_id];
    rewrite IHl, IHr; split; reflexivity.
Qed.

End ExportStage.

Section FanOut.
Variable E : Env.

(** Once the image query has answered with a non-empty mapping, the export
    succeeds with every dispatched node on the list its own download
    decides, whatever the completion order. *)
Lemma export_fan_out (order : list nat)
      (file_key access_token node_ids format : string) (scale quality : Q)
      (w : World) (data : ImagesData) :
  fst (get_figma_images_data E file_key access_token node_ids format scale w)
  = Val (Success data) ->
  images data <> [] ->
  staging w <> None \/ can_create_dir E Files.STAGING = true ->
  exists w',
    export_figma_images_to_folder E order file_key access_token node_ids
                                  format scale quality w
    = (Val (Success
              {| downloaded_files :=
                   lefts (map (fun t =>
                                 file_result
                                   (node_names_of E file_key access_token node_ids)
                                   (fst t) (download_alone E quality t))
                              (snd (plan_downloads
                                      E (node_names_of E file_key access_token
                                                       node_ids)
                                      format (images data) 0)));
                 failed_downloads :=
                   (fst (plan_downloads
                           E (node_names_of E file_key access_token node_ids)
                           format (images data) 0)
                    ++ rights (map (fun t =>
                                      file_result
                                        (node_names_of E file_key access_token
                                                       node_ids)
                                        (fst t) (download_alone E quality t))
                                   (snd (plan_downloads
                                           E (node_names_of E file_key
                                                            access_token node_ids)
                                           format (images data) 0))))%list |}),
       w') /\
    staging w' <> None.
Proof.
  intros Hdata Hitems Hdir.
  destruct (get_figma_images_data_run E file_key access_token node_ids format scale)
    as (r & t & Hquery).
  rewrite Hquery in Hdata. cbn [fst] in Hdata. injection Hdata as ->.
  unfold export_figma_images_to_folder.
  unfold try_except, bind at 1. rewrite fetch_node_names_run.
  unfold bind at 1. rewrite Hquery.
  set (names := node_names_of E file_key access_token node_ids).
  destruct (images data) as [|item items] eqn:Himages; [contradiction|].
  clear Hitems. cbn [staging trace].
  set (plan := plan_downloads E names format (item :: items) 0).
  set (w1 := {| staging := staging w;
                trace := ((trace w ++ [GetNodes file_key node_ids]) ++ t)%list |}).
  assert (Hmk : exists w2, Files.mkdir E w1 = (Val tt, w2) /\ staging w2 <> None).
  { unfold Files.mkdir. run_py. subst w1. cbn [staging].
    destruct (staging w) as [files|] eqn:Hst.
    - eexists. split; [reflexivity|]. cbn. discriminate.
    - destruct Hdir as [Hdir|Hdir]; [contradiction|]. rewrite Hdir. run_py.
      eexists. split; [reflexivity|]. discriminate. }
  destruct Hmk as (w2 & Hmk & Hst2).
  unfold bind at 1. rewrite Hmk.
  destruct plan as [failed_early download_tasks].
  cbn [fst snd].
  destruct download_tasks as [|task tasks] eqn:Htasks.
  - unfold bind, ret. cbn. eexists. split; [reflexivity|exact Hst2].
  - rewrite <- Htasks.
    destruct (gather_return_exceptions_outcomes
                (fun w0 => staging w0 <> None)
                (map (fun t0 => download_image_from_url E (fst (snd t0))
                                                        (snd (snd t0)) quality 3)
                     download_tasks)
                (map (download_alone E quality) download_tasks))
      with (order := order) (w := w2) as [Hres Hinv].
    + now rewrite !length_map.
    + intros i dl outcome w0 Hdl Hout Hw0.
      rewrite nth_error_map in Hdl, Hout.
      destruct (nth_error download_tasks i) as [t0|]; [|discriminate].
      cbn in Hdl, Hout. injection Hdl as <-. injection Hout as <-.
      now apply download_in_staging.
    + exact Hst2.
    + unfold bind at 1.
      replace (match download_tasks with
               | [] => ret []
               | _ :: _ =>
                   Asyncio.gather_return_exceptions order
                     (map (fun t0 => download_image_from_url
                                       E (fst (snd t0)) (snd (snd t0)) quality 3)
                          download_tasks)
               end)
        with (Asyncio.gather_return_exceptions order
                (map (fun t0 => download_image_from_url
                                  E (fst (snd t0)) (snd (snd t0)) quality 3)
                     download_tasks))
        by (rewrite Htasks; reflexivity).
      destruct (Asyncio.gather_return_exceptions order _ w2) as [results w3].
      cbn [fst snd] in Hres, Hinv. subst results.
      unfold ret. rewrite combine_map_r, map_map. cbn [fst snd].
      eexists. split; [reflexivity|exact Hinv].
Qed.

End FanOut.

(** C2.  Uploads: whatever the completion order, a batch over N paths of
    which K fail when uploaded by themselves returns, without raising, N-K
    successes and K failures, each carrying the path it came from, with
    total_files = N, successful_count = N-K, failed_count = K and success
    exactly when K = 0; an exception of the provider is the failure of its
    own file.  Downloads: whatever the completion order, an export whose
    image query answered dispatches N downloads of which K fail by
    themselves and lists N-K downloaded files and, after the nodes that came
    without URL, K failed downloads, each under the node id of its task. *)
Theorem batches_sort_every_item (E : Env) :
  (forall (order : list nat) (paths : list string) (w : World),
      let ok := fun p => ur_success (upload_alone E w p) in
      let N := length paths in
      let K := length (filter (fun p => negb (ok p)) paths) in
      exists b w',
        upload_multiple_files E order paths w = (Val b, w') /\
        map ur_file_path (successful_uploads b) = filter ok paths /\
        map ur_file_path (failed_uploads b) = filter (fun p => negb (ok p)) paths /\
        length (successful_uploads b) = (N - K)%nat /\
        length (failed_uploads b) = K /\
        total_files b = N /\
        successful_count b = (N - K)%nat /\
        failed_count b = K /\
        (success b = true <-> K = 0%nat) /\
        (forall p e, get_storage_provider E = Raise e ->
                     upload_alone E w p = NotUploaded (str_exc e) p)) /\
  (forall (order : list nat) (file_key access_token node_ids format : string)
          (scale quality : Q) (w : World) (data : ImagesData),
      fst (get_figma_images_data E file_key access_token node_ids format scale w)
      = Val (Success data) ->
      images data <> [] ->
      staging w <> None \/ can_create_dir E Files.STAGING = true ->
      let names := node_names_of E file_key access_token node_ids in
      let without_url := fst (plan_downloads E names format (images data) 0) in
      let tasks := snd (plan_downloads E names format (images data) 0) in
      let ok := download_ok E quality in
      let N := length tasks in
      let K := length (filter (fun t => negb (ok t)) tasks) in
      exists exported w',
        export_figma_images_to_folder E order file_key access_token node_ids
                                      format scale quality w
        = (Val (Success exported), w') /\
        map df_node_id (downloaded_files exported) = map fst (filter ok tasks) /\
        map fd_node_id (failed_downloads exported)
        = (map fd_node_id without_url
             ++ map fst (filter (fun t => negb (ok t)) tasks))%list /\
        length (downloaded_files exported) = (N - K)%nat /\
        length (failed_downloads exported) = (length without_url + K)%nat).
Proof.
  split.
  - intros order paths w ok N K.
    destruct (upload_multiple_files_run E order paths w)
      as (b & w' & Hrun & _ & Hs & Hf & Htot & Hsc & Hfc & Hsucc & _).
    assert (Hsp : map ur_file_path (successful_uploads b) = filter ok paths)
      by (rewrite Hs; apply map_filter_path).
    assert (Hfp : map ur_file_path (failed_uploads b)
                  = filter (fun p => negb (ok p)) paths)
      by (rewrite Hf; apply (map_filter_path E (fun r => negb (ur_success r)))).
    assert (HK : length (failed_uploads b) = K)
      by (rewrite <- (length_map ur_file_path), Hfp; reflexivity).
    assert (HNK : length (successful_uploads b) = (N - K)%nat).
    { rewrite <- (length_map ur_file_path), Hsp.
      pose proof (filter_length ok paths) as Hlen. fold K N in Hlen. lia. }
    exists b, w'. repeat split; try assumption; try congruence.
    + intros Hb. rewrite Hsucc, Hfc, HK in Hb. now apply Nat.eqb_eq.
    + intros HK0. rewrite Hsucc, Hfc, HK, HK0. reflexivity.
    + intros p e. apply upload_failure_is_per_item.
  - intros order file_key access_token node_ids format scale quality w data
           Hdata Hitems Hdir names without_url tasks ok N K.
    destruct (export_fan_out E order file_key access_token node_ids format scale
                quality w data Hdata Hitems Hdir) as (w' & Hrun & _).
    fold names in Hrun. fold without_url in Hrun. fold tasks in Hrun.
    destruct (sorted_downloads E names quality tasks) as [Hl Hr].
    fold ok in Hl, Hr.
    eexists; exists w'. split; [exact Hrun|]. cbn [downloaded_files failed_downloads].
    assert (HK : length (rights (map (fun t => file_result names (fst t)
                                                (download_alone E quality t))
                                     tasks)) = K)
      by (rewrite <- (length_map fd_node_id), Hr, length_map; reflexivity).
    assert (HNK : length (lefts (map (fun t => file_result names (fst t)
                                                 (download_alone E quality t))
                                      tasks)) = (N - K)%nat).
    { rewrite <- (length_map df_node_id), Hl, length_map.
      pose proof (filter_length ok tasks) as Hlen. fold K N in Hlen. lia. }
    repeat split.
    + exact Hl.
    + rewrite map_app, Hr. reflexivity.
    + exact HNK.
    + rewrite length_app, HK. reflexivity.
Qed.

Lemma batches_sort_every_item_witness :
  (exists b w',
      upload_multiple_files mixed_env [1%nat; 0%nat]
                            ["temp-images/a.png"; "temp-images/gone.png"]
                            one_file_world = (Val b, w') /\
      map ur_file_path (successful_uploads b) = ["temp-images/a.png"] /\
      map ur_file_path (failed_uploads b) = ["temp-images/gone.png"] /\
      length (successful_uploads b) = 1%nat /\
      length (failed_uploads b) = 1%nat /\
      total_files b = 2%nat /\
      successful_count b = 1%nat /\
      failed_count b = 1%nat) /\
  (exists exported w',
      export_figma_images_to_folder mixed_env [1%nat; 0%nat] "KEY" "token"
                                    "1:2,1:3" "png" 1 (85 # 100) stale_world
      = (Val (Success exported), w') /\
      map df_node_id (downloaded_files exported) = ["1:2"] /\
      map fd_node_id (failed_downloads exported) = ["1:3"] /\
      length (downloaded_files exported) = 1%nat /\
      length (failed_downloads exported) = 1%nat).
Proof.
  destruct (batches_sort_every_item mixed_env) as [Hup Hdl]. split.
  - destruct (Hup [1%nat; 0%nat] ["temp-images/a.png"; "temp-images/gone.png"]
                  one_file_world)
      as (b & w' & Hrun & Hs & Hf & Hls & Hlf & Hn & Hsc & Hfc & _).
    exists b, w'. repeat split; assumption.
  - destruct (Hdl [1%nat; 0%nat] "KEY" "token" "1:2,1:3" "png" 1%Q (85 # 100)%Q
                  stale_world
                  {| images := [("1:2", JStr "https://img.example/2");
                                ("1:3", JStr "https://img.example/3")];
                     failed_nodes := []; err := JNull |})
      as (exported & w' & Hrun & Hs & Hf & Hls & Hlf).
    + vm_compute. reflexivity.
    + discriminate.
    + left. discriminate.
    + exists exported, w'. repeat split; assumption.
Defined.

(** ** File names within a run *)

Section Strings.


Lemma length_append (a b : string) :
  String.length (a ++ b) = (String.length a + String.length b)%nat.
Proof. induction a as [|c a IH]; cbn; [reflexivity|now rewrite IH]. Qed.


Lemma append_assoc (a b c : string) : (a ++ b) ++ c = a ++ (b ++ c).
Proof. induction a as [|x a IH]; cbn; [reflexivity|now rewrite IH]. Qed.

Lemma occurs_append (c : ascii) (a b : string) :
  occurs c (a ++ b) = occurs c a || occurs c b.
Proof.
  induction a as [|x a IH]; cbn; [reflexivity|].
  rewrite IH. now rewrite orb_assoc.
Qed.





End Strings.

Section Filenames.
Variable E : Env.
Variable names : list (string * string).
Variable format : string.



(** Every planned task carries the file name chosen for its position. *)
Lemma planned_filename (items : list (string * json)) (i : nat)
      (t : string * (json * string)) :
  In t (snd (plan_downloads E names format items i)) ->
  exists j, (i <= j)%nat /\
            task_filename t = choose_filename E names format j (fst t).
Proof.
  revert i. induction items as [|[node_id image_url] items IH]; intros i Hin.
  - destruct Hin.
  - cbn [plan_downloads] in Hin.
    destruct (plan_downloads E names format items (S i)) as [failed tasks] eqn:Hp.
    specialize (IH (S i)). rewrite Hp in IH. cbn [snd] in IH.
    destruct (negb (truthy image_url)); cbn [snd] in Hin.
    + destruct (IH Hin) as (j & Hj & Hname). exists j. split; [lia|exact Hname].
    + destruct Hin as [<-|Hin].
      * exists i. split; [lia|reflexivity].
      * destruct (IH Hin) as (j & Hj & Hname). exists j. split; [lia|exact Hname].
Qed.


End Filenames.




(** ** A run with one node without URL *)

Section SingleTask.
Context {A : Type}.
Import Asyncio.

Lemma run_in_order_finished (task : M A) (order : list nat)
      (done : list (nat * Res A)) (w : World) :
  find_done 0 done <> None ->
  run_in_order [task] order done w = (done, w).
Proof.
  intros Hdone. induction order as [|i order IH]; [reflexivity|].
  cbn [run_in_order]. destruct i as [|i]; cbn [nth_error].
  - destruct (find_done 0 done); [exact IH|contradiction].
  - destruct i; exact IH.
Qed.

Lemma run_in_order_single (task : M A) (order : list nat) (w : World) :
  In 0%nat order ->
  run_in_order [task] order [] w = ([(0%nat, fst (task w))], snd (task w)).
Proof.
  induction order as [|i order IH]; intros Hin; [destruct Hin|].
  cbn [run_in_order]. destruct i as [|i]; cbn [nth_error find_done].
  - destruct (task w) as [r w']. cbn [app fst snd].
    apply run_in_order_finished. cbn. discriminate.
  - destruct Hin as [Hin|Hin]; [discriminate|].
    destruct i; now apply IH.
Qed.

(** A single task gathered is that task run. *)
Lemma gather_return_exceptions_single (task : M A) (order : list nat) (w : World) :
  gather_return_exceptions order [task] w = (Val [fst (task w)], snd (task w)).
Proof.
  unfold gather_return_exceptions, run_all.
  rewrite run_in_order_single by (apply in_or_app; right; now left).
  reflexivity.
Qed.

End SingleTask.

Section Extensions.

Lemma endswith_refl (s : string) : endswith s s = true.
Proof.
  destruct s as [|c s]; [reflexivity|].
  cbn [endswith]. now rewrite String.eqb_refl.
Qed.

Lemma endswith_append (a x : string) : endswith (a ++ x) x = true.
Proof.
  induction a as [|c a IH]; [apply endswith_refl|].
  cbn [append endswith]. rewrite IH. apply orb_true_r.
Qed.

(** Of two endings of one string, one ends the other. *)
Lemma endswith_incomparable (a x y : string) :
  endswith x y = false -> endswith y x = false -> endswith (a ++ x) y = false.
Proof.
  intros Hxy Hyx. induction a as [|c a IH]; [exact Hxy|].
  cbn [append endswith]. rewrite IH, orb_false_r.
  destruct (String.eqb_spec (String c (a ++ x)) y) as [Heq|]; [|reflexivity].
  rewrite <- Heq in Hyx.
  change (String c (a ++ x)) with (String c a ++ x) in Hyx.
  now rewrite endswith_append in Hyx.
Qed.

(** Among the files of a directory holding one file whose name ends in
    .png, the scan for image files finds that file, once. *)
Lemma scan_single_png (stem bytes : string) :
  flat_map (rglob [(stem ++ ".png", bytes)]) default_extensions
  = [stem ++ ".png"].
Proof.
  unfold default_extensions, rglob. cbn [flat_map filter fst map].
  rewrite endswith_append.
  rewrite !(endswith_incomparable stem ".png") by reflexivity.
  reflexivity.
Qed.

Lemma choose_filename_extension (E : Env) (names : list (string * string))
      (format : string) (i : nat) (node_id : string) :
  exists stem, choose_filename E names format i node_id = stem ++ "." ++ format.
Proof.
  unfold choose_filename. destruct (lookup names node_id) as [name|].
  - now exists name.
  - exists ("figma_export_" ++ node_id ++ "_" ++ now E i ++ "_"
                            ++ str_int (Z.of_nat (i + 1))).
    now rewrite !append_assoc.
Qed.

End Extensions.

Section OneDownload.
Variable E : Env.

(** The export when exactly one download is dispatched and succeeds: the
    staging directory, created anew, ends up holding that one file. *)
Lemma export_single (order : list nat)
      (file_key access_token node_ids format : string) (scale quality : Q)
      (w : World) (data : ImagesData) (without_url : list FailedDownload)
      (task : string * (json * string)) :
  staging w = None ->
  can_create_dir E Files.STAGING = true ->
  fst (get_figma_images_data E file_key access_token node_ids format scale
                             fresh_world) = Val (Success data) ->
  plan_downloads E (node_names_of E file_key access_token node_ids) format
                 (images data) 0 = (without_url, [task]) ->
  download_ok E quality task = true ->
  exists d bytes t,
    export_figma_images_to_folder E order file_key access_token node_ids
                                  format scale quality w
    = (Val (Success {| downloaded_files := [d];
                       failed_downloads := without_url |}),
       {| staging := Some [(Files.join Files.STAGING (task_filename task), bytes)];
          trace := (trace w ++ t)%list |}) /\
    df_node_id d = fst task.
Proof.
  intros Hst Hdir Hdata Hplan Hok.
  destruct (get_figma_images_data_run E file_key access_token node_ids format scale)
    as (r & tq & Hquery).
  rewrite Hquery in Hdata. cbn [fst] in Hdata. injection Hdata as ->.
  destruct (download_run E (snd (snd task)) quality 3 (fst (snd task)))
    as (r & ob & td & Hrun & Hstored).
  assert (Halone : download_alone E quality task = Val r).
  { unfold download_alone. now rewrite (Hrun fresh_world [] eq_refl). }
  unfold download_ok in Hok. rewrite Halone in Hok.
  destruct r as [file_path filename file_size c|err]; [|discriminate].
  destruct Hstored as (-> & -> & Hob).
  destruct ob as [bytes|]; [|contradiction]. cbn [rewritten] in Hrun.
  unfold export_figma_images_to_folder.
  unfold try_except, bind at 1. rewrite fetch_node_names_run.
  unfold bind at 1. rewrite Hquery.
  destruct (images data) as [|item items] eqn:Himages; [discriminate Hplan|].
  rewrite Hplan. cbn [staging trace].
  unfold bind at 1. unfold Files.mkdir at 1. run_py. rewrite Hst, Hdir. run_py.
  cbn [map]. rewrite gather_return_exceptions_single.
  erewrite Hrun by reflexivity. cbn [fst snd combine map file_result lefts rights].
  rewrite app_nil_r.
  eexists; exists bytes; eexists. split.
  - cbn [assign staging trace task_filename]. rewrite <- !app_assoc. reflexivity.
  - reflexivity.
Qed.

(** The upload of a staging directory that holds one accepted .png file. *)
Lemma upload_single_png (order : list nat) (stem bytes : string) (w : World) :
  staging w = Some [(stem ++ ".png", bytes)] ->
  upload_succeeds E (stem ++ ".png") ->
  exists url w',
    upload_folder_images E order "temp-images" None w
    = (Val (Batch {| success := true;
                     total_files := 1;
                     successful_count := 1;
                     failed_count := 0;
                     successful_uploads :=
                       [Uploaded (basename (stem ++ ".png"))
                                 (Z.of_nat (String.length bytes)) url
                                 (stem ++ ".png")];
                     failed_uploads := [];
                     total_size := Z.of_nat (String.length bytes) |}), w').
Proof.
  intros Hst [[self Hself] Hpost].
  destruct (Hpost bytes) as (response & body & Hresp & Hcode & Hbody & Herr).
  assert (Hlk : lookup [(stem ++ ".png", bytes)] (stem ++ ".png") = Some bytes)
    by (cbn; now rewrite String.eqb_refl).
  assert (Hup : upload_alone E w (stem ++ ".png")
                = Uploaded (basename (stem ++ ".png"))
                           (Z.of_nat (String.length bytes))
                           (fst (_parse_response body)) (stem ++ ".png")).
  { unfold upload_alone, upload_file. unfold try_except, bind, lift.
    rewrite Hself.
    pose proof (upload_reads_response E self (stem ++ ".png") w _ bytes response
                  body Hst Hlk Hresp Hcode Hbody) as Hread.
    rewrite Herr in Hread.
    destruct (upload E self (stem ++ ".png") w) as [r w0].
    cbn [fst] in Hread. subst r. reflexivity. }
  unfold upload_folder_images. unfold bind at 1, get_staging.
  change (String.eqb "temp-images" Files.STAGING) with true. cbv beta iota.
  rewrite Hst. cbv beta iota. rewrite scan_single_png.
  destruct (upload_multiple_files_run E order [stem ++ ".png"] w)
    as (b & w' & Hrun & _ & Hs & Hf & Htot & Hsc & Hfc & Hsucc & Hsize).
  cbn [map] in Hs, Hf. rewrite Hup in Hs, Hf. cbn in Hs, Hf.
  unfold bind. rewrite Hrun. unfold ret.
  exists (fst (_parse_response body)), w'. f_equal. f_equal.
  destruct b as [bs bt bsc bfc bsu bfu bts]. cbn in *. subst.
  reflexivity.
Qed.

End OneDownload.

Section EmptyUrl.
Variable E : Env.

Lemma plan_of_two_nodes (names : list (string * string))
      (items : list (string * json)) (empty valid : string) (u0 u1 : json) :
  items = [(empty, u0); (valid, u1)] \/ items = [(valid, u1); (empty, u0)] ->
  truthy u0 = false -> truthy u1 = true ->
  exists i,
    plan_downloads E names "png" items 0
    = ([{| fd_node_id := empty; fd_error := "图像URL为空" |}],
       [(valid, (u1, choose_filename E names "png" i valid))]).
Proof.
  intros [-> | ->] Hno Hhas; cbn [plan_downloads];
    rewrite Hno, Hhas; cbn [negb]; eexists; reflexivity.
Qed.

(** The resolution of the node ids leaves the staging directory alone and
    hands [target] to the export. *)
Lemma resolution_run (file_key node_ids access_token target : string)
      (export_children : bool) (w : World) :
  resolves_to E file_key access_token node_ids export_children target ->
  staging w = None ->
  exists t,
    (if export_children then
       child_nodes_result <- get_child_node_ids E file_key access_token node_ids ;;
       match child_nodes_result with
       | Failed f => ret (inr f)
       | Success c =>
           match child_node_ids c with
           | [] => ret (inr (failure "指定节点没有子节点可导出"))
           | ids => tgt <- lift (join_ids ids) ;; ret (inl tgt)
           end
       end
     else ret (inl node_ids)) w
    = (Val (inl target), {| staging := None; trace := (trace w ++ t)%list |}).
Proof.
  intros Hres Hst. unfold resolves_to in Hres.
  destruct export_children.
  - destruct Hres as (c & Hc & Hne & Hjoin).
    destruct (get_child_node_ids_run E file_key access_token node_ids) as [r Hrun].
    rewrite Hrun in Hc. cbn [fst] in Hc. injection Hc as ->.
    exists [GetNodes file_key node_ids].
    unfold bind at 1. rewrite Hrun.
    destruct (child_node_ids c) as [|id ids] eqn:Hids; [contradiction|].
    unfold bind, lift, ret. rewrite Hjoin, Hst. reflexivity.
  - subst target. exists []. unfold ret. rewrite app_nil_r.
    destruct w; cbn in *; subst; reflexivity.
Qed.

Lemma empty_url_run (download_order upload_order : list nat)
      (file_key node_ids access_token target : string) (quality : Q)
      (export_children : bool) (data : ImagesData)
      (empty valid : string) (u0 u1 : json) (w : World) :
  empty_url_scenario E file_key node_ids access_token target quality
                     export_children data empty valid u0 u1 ->
  exists name url w',
    get_figma_images E download_order upload_order file_key node_ids "png" 1
                     quality export_children w
    = (Val (Success {| report_successful_uploads := [(name, url)];
                       report_failed_uploads := [] |}), w').
Proof.
  intros (Htoken & Hne & Hresolved & Hdir & Hfetched & Htwo & Hno & Hhas & Hvalid).
  set (names := node_names_of E file_key access_token target) in *.
  destruct (plan_of_two_nodes names (images data) empty valid u0 u1 Htwo Hno Hhas)
    as [i Hplan].
  destruct (Hvalid (valid, (u1, choose_filename E names "png" i valid)))
    as [Hdl Hul]; [rewrite Hplan; now left|].
  destruct (resolution_run file_key node_ids access_token target export_children
              {| staging := None; trace := trace w |} Hresolved eq_refl)
    as [t Hres].
  destruct (export_single E download_order file_key access_token target "png" 1
              quality {| staging := None; trace := (trace w ++ t)%list |} data
              _ _ eq_refl Hdir Hfetched Hplan Hdl)
    as (d & bytes & te & Hexport & _).
  destruct (choose_filename_extension E names "png" i valid) as [stem Hstem].
  unfold task_filename in Hul, Hexport. cbn [snd] in Hul, Hexport.
  assert (Hpath : Files.join Files.STAGING (choose_filename E names "png" i valid)
                  = (Files.STAGING ++ "/" ++ stem) ++ ".png").
  { unfold Files.join. rewrite Hstem, !append_assoc. reflexivity. }
  rewrite Hpath in Hul, Hexport.
  destruct (upload_single_png E upload_order _ bytes
              {| staging := Some [((Files.STAGING ++ "/" ++ stem) ++ ".png", bytes)];
                 trace := ((trace w ++ t) ++ te)%list |} eq_refl Hul)
    as (url & w' & Hupload).
  unfold get_figma_images. rewrite Htoken.
  destruct access_token as [|a s]; [contradiction|].
  unfold try_except, bind at 1, Files.rmtree, put_staging.
  unfold bind at 1. rewrite Hres.
  unfold bind at 1. cbn [trace] in Hexport |- *. rewrite Hexport.
  cbn [downloaded_files].
  unfold bind at 1. rewrite Hupload. unfold ret.
  cbn [get_successful_uploads get_failed_uploads successful_uploads failed_uploads
       flat_map successful_entry failed_entry app].
  eexists; eexists; eexists. reflexivity.
Qed.

Lemma empty_url_export (download_order : list nat)
      (file_key node_ids access_token target : string) (quality : Q)
      (export_children : bool) (data : ImagesData)
      (empty valid : string) (u0 u1 : json) (w : World) :
  empty_url_scenario E file_key node_ids access_token target quality
                     export_children data empty valid u0 u1 ->
  staging w = None ->
  exists d w',
    export_figma_images_to_folder E download_order file_key access_token target
                                  "png" 1 quality w
    = (Val (Success {| downloaded_files := [d];
                       failed_downloads :=
                         [{| fd_node_id := empty; fd_error := "图像URL为空" |}] |}),
       w') /\
    df_node_id d = valid.
Proof.
  intros (Htoken & Hne & Hresolved & Hdir & Hfetched & Htwo & Hno & Hhas & Hvalid)
         Hst.
  set (names := node_names_of E file_key access_token target) in *.
  destruct (plan_of_two_nodes names (images data) empty valid u0 u1 Htwo Hno Hhas)
    as [i Hplan].
  destruct (Hvalid (valid, (u1, choose_filename E names "png" i valid)))
    as [Hdl _]; [rewrite Hplan; now left|].
  destruct (export_single E download_order file_key access_token target "png" 1
              quality w data _ _ Hst Hdir Hfetched Hplan Hdl)
    as (d & bytes & te & Hexport & Hid).
  exists d. eexists. split; [exact Hexport|exact Hid].
Qed.

End EmptyUrl.

(** C1, as the specification states it, fails: in a run over two nodes of
    which 1:2 comes back without URL while 1:3 is downloaded and uploaded,
    the report has one successful upload and no failed upload at all; the
    node without URL is not in it. *)
Lemma empty_url_node_is_missing_from_report :
  exists report w',
    get_figma_images one_empty_env [] [] "KEY" "1:2,1:3" "png" 1 (85 # 100)
                     false stale_world
    = (Val (Success report), w') /\
    length (report_successful_uploads report) = 1%nat /\
    report_failed_uploads report = [] /\
    length (report_failed_uploads report) <> 1%nat.
Proof.
  eexists; eexists. split; [vm_compute; reflexivity|].
  cbn. repeat split; discriminate.
Qed.

(** C1, amended.  In a run over two nodes of which one comes back from the
    image query without URL and the other is downloaded and uploaded with
    success, no download is planned for the node without URL, the export
    stage returns it as the single entry of its failed_downloads, with the
    error "图像URL为空", next to the one downloaded file, and the report
    returned to the caller has exactly one entry in successful_uploads and
    none in failed_uploads, which lists failed uploads only. *)
Theorem empty_url_node_stays_in_export_stage (E : Env)
        (download_order upload_order : list nat)
        (file_key node_ids access_token target : string) (quality : Q)
        (export_children : bool) (data : ImagesData)
        (empty valid : string) (u0 u1 : json) (w : World) :
  empty_url_scenario E file_key node_ids access_token target quality
                     export_children data empty valid u0 u1 ->
  map fst (snd (plan_downloads
                  E (node_names_of E file_key access_token target) "png"
                  (images data) 0)) = [valid] /\
  (forall w0,
      staging w0 = None ->
      exists d w1,
        export_figma_images_to_folder E download_order file_key access_token
                                      target "png" 1 quality w0
        = (Val (Success
                  {| downloaded_files := [d];
                     failed_downloads :=
                       [{| fd_node_id := empty; fd_error := "图像URL为空" |}] |}),
           w1) /\
        df_node_id d = valid) /\
  exists name url w',
    get_figma_images E download_order upload_order file_key node_ids "png" 1
                     quality export_children w
    = (Val (Success {| report_successful_uploads := [(name, url)];
                       report_failed_uploads := [] |}), w').
Proof.
  intros Hscenario. split; [|split].
  - destruct Hscenario as (_ & _ & _ & _ & _ & Htwo & Hno & Hhas & _).
    destruct (plan_of_two_nodes
                E (node_names_of E file_key access_token target) (images data)
                empty valid u0 u1 Htwo Hno Hhas) as [i ->].
    reflexivity.
  - intros w0 Hst.
    now apply (empty_url_export E download_order file_key node_ids access_token
                 target quality export_children data empty valid u0 u1).
  - now apply (empty_url_run E download_order upload_order file_key node_ids
                 access_token target quality export_children data empty valid
                 u0 u1).
Qed.

Lemma empty_url_node_stays_in_export_stage_witness :
  exists name url w',
    get_figma_images one_empty_env [] [] "KEY" "1:2,1:3" "png" 1 (85 # 100)
                     false stale_world
    = (Val (Success {| report_successful_uploads := [(name, url)];
                       report_failed_uploads := [] |}), w').
Proof.
  refine (proj2 (proj2
    (empty_url_node_stays_in_export_stage
       one_empty_env [] [] "KEY" "1:2,1:3" "token" "1:2,1:3" (85 # 100) false
       {| images := [("1:2", JNull); ("1:3", JStr "https://img.example/3")];
          failed_nodes := ["1:2"]; err := JNull |}
       "1:2" "1:3" JNull (JStr "https://img.example/3") stale_world _))).
  unfold empty_url_scenario.
  split; [reflexivity|]. split; [discriminate|]. split; [reflexivity|].
  split; [reflexivity|]. split; [vm_compute; reflexivity|].
  split; [left; reflexivity|]. split; [reflexivity|]. split; [reflexivity|].
  intros task Hin. vm_compute in Hin. destruct Hin as [<-|[]].
  split; [vm_compute; reflexivity|].
  split; [eexists; vm_compute; reflexivity|].
  intros bytes. eexists; eexists. cbn.
  split; [reflexivity|]. split; [reflexivity|]. split; reflexivity.
Defined.

(** * Further properties of the sources *)

(** ** The quality range of pngquant, for every quality *)

Section Truncation.






End Truncation.



(** ** What a computation adds to the trace *)

Section Appends.
Context {A B : Type}.
Variable P : Event -> bool.

Lemma appends_ret (a : A) : appends P (ret a).
Proof. intros w. exists []. cbn. now rewrite app_nil_r. Qed.

Lemma appends_raise (e : PyExc) : appends P (@raise A e).
Proof. intros w. exists []. cbn. now rewrite app_nil_r. Qed.

Lemma appends_lift (r : Res A) : appends P (lift r).
Proof. intros w. exists []. cbn. now rewrite app_nil_r. Qed.

Lemma appends_get_staging : appends P get_staging.
Proof. intros w. exists []. cbn. now rewrite app_nil_r. Qed.

Lemma appends_put_staging (s : option (list (string * string))) :
  appends P (put_staging s).
Proof. intros w. exists []. cbn. now rewrite app_nil_r. Qed.

Lemma appends_emit (e : Event) : P e = true -> appends P (emit e).
Proof. intros He w. exists [e]. cbn. now rewrite He. Qed.

Lemma appends_bind (c : M A) (k : A -> M B) :
  appends P c -> (forall a, appends P (k a)) -> appends P (bind c k).
Proof.
  intros Hc Hk w. unfold bind.
  destruct (Hc w) as (t1 & H1 & P1).
  destruct (c w) as [[a|e] w1]; cbn [snd] in *.
  - destruct (Hk a w1) as (t2 & H2 & P2).
    exists (t1 ++ t2)%list. rewrite H2, H1, app_assoc, forallb_app, P1, P2.
    now split.
  - now exists t1.
Qed.

Lemma appends_try (c : M A) (h : PyExc -> M A) :
  appends P c -> (forall e, appends P (h e)) -> appends P (try_except c h).
Proof.
  intros Hc Hh w. unfold try_except.
  destruct (Hc w) as (t1 & H1 & P1).
  destruct (c w) as [[a|e] w1]; cbn [snd] in *.
  - now exists t1.
  - destruct (Hh e w1) as (t2 & H2 & P2).
    exists (t1 ++ t2)%list. rewrite H2, H1, app_assoc, forallb_app, P1, P2.
    now split.
Qed.

End Appends.

Lemma appends_weaken {A : Type} (P Q : Event -> bool) (c : M A) :
  (forall e, P e = true -> Q e = true) -> appends P c -> appends Q c.
Proof.
  intros HPQ Hc w. destruct (Hc w) as (t & Ht & HP). exists t.
  split; [exact Ht|]. apply forallb_forall. intros e He.
  apply HPQ. now apply (proj1 (forallb_forall P t) HP).
Qed.

(** Follows a computation along its binds and its tests. *)
Ltac follow :=
  repeat first
    [ solve [auto]
    | apply appends_ret
    | apply appends_raise
    | apply appends_lift
    | apply appends_get_staging
    | apply appends_put_staging
    | apply appends_emit; reflexivity
    | apply appends_bind; [|intros ?]
    | apply appends_try; [|intros ?]
    | match goal with
      | |- appends _ (match ?x with _ => _ end) => destruct x
      | |- appends _ (let (_, _) := ?x in _) => destruct x
      end ].

Section ToolEvents.
Variable E : Env.

Lemma stat_size_appends (P : Event -> bool) (p : string) :
  appends P (Files.stat_size p).
Proof. unfold Files.stat_size. follow. Qed.

Lemma read_bytes_appends (P : Event -> bool) (p : string) :
  appends P (Files.read_bytes p).
Proof. unfold Files.read_bytes. follow. Qed.

Lemma write_bytes_appends (P : Event -> bool) (p bytes : string) :
  appends P (Files.write_bytes E p bytes).
Proof. unfold Files.write_bytes. follow. Qed.

Lemma overwrite_appends (P : Event -> bool) (p bytes : string) :
  appends P (Files.overwrite p bytes).
Proof. unfold Files.overwrite. follow. Qed.

Lemma mkdir_appends (P : Event -> bool) : appends P (Files.mkdir E).
Proof. unfold Files.mkdir. follow. Qed.

Lemma compress_png_with_pngquant_appends (p : string) (q : Q) :
  appends is_tool (compress_png_with_pngquant E p q).
Proof.
  unfold compress_png_with_pngquant.
  pose proof (stat_size_appends is_tool) as Hstat.
  pose proof (read_bytes_appends is_tool) as Hread.
  pose proof (overwrite_appends is_tool) as Hover.
  follow; auto.
Qed.

Lemma save_appends (p : string) (img : Image) (format : option string)
      (quality : option Z) (optimize : bool) :
  appends is_tool (save E p img format quality optimize).
Proof.
  unfold save. pose proof (overwrite_appends is_tool) as Hover.
  follow; auto.
Qed.

Lemma compress_image_appends (p : string) (q : Q) (optimize : bool) :
  appends is_tool (compress_image E p q optimize).
Proof.
  unfold compress_image.
  pose proof (stat_size_appends is_tool) as Hstat.
  pose proof (read_bytes_appends is_tool) as Hread.
  pose proof save_appends as Hsave.
  pose proof compress_png_with_pngquant_appends as Hpng.
  follow; auto.
Qed.

End ToolEvents.

(** ** What a compression reports *)

Lemma ratio_at_most_100 (o c : Z) : 0 <= c -> (ratio o c <= 100)%Q.
Proof.
  intros Hc. unfold ratio. destruct (Z.ltb_spec 0 o) as [Ho|Ho]; [|discriminate].
  assert (H1 : (inject_Z (o - c) / inject_Z o <= 1)%Q).
  { apply Qle_shift_div_r.
    - change 0%Q with (inject_Z 0). rewrite <- Zlt_Qlt. exact Ho.
    - rewrite Qmult_1_l. rewrite <- Zle_Qle. lia. }
  setoid_replace (100 : Q) with (1 * 100)%Q at 2 by reflexivity.
  apply Qmult_le_compat_r; [exact H1|discriminate].
Qed.

(** A successful result of [compress_image] describes the file: its
    [original_size] is the size the file had before the call, its
    [compressed_size] the size the file has after it, [size_reduction] is
    their difference and [compression_ratio] the percentage saved, which is
    at most 100 (and negative when the file has grown); the method is
    pngquant or pillow. *)
Theorem compressed_sizes_are_measured (E : Env) (p : string) (q : Q)
        (opt : bool) (w w' : World) (o c : Z) (ra : Q) (red : Z) (m : string)
        (qr : option string) :
  compress_image E p q opt w = (Val (Compressed o c ra red m qr), w') ->
  fst (Files.stat_size p w) = Val o /\
  fst (Files.stat_size p w') = Val c /\
  red = o - c /\ ra = ratio o c /\ (ra <= 100)%Q /\
  (m = "pngquant" \/ m = "pillow").
Proof.
  unfold compress_image. run_py.
  destruct (staging w) as [files|] eqn:Hst; run_py; [|discriminate].
  destruct (lookup files p) as [b0|] eqn:Hlk; run_py; [|discriminate].
  destruct (PIL_AVAILABLE E); cbn [negb]; [|discriminate].
  destruct (String.eqb (file_format_of p) "PNG").
  - unfold compress_png_with_pngquant, get_pngquant_path. run_py.
    destruct (venv_pngquant E); run_py; [|discriminate].
    repeat (progress (run_py; rewrite ?Hst, ?Hlk)).
    destruct (pngquant E b0 _ _) as [result|e]; run_py.
    2:{ destruct e; discriminate. }
    repeat (progress (run_py; rewrite ?Hst, ?Hlk)).
    destruct (returncode result =? 0); [|destruct (returncode result =? 99); discriminate].
    repeat (progress (run_py; rewrite ?lookup_assign_same)).
    intros [= <- <- <- <- <- <- <-]. cbn [staging].
    rewrite lookup_assign_same. cbn [fst].
    repeat split; auto. apply ratio_at_most_100. lia.
  - repeat (progress (run_py; rewrite ?Hst, ?Hlk)).
    destruct (pil_open E b0) as [img|e]; run_py; [|discriminate].
    match goal with
    | |- context [(if ?b then ?s1 else if ?b2 then ?s2 else ?s3) ?w0] =>
        assert (Hsave : exists img' fmt ql, (if b then s1 else if b2 then s2 else s3) = save E p img' fmt ql opt)
          by (destruct b; [|destruct b2]; eexists; eexists; eexists; reflexivity)
    end.
    destruct Hsave as (img' & fmt & ql & ->).
    unfold save. run_py.
    destruct (pil_save E p img' fmt ql opt) as [bytes|e]; run_py; [|discriminate].
    cbn [staging trace]. repeat (progress (run_py; rewrite ?Hst, ?lookup_assign_same)).
    intros [= <- <- <- <- <- <- <-]. cbn [staging].
    rewrite lookup_assign_same. cbn [fst].
    repeat split; auto. apply ratio_at_most_100. lia.
Qed.

Lemma compressed_sizes_are_measured_witness :
  exists w',
    compress_image offline_env "temp-images/a.jpg" (1 # 4) true jpeg_world
    = (Val (Compressed 10 10 (ratio 10 10) 0 "pillow" None), w') /\
    fst (Files.stat_size "temp-images/a.jpg" jpeg_world) = Val 10 /\
    fst (Files.stat_size "temp-images/a.jpg" w') = Val 10.
Proof.
  assert (H : compress_image offline_env "temp-images/a.jpg" (1 # 4) true
                             jpeg_world
              = (Val (Compressed 10 10 (ratio 10 10) 0 "pillow" None),
                 {| staging := Some [("temp-images/a.jpg", "jpeg bytes")];
                    trace := [PilSave "temp-images/a.jpg" (Some "JPEG") "RGB"
                                      (Some 25)] |}))
    by reflexivity.
  eexists. split; [exact H|].
  pose proof (compressed_sizes_are_measured _ _ _ _ _ _ _ _ _ _ _ _ H) as Hm.
  split; [exact (proj1 Hm)|exact (proj1 (proj2 Hm))].
Defined.

(** ** PNG files *)

Section LetterCase.

Lemma to_upper_to_lower (c : ascii) : to_upper (to_lower c) = to_upper c.
Proof. destruct c as [[] [] [] [] [] [] [] []]; reflexivity. Qed.

Lemma upper_lower (s : string) : upper (lower s) = upper s.
Proof.
  unfold upper, lower. induction s as [|c s IH]; cbn; [reflexivity|].
  now rewrite to_upper_to_lower, IH.
Qed.

(** A suffix that is .png in some letter case is the format PNG. *)
Lemma png_file_format (path : string) :
  lower (suffix path) = ".png" -> file_format_of path = "PNG".
Proof.
  intros H. unfold file_format_of.
  rewrite <- upper_lower, H. reflexivity.
Qed.

End LetterCase.

(** A file whose suffix is .png, in whatever letter case, is a file the
    downloader asks to compress, and [compress_image] hands it to pngquant
    alone: with Pillow importable the call is the call of
    [compress_png_with_pngquant] with the clamped quality, so that without
    pngquant the file is left as it is and the failure names pngquant;
    without Pillow the call fails before pngquant is looked for, although
    Pillow would not have been used. *)
Theorem png_is_left_to_pngquant (E : Env) (path : string) (q : Q) (opt : bool)
        (w : World) (files : list (string * string)) (bytes : string) :
  staging w = Some files ->
  lookup files path = Some bytes ->
  lower (suffix path) = ".png" ->
  is_compression_supported path = true /\
  (PIL_AVAILABLE E = true ->
   compress_image E path q opt w
   = compress_png_with_pngquant E path (clamp_quality q) w /\
   (venv_pngquant E = None ->
    compress_image E path q opt w
    = (Val (NotCompressed
              "pngquant未找到。请安装: pip install pngquant-cli 或 brew install pngquant"),
       w))) /\
  (PIL_AVAILABLE E = false ->
   compress_image E path q opt w
   = (Val (NotCompressed "图像压缩功能需要安装 Pillow 库: pip install Pillow"), w)).
Proof.
  intros Hst Hlk Hpng. split; [|split].
  - unfold is_compression_supported. rewrite Hpng. reflexivity.
  - intros Hpil.
    assert (Hsame : compress_image E path q opt w
                    = compress_png_with_pngquant E path (clamp_quality q) w).
    { destruct (compress_png_with_pngquant_run E path (clamp_quality q) bytes)
        as (r & ob & t & Hrun).
      unfold compress_image. run_py. rewrite Hst. run_py. rewrite Hlk. run_py.
      rewrite Hpil. cbn [negb]. rewrite (png_file_format path Hpng).
      cbn [String.eqb Ascii.eqb Bool.eqb]. cbv beta iota.
      rewrite (Hrun w files Hst Hlk). reflexivity. }
    split; [exact Hsame|].
    intros Hnone. rewrite Hsame.
    unfold compress_png_with_pngquant, get_pngquant_path. rewrite Hnone.
    reflexivity.
  - intros Hpil. unfold compress_image. run_py. rewrite Hst. run_py.
    rewrite Hlk. run_py. rewrite Hpil. reflexivity.
Qed.

Lemma png_is_left_to_pngquant_witness :
  is_compression_supported "temp-images/Logo.PNG" = true /\
  compress_image offline_env "temp-images/Logo.PNG" (85 # 100) true
                 {| staging := Some [("temp-images/Logo.PNG", "png bytes")];
                    trace := [] |}
  = (Val (NotCompressed
            "pngquant未找到。请安装: pip install pngquant-cli 或 brew install pngquant"),
     {| staging := Some [("temp-images/Logo.PNG", "png bytes")]; trace := [] |}).
Proof.
  pose proof (png_is_left_to_pngquant
                offline_env "temp-images/Logo.PNG" (85 # 100) true
                {| staging := Some [("temp-images/Logo.PNG", "png bytes")];
                   trace := [] |}
                [("temp-images/Logo.PNG", "png bytes")] "png bytes"
                eq_refl eq_refl eq_refl) as [Hsup [Hpil _]].
  split; [exact Hsup|]. exact (proj2 (Hpil eq_refl) eq_refl).
Defined.

(** ** The configuration of the upload provider *)

Section Provider.
Variable E : Env.




End Provider.



(** ** One upload *)

(** [CustomUploader.upload] never raises and never changes a file.  It sends
    at most one POST, nothing being retried, and none exactly when the file
    is not there, the result then being the failure "File does not exist".
    Every result, successful or not, carries the path that was given; a
    successful one has the base name of the path as [file_name] and the size
    of the file as [file_size], and its POST has been sent. *)
Theorem upload_posts_at_most_once (E : Env) (self : CustomUploader)
        (path : string) (w : World) :
  exists r t,
    upload E self path w
    = (Val r, {| staging := staging w; trace := (trace w ++ t)%list |}) /\
    ur_file_path r = path /\
    (t = [] \/ t = [PostFile path]) /\
    (t = [] <-> fst (Files.exists_file path w) = Val false) /\
    (t = [] -> r = NotUploaded ("File does not exist: " ++ path) path) /\
    (forall name size url p,
        r = Uploaded name size url p ->
        name = basename path /\ p = path /\
        fst (Files.stat_size path w) = Val size /\
        t = [PostFile path]).
Proof.
  assert (Habsent : forall files,
             staging w = files ->
             match files with
             | Some l => lookup l path = None
             | None => True
             end ->
             exists r t,
               upload E self path w
               = (Val r, {| staging := staging w; trace := (trace w ++ t)%list |}) /\
               ur_file_path r = path /\
               (t = [] \/ t = [PostFile path]) /\
               (t = [] <-> fst (Files.exists_file path w) = Val false) /\
               (t = [] -> r = NotUploaded ("File does not exist: " ++ path) path) /\
               (forall name size url p,
                   r = Uploaded name size url p ->
                   name = basename path /\ p = path /\
                   fst (Files.stat_size path w) = Val size /\
                   t = [PostFile path])).
  { intros files Hst Hlk.
    exists (NotUploaded ("File does not exist: " ++ path) path), [].
    unfold upload. run_py. rewrite Hst.
    destruct files as [l|]; run_py; rewrite ?Hlk; run_py;
      rewrite app_nil_r;
      (split; [destruct w; cbn in *; subst; reflexivity|]);
      repeat split; auto; discriminate. }
  destruct (staging w) as [files|] eqn:Hst; [|now apply (Habsent None)].
  destruct (lookup files path) as [bytes|] eqn:Hlk;
    [|now apply (Habsent (Some files))].
  clear Habsent.
  assert (Hthere : fst (Files.exists_file path w) = Val true)
    by (unfold Files.exists_file; run_py; rewrite Hst; run_py; now rewrite Hlk).
  assert (Hsize : fst (Files.stat_size path w)
                  = Val (Z.of_nat (String.length bytes)))
    by (unfold Files.stat_size; run_py; rewrite Hst; run_py; now rewrite Hlk).
  assert (Hrun : exists r,
             upload E self path w
             = (Val r, {| staging := Some files;
                          trace := (trace w ++ [PostFile path])%list |}) /\
             ur_file_path r = path /\
             forall name size url p,
               r = Uploaded name size url p ->
               name = basename path /\ p = path /\
               size = Z.of_nat (String.length bytes)).
  { unfold upload.
    destruct (http_post E path bytes) as [response|e] eqn:Hpost;
      [destruct (status_code response =? 200) eqn:Hcode;
       [destruct (response_json response) as [data|e] eqn:Hjson;
        [destruct data as [ |b|q|str|l|body];
         [ | | | | |destruct (_parse_response body) as [file_url error_msg] eqn:Hp;
                    destruct (truthy error_msg) eqn:Herr]| ]| ]| ];
      eexists;
      (split; [repeat (progress (run_py;
                                 rewrite ?Hst, ?Hlk, ?Hpost, ?Hcode, ?Hjson,
                                   ?Hp, ?Herr));
               reflexivity|]);
      (split; [reflexivity|]);
      intros name size url p Heq; try discriminate Heq;
      injection Heq as <- <- <- <-; repeat split. }
  destruct Hrun as (r & Hrun & Hpath & Hok).
  exists r, [PostFile path]. split; [exact Hrun|]. split; [exact Hpath|].
  split; [now right|]. split; [|split].
  - split; [discriminate|]. rewrite Hthere. discriminate.
  - discriminate.
  - intros name size url p Heq.
    destruct (Hok name size url p Heq) as (Hn & Hp & Hs).
    subst size. repeat split; assumption.
Qed.

Lemma upload_posts_at_most_once_witness :
  exists r t,
    upload mixed_env {| secret_key := "secret";
                        base_url := "https://upload.example" |}
           "temp-images/a.png" one_file_world
    = (Val r, {| staging := Some [("temp-images/a.png", "image bytes")];
                 trace := t |}) /\
    ur_file_path r = "temp-images/a.png" /\
    (t = [] \/ t = [PostFile "temp-images/a.png"]).
Proof.
  destruct (upload_posts_at_most_once
              mixed_env {| secret_key := "secret";
                           base_url := "https://upload.example" |}
              "temp-images/a.png" one_file_world)
    as (r & t & Hrun & Hpath & Hpost & _).
  exists r, t. repeat split; assumption.
Defined.

(** ** Uploads that succeed without a URL *)

(** [_parse_response] never gives a URL together with an error.  But
    [upload] takes a reply for an error only when the error message is
    truthy: a reply that is not accepted and whose message is empty, null,
    zero or false is returned as a successful upload whose url is None; so
    is an accepted reply in which neither [data], as a string or an object,
    nor a top-level [url] is to be found. *)
Theorem upload_success_without_url (body : list (string * json)) :
  (fst (_parse_response body) = JNull \/ snd (_parse_response body) = JNull) /\
  forall E self path w files bytes response,
    staging w = Some files ->
    lookup files path = Some bytes ->
    http_post E path bytes = Val response ->
    status_code response = 200 ->
    json_body response = Some (JDict body) ->
    (reports_success body = false ->
     truthy (dict_get body "message" (JStr "Unknown server error")) = false ->
     fst (upload E self path w)
     = Val (Uploaded (basename path) (Z.of_nat (String.length bytes)) JNull
                     path)) /\
    (reports_success body = true ->
     isinstance_str (dict_get body "data" JNull) = false ->
     isinstance_dict (dict_get body "data" JNull) = false ->
     dict_mem body "url" = false ->
     fst (upload E self path w)
     = Val (Uploaded (basename path) (Z.of_nat (String.length bytes)) JNull
                     path)).
Proof.
  split.
  - unfold _parse_response. destruct (reports_success body); [|now left].
    destruct (dict_get body "data" JNull); now right.
  - intros E self path w files bytes response Hst Hlk Hpost Hcode Hbody.
    pose proof (upload_reads_response E self path w files bytes response body
                  Hst Hlk Hpost Hcode Hbody) as Hup.
    split.
    + intros Hno Hmsg. rewrite Hup. unfold _parse_response. rewrite Hno.
      cbn [fst snd]. now rewrite Hmsg.
    + intros Hok Hs Hd Hurl. rewrite Hup. unfold _parse_response. rewrite Hok.
      rewrite (dict_get_absent body "url" JNull Hurl).
      destruct (dict_get body "data" JNull); try discriminate; reflexivity.
Qed.

Lemma upload_success_without_url_witness :
  fst (upload (with_http_post
                 offline_env
                 (fun _ _ =>
                    Val {| status_code := 200; content := "";
                           json_body :=
                             Some (JDict [("code", JNum 1);
                                          ("message", JStr "")]) |}))
              {| secret_key := "secret"; base_url := "https://upload.example" |}
              "temp-images/a.png" one_file_world)
  = Val (Uploaded "a.png" 11 JNull "temp-images/a.png").
Proof.
  exact (proj1 (proj2 (upload_success_without_url
                         [("code", JNum 1); ("message", JStr "")])
                      (with_http_post
                         offline_env
                         (fun _ _ =>
                            Val {| status_code := 200; content := "";
                                   json_body :=
                                     Some (JDict [("code", JNum 1);
                                                  ("message", JStr "")]) |}))
                      {| secret_key := "secret";
                         base_url := "https://upload.example" |}
                      "temp-images/a.png" one_file_world
                      [("temp-images/a.png", "image bytes")] "image bytes"
                      {| status_code := 200; content := "";
                         json_body :=
                           Some (JDict [("code", JNum 1);
                                        ("message", JStr "")]) |}
                      eq_refl eq_refl eq_refl eq_refl eq_refl)
               eq_refl eq_refl).
Defined.

(** ** Nothing to upload *)

Section EmptyBatch.
Context {A : Type}.
Import Asyncio.



End EmptyBatch.

Section NoMatch.

Lemma rglob_none (files : list (string * string)) (ext : string) :
  (forall p, In p (map fst files) -> endswith p ext = false) ->
  rglob files ext = [].
Proof.
  intros Hnone. unfold rglob.
  induction files as [|[p b] files IH]; [reflexivity|].
  cbn [filter fst]. rewrite (Hnone p) by now left.
  apply IH. intros p' Hin. apply Hnone. now right.
Qed.

Lemma scan_none (files : list (string * string)) (exts : list string) :
  (forall p ext, In p (map fst files) -> In ext exts -> endswith p ext = false) ->
  flat_map (rglob files) exts = [].
Proof.
  intros Hnone. induction exts as [|ext exts IH]; [reflexivity|].
  cbn [flat_map]. rewrite rglob_none.
  - apply IH. intros p e Hp He. apply Hnone; [exact Hp|now right].
  - intros p Hp. apply Hnone; [exact Hp|now left].
Qed.

End NoMatch.



(** ** The files a folder upload selects *)

Section Selection.

Lemma endswith_both (p x y : string) :
  endswith p x = true -> endswith p y = true ->
  endswith x y = true \/ endswith y x = true.
Proof.
  induction p as [|c p IH]; cbn [endswith].
  - rewrite !orb_false_r. intros Hx Hy.
    apply String.eqb_eq in Hx. apply String.eqb_eq in Hy. subst x y.
    now left.
  - destruct (String.eqb (String c p) x) eqn:Ex.
    + apply String.eqb_eq in Ex. subst x. intros _ Hy. left.
      cbn [endswith]. exact Hy.
    + destruct (String.eqb (String c p) y) eqn:Ey.
      * apply String.eqb_eq in Ey. subst y. intros Hx _. right.
        cbn [endswith]. rewrite Ex. exact Hx.
      * exact IH.
Qed.

(** No file name ends with two of the default extensions. *)
Lemma default_extensions_exclusive (p x y : string) :
  In x default_extensions -> In y default_extensions ->
  endswith p x = true -> endswith p y = true -> x = y.
Proof.
  intros Hx Hy Hpx Hpy.
  destruct (endswith_both p x y Hpx Hpy) as [H|H];
    cbn in Hx, Hy;
    repeat (destruct Hx as [<-|Hx]; [|]);
    try (destruct Hx);
    repeat (destruct Hy as [<-|Hy]; [|]);
    try (destruct Hy);
    try reflexivity; discriminate H.
Qed.

Lemma in_rglob (files : list (string * string)) (ext p : string) :
  In p (rglob files ext) <-> In p (map fst files) /\ endswith p ext = true.
Proof.
  unfold rglob. split.
  - intros Hin. apply in_map_iff in Hin. destruct Hin as ([p' b] & <- & Hin).
    apply filter_In in Hin. destruct Hin as [Hin Hend]. cbn [fst] in *.
    split; [|exact Hend]. apply in_map_iff. now exists (p', b).
  - intros [Hin Hend]. apply in_map_iff in Hin.
    destruct Hin as ([p' b] & <- & Hin). cbn [fst] in *.
    apply in_map_iff. exists (p', b). split; [reflexivity|].
    apply filter_In. now split.
Qed.

Lemma rglob_nodup (files : list (string * string)) (ext : string) :
  NoDup (map fst files) -> NoDup (rglob files ext).
Proof.
  unfold rglob. induction files as [|[p b] files IH]; cbn [map filter fst].
  - constructor.
  - intros Hnd. inversion Hnd as [|x l Hnotin Hrest]. subst.
    destruct (endswith p ext); [|now apply IH].
    cbn [map fst]. constructor; [|now apply IH].
    intros Hin. apply Hnotin. apply in_map_iff in Hin.
    destruct Hin as ([p' b'] & <- & Hin). apply filter_In in Hin.
    apply in_map_iff. exists (p', b'). split; [reflexivity|apply Hin].
Qed.

Lemma scan_nodup (files : list (string * string)) (exts : list string) :
  NoDup (map fst files) -> NoDup exts ->
  (forall p x y, In x exts -> In y exts ->
                 endswith p x = true -> endswith p y = true -> x = y) ->
  NoDup (flat_map (rglob files) exts).
Proof.
  intros Hfiles Hexts Hexcl.
  induction exts as [|ext exts IH]; cbn [flat_map]; [constructor|].
  inversion Hexts as [|x l Hnotin Hrest]. subst.
  apply NoDup_app.
  - now apply rglob_nodup.
  - apply IH; [exact Hrest|].
    intros p x y Hx Hy. apply Hexcl; now right.
  - intros p Hin Hlater. apply in_rglob in Hin. destruct Hin as [_ Hend].
    apply in_flat_map in Hlater. destruct Hlater as (ext' & Hext' & Hin').
    apply in_rglob in Hin'. destruct Hin' as [_ Hend'].
    apply Hnotin.
    rewrite (Hexcl p ext ext'); [exact Hext'|now left|now right|exact Hend
                                |exact Hend'].
Qed.

Lemma filter_partition {A : Type} (f : A -> bool) (l : list A) :
  Permutation (filter f l ++ filter (fun a => negb (f a)) l) l.
Proof.
  induction l as [|a l IH]; cbn [filter]; [constructor|].
  destruct (f a); cbn [negb app].
  - now constructor.
  - apply Permutation_sym, Permutation_cons_app, Permutation_sym. exact IH.
Qed.

End Selection.

(** With the default extensions, [upload_folder_images] selects every file
    of the folder whose name ends in .png, .jpg, .jpeg, .gif, .svg or .webp,
    no other file, and each selected file once: no file is found under two
    extensions.  When at least one file is selected the batch has one result
    per selected file, each file being in exactly one of
    [successful_uploads] and [failed_uploads]. *)
Theorem default_extensions_select_each_file_once (E : Env) (order : list nat)
        (w : World) (files : list (string * string)) :
  staging w = Some files ->
  NoDup (map fst files) ->
  NoDup (flat_map (rglob files) default_extensions) /\
  (forall p,
      In p (flat_map (rglob files) default_extensions) <->
      In p (map fst files) /\ existsb (endswith p) default_extensions = true) /\
  (flat_map (rglob files) default_extensions <> [] ->
   exists b w',
     upload_folder_images E order "temp-images" None w = (Val (Batch b), w') /\
     total_files b = length (flat_map (rglob files) default_extensions) /\
     Permutation (map ur_file_path (successful_uploads b ++ failed_uploads b))
                 (flat_map (rglob files) default_extensions)).
Proof.
  intros Hst Hnd. split; [|split].
  - apply scan_nodup; [exact Hnd| |apply default_extensions_exclusive].
    unfold default_extensions.
    repeat (constructor;
            [cbn; intros Hin;
             repeat (destruct Hin as [Hin|Hin]; [discriminate Hin|]);
             exact Hin|]).
    constructor.
  - intros p. rewrite in_flat_map. split.
    + intros (ext & Hext & Hin). apply in_rglob in Hin.
      destruct Hin as [Hin Hend]. split; [exact Hin|].
      apply existsb_exists. now exists ext.
    + intros [Hin Hex]. apply existsb_exists in Hex.
      destruct Hex as (ext & Hext & Hend). exists ext.
      split; [exact Hext|]. apply in_rglob. now split.
  - intros Hsome.
    destruct (upload_multiple_files_run
                E order (flat_map (rglob files) default_extensions) w)
      as (b & w' & Hrun & _ & Hs & Hf & Htot & _).
    exists b, w'. split; [|split].
    + unfold upload_folder_images. run_py. rewrite Hst.
      cbn [String.eqb Ascii.eqb Bool.eqb Files.STAGING]. cbv beta iota.
      destruct (flat_map (rglob files) default_extensions) as [|p l] eqn:Hsel;
        [contradiction|].
      rewrite Hrun. reflexivity.
    + exact Htot.
    + rewrite map_app, Hs, Hf.
      rewrite (map_filter_path E ur_success).
      rewrite (map_filter_path E (fun r => negb (ur_success r))).
      apply filter_partition.
Qed.

Lemma default_extensions_select_each_file_once_witness :
  NoDup (flat_map (rglob [("temp-images/a.png", "image bytes");
                          ("temp-images/b.pdf", "pdf bytes");
                          ("temp-images/c.jpeg", "jpeg bytes")])
                  default_extensions) /\
  flat_map (rglob [("temp-images/a.png", "image bytes");
                   ("temp-images/b.pdf", "pdf bytes");
                   ("temp-images/c.jpeg", "jpeg bytes")])
           default_extensions
  = ["temp-images/a.png"; "temp-images/c.jpeg"].
Proof.
  split; [|reflexivity].
  refine (proj1 (default_extensions_select_each_file_once
                   offline_env []
                   {| staging := Some [("temp-images/a.png", "image bytes");
                                       ("temp-images/b.pdf", "pdf bytes");
                                       ("temp-images/c.jpeg", "jpeg bytes")];
                      trace := [] |}
                   [("temp-images/a.png", "image bytes");
                    ("temp-images/b.pdf", "pdf bytes");
                    ("temp-images/c.jpeg", "jpeg bytes")] eq_refl _)).
  cbn [map fst].
  repeat (constructor;
          [cbn; intros Hin;
           repeat (destruct Hin as [Hin|Hin]; [discriminate Hin|]);
           exact Hin|]).
  constructor.
Defined.

(** ** The image query *)

Section ImagesQuery.

Lemma images_query_cases (E : Env)
        (file_key access_token node_ids format : string) (scale : Q)
        (w : World) :
  exists r,
    get_figma_images_data E file_key access_token node_ids format scale w
    = (Val r,
       {| staging := staging w;
          trace := (trace w ++ if valid_query format scale
                               then [GetImages file_key node_ids format scale]
                               else [])%list |}) /\
    (forall f, r = Failed f ->
               (failure_status_code f = None <-> valid_query format scale = false) /\
               failure_status_code f <> Some 200) /\
    (forall data, r = Success data ->
                  valid_query format scale = true /\
                  (exists response,
                      figma_images E file_key node_ids format scale = Val response /\
                      status_code response = 200) /\
                  failed_nodes data
                  = map fst (filter (fun kv => negb (truthy (snd kv)))
                                    (images data))).
Proof.
  unfold get_figma_images_data, valid_query.
  destruct (existsb (String.eqb format) valid_formats) eqn:Hfmt; cbn [andb negb].
  2:{ eexists. split; [run_py; rewrite app_nil_r; destruct w; reflexivity|].
      split; [intros f [= <-]; cbn; split; [tauto|discriminate]|discriminate]. }
  destruct (scale_in_range scale) eqn:Hscale; cbn [negb].
  2:{ eexists. split; [run_py; rewrite app_nil_r; destruct w; reflexivity|].
      split; [intros f [= <-]; cbn; split; [tauto|discriminate]|discriminate]. }
  destruct (figma_images E file_key node_ids format scale)
    as [response|e] eqn:Hnet.
  2:{ eexists. split; [run_known; reflexivity|].
      split; [|discriminate].
      intros f [= <-]. destruct e; cbn; (split; [split|]; discriminate). }
  destruct (status_code response =? 200) eqn:Hcode.
  2:{ eexists. split; [run_known; reflexivity|].
      split; [|discriminate].
      intros f [= <-]. cbn. apply Z.eqb_neq in Hcode.
      split; [split; discriminate|congruence]. }
  assert (Hfail : forall e0 : PyExc,
             (failure_status_code
                (handle_exception e0 "获取Figma图像") = None <-> true = false) /\
             failure_status_code (handle_exception e0 "获取Figma图像") <> Some 200)
    by (intros e0; destruct e0; cbn; (split; [split|]; discriminate)).
  destruct (response_json response) as [data|e] eqn:Hjson;
    [destruct (py_get data "images" (JDict [])) as [imgs|e] eqn:Himgs;
     [destruct (py_get data "err" JNull) as [er|e] eqn:Herr;
      [destruct (py_items imgs) as [items|e] eqn:Hitems| ]| ]| ];
    (eexists; split; [run_known; reflexivity|]);
    (split; [intros f Heq; try discriminate Heq; injection Heq as <-;
             apply Hfail|]);
    intros d Heq; try discriminate Heq; injection Heq as <-.
  split; [reflexivity|]. split; [|reflexivity].
  exists response. split; [reflexivity|]. now apply Z.eqb_eq.
Qed.

End ImagesQuery.

(** [get_figma_images_data] never raises and changes no file.  It sends its
    one request exactly when the format and the scale are valid.  A failure
    carries no status code exactly when it is a failure of that validation;
    any other failure carries the status of the answer, which is not 200, or
    408, 0 or 500 for an exception.  A success comes from an answer with
    status 200 only, and its [failed_nodes] are the node ids whose URL is
    null or empty, in the order of [images]. *)
Theorem images_query_outcomes (E : Env)
        (file_key access_token node_ids format : string) (scale : Q)
        (w : World) :
  exists r,
    get_figma_images_data E file_key access_token node_ids format scale w
    = (Val r,
       {| staging := staging w;
          trace := (trace w ++ if valid_query format scale
                               then [GetImages file_key node_ids format scale]
                               else [])%list |}) /\
    (forall f, r = Failed f ->
               (failure_status_code f = None <-> valid_query format scale = false) /\
               failure_status_code f <> Some 200) /\
    (forall data, r = Success data ->
                  valid_query format scale = true /\
                  (exists response,
                      figma_images E file_key node_ids format scale = Val response /\
                      status_code response = 200) /\
                  failed_nodes data
                  = map fst (filter (fun kv => negb (truthy (snd kv)))
                                    (images data))).
Proof.
  apply images_query_cases.
Qed.

Lemma images_query_outcomes_witness :
  exists r,
    get_figma_images_data
      (with_figma_images offline_env
         (fun _ _ _ _ => Val {| status_code := 404; content := "";
                                json_body := None |}))
      "KEY" "token" "1:2" "png" 1 fresh_world
    = (Val r, {| staging := Some [];
                 trace := [GetImages "KEY" "1:2" "png" 1] |}) /\
    forall f, r = Failed f ->
              failure_status_code f <> None /\ failure_status_code f <> Some 200.
Proof.
  destruct (images_query_outcomes
              (with_figma_images offline_env
                 (fun _ _ _ _ => Val {| status_code := 404; content := "";
                                        json_body := None |}))
              "KEY" "token" "1:2" "png" 1 fresh_world)
    as (r & Hrun & Hfailed & _).
  exists r. split; [exact Hrun|].
  intros f Hf. destruct (Hfailed f Hf) as [Hnone H200].
  split; [|exact H200].
  intros Habs. apply Hnone in Habs. discriminate Habs.
Defined.

(** ** No node is lost by the export *)

Section Accounting.
Variable E : Env.
Variable names : list (string * string).
Variable format : string.

(** The loop of lines 366-385 puts every node on exactly one side. *)
Lemma plan_partition (items : list (string * json)) (i : nat) :
  Permutation (map fd_node_id (fst (plan_downloads E names format items i))
               ++ map fst (snd (plan_downloads E names format items i)))
              (map fst items).
Proof.
  revert i. induction items as [|[node_id image_url] items IH]; intros i.
  - constructor.
  - cbn [plan_downloads]. specialize (IH (S i)).
    destruct (plan_downloads E names format items (S i)) as [failed tasks].
    cbn [fst snd] in IH.
    destruct (negb (truthy image_url)); cbn [fst snd map app].
    + now constructor.
    + apply Permutation_sym, Permutation_cons_app, Permutation_sym. exact IH.
Qed.

Lemma plan_without_url (items : list (string * json)) (i : nat) :
  map fd_node_id (fst (plan_downloads E names format items i))
  = map fst (filter (fun kv => negb (truthy (snd kv))) items) /\
  Forall (fun f => fd_error f = "图像URL为空")
         (fst (plan_downloads E names format items i)).
Proof.
  revert i. induction items as [|[node_id image_url] items IH]; intros i.
  - split; [reflexivity|constructor].
  - cbn [plan_downloads filter snd]. specialize (IH (S i)).
    destruct (plan_downloads E names format items (S i)) as [failed tasks].
    cbn [fst snd] in IH. destruct IH as [IHid IHerr].
    destruct (negb (truthy image_url)); cbn [fst snd map].
    + split; [now rewrite IHid|]. now constructor.
    + now split.
Qed.

End Accounting.

(** Once the image query has answered with a mapping that is not empty,
    and the staging directory is there or can be created, the export
    succeeds and accounts for every node of the mapping exactly once,
    whatever the order in which the downloads complete: the node ids of
    [downloaded_files] followed by those of [failed_downloads] are a
    rearrangement of the keys of [images].  The nodes the query listed in
    [failed_nodes] open [failed_downloads], in the same order and with the
    error "图像URL为空". *)
Theorem export_accounts_for_every_node (E : Env) (order : list nat)
        (file_key access_token node_ids format : string) (scale quality : Q)
        (w : World) (data : ImagesData) :
  fst (get_figma_images_data E file_key access_token node_ids format scale w)
  = Val (Success data) ->
  images data <> [] ->
  staging w <> None \/ can_create_dir E Files.STAGING = true ->
  exists exported w',
    export_figma_images_to_folder E order file_key access_token node_ids
                                  format scale quality w
    = (Val (Success exported), w') /\
    Permutation (map df_node_id (downloaded_files exported)
                 ++ map fd_node_id (failed_downloads exported))
                (map fst (images data)) /\
    (length (downloaded_files exported) + length (failed_downloads exported)
     = length (images data))%nat /\
    exists later,
      failed_downloads exported
      = (map (fun id => {| fd_node_id := id; fd_error := "图像URL为空" |})
             (failed_nodes data) ++ later)%list.
Proof.
  intros Hdata Hitems Hdir.
  destruct (export_fan_out E order file_key access_token node_ids format scale
              quality w data Hdata Hitems Hdir) as (w' & Hrun & _).
  set (names := node_names_of E file_key access_token node_ids) in *.
  set (plan := plan_downloads E names format (images data) 0) in *.
  set (sorted := map (fun t => file_result names (fst t)
                                           (download_alone E quality t))
                     (snd plan)) in *.
  destruct (sorted_downloads E names quality (snd plan)) as [Hl Hr].
  fold sorted in Hl, Hr.
  assert (Hperm : Permutation
                    (map df_node_id (lefts sorted)
                     ++ map fd_node_id (fst plan ++ rights sorted))
                    (map fst (images data))).
  { rewrite map_app, Hl, Hr.
    apply Permutation_trans with
      (l' := (map fd_node_id (fst plan)
              ++ (map fst (filter (download_ok E quality) (snd plan))
                  ++ map fst (filter (fun t => negb (download_ok E quality t))
                                     (snd plan))))%list).
    - rewrite !app_assoc. apply Permutation_app_tail, Permutation_app_comm.
    - rewrite <- map_app.
      apply Permutation_trans with
        (l' := (map fd_node_id (fst plan) ++ map fst (snd plan))%list).
      + apply Permutation_app_head, Permutation_map, filter_partition.
      + apply plan_partition. }
  eexists; exists w'. split; [exact Hrun|].
  cbn [downloaded_files failed_downloads].
  split; [exact Hperm|]. split.
  - apply Permutation_length in Hperm.
    rewrite length_app, !length_map in Hperm. exact Hperm.
  - exists (rights sorted). f_equal.
    destruct (images_query_cases E file_key access_token node_ids format
                scale w) as (r & Hq & _ & Hsuccess).
    rewrite Hq in Hdata. cbn [fst] in Hdata. injection Hdata as ->.
    destruct (Hsuccess data eq_refl) as (_ & _ & Hfailed).
    destruct (plan_without_url E names format (images data) 0) as [Hids Herr].
    fold plan in Hids, Herr. rewrite Hfailed, <- Hids.
    clear - Herr. induction (fst plan) as [|f l IH]; [reflexivity|].
    inversion Herr as [|x l' Hf Hl]. subst. cbn [map].
    rewrite <- IH by exact Hl. destruct f as [id err0]. cbn in Hf. now subst.
Qed.

Lemma export_accounts_for_every_node_witness :
  exists exported w',
    export_figma_images_to_folder one_empty_env [] "KEY" "token" "1:2,1:3"
                                  "png" 1 (85 # 100) stale_world
    = (Val (Success exported), w') /\
    Permutation (map df_node_id (downloaded_files exported)
                 ++ map fd_node_id (failed_downloads exported))
                ["1:2"; "1:3"].
Proof.
  destruct (export_accounts_for_every_node
              one_empty_env [] "KEY" "token" "1:2,1:3" "png" 1%Q (85 # 100)%Q
              stale_world
              {| images := [("1:2", JNull); ("1:3", JStr "https://img.example/3")];
                 failed_nodes := ["1:2"]; err := JNull |})
    as (exported & w' & Hrun & Hperm & _).
  - reflexivity.
  - discriminate.
  - left. discriminate.
  - exists exported, w'. split; [exact Hrun|exact Hperm].
Defined.

(** ** Suffixes of file names *)

Section Suffixes.

Lemma has_separator (sep : ascii) (s : string) :
  existsb (Ascii.eqb sep) (list_ascii_of_string s) = occurs sep s.
Proof.
  induction s as [|c s IH]; [reflexivity|].
  cbn [list_ascii_of_string existsb occurs].
  now rewrite IH, Ascii.eqb_sym.
Qed.

Lemma after_last_absent (sep : ascii) (s : string) :
  occurs sep s = false -> after_last sep s = s.
Proof.
  destruct s as [|c s]; [reflexivity|].
  cbn [occurs after_last]. rewrite has_separator. intros H.
  apply orb_false_iff in H. destruct H as [Hc Hs].
  now rewrite Hs, Hc.
Qed.

(** What follows the last separator, when that is known. *)
Lemma after_last_found (sep : ascii) (a d : string) :
  occurs sep d = false -> after_last sep (a ++ String sep d) = d.
Proof.
  intros Hd. induction a as [|c a IH].
  - cbn [append after_last]. now rewrite Ascii.eqb_refl, has_separator, Hd.
  - cbn [append after_last]. rewrite has_separator, occurs_append.
    cbn [occurs]. rewrite Ascii.eqb_refl, orb_true_r, IH.
    now destruct (Ascii.eqb c sep).
Qed.

Lemma after_last_append (sep : ascii) (a b : string) :
  occurs sep b = false -> after_last sep (a ++ b) = after_last sep a ++ b.
Proof.
  intros Hb. induction a as [|c a IH].
  - cbn [append]. now apply after_last_absent.
  - cbn [append after_last]. rewrite !has_separator, occurs_append, Hb,
      orb_false_r, IH.
    destruct (Ascii.eqb c sep), (occurs sep a); reflexivity.
Qed.

(** The suffix of a path that ends with a dot and an extension. *)
Lemma suffix_of_extension (stem ext : string) :
  occurs "." ext = false -> occurs "/" ext = false ->
  suffix (stem ++ String "." ext)
  = if ((String.length ext =? 0) || (String.length (basename stem) =? 0))%nat
    then "" else String "." ext.
Proof.
  intros Hdot Hslash. unfold suffix, basename.
  rewrite (after_last_append "/" stem (String "." ext)) by exact Hslash.
  rewrite has_separator, occurs_append. cbn [occurs Ascii.eqb Bool.eqb].
  rewrite orb_true_r, after_last_found by exact Hdot.
  rewrite length_append. cbn [String.length].
  replace (String.length ext + 1 =?
           String.length (after_last "/" stem) + S (String.length ext))%nat
    with (String.length (after_last "/" stem) =? 0)%nat; [reflexivity|].
  destruct (String.length (after_last "/" stem)) as [|n]; cbn [Nat.eqb].
  - symmetry. apply Nat.eqb_eq. lia.
  - symmetry. apply Nat.eqb_neq. lia.
Qed.

(** A file saved as SVG or PDF is not one the downloader compresses. *)
Lemma vector_formats_unsupported (stem format : string) :
  In format ["svg"; "pdf"] ->
  is_compression_supported (stem ++ "." ++ format) = false.
Proof.
  intros Hin. unfold is_compression_supported.
  cbn [append]. destruct Hin as [<-|[<-|[]]];
    rewrite suffix_of_extension by reflexivity;
    destruct (_ || _)%bool; reflexivity.
Qed.

End Suffixes.

(** ** One download *)

Section OneAttempt.
Variable E : Env.
Variables (url filename : string) (quality : Q) (max_retries : Z).

Let p := Files.join Files.STAGING filename.

Lemma attempt_once_failing (attempt : nat) (w : World) :
  attempt_fails (http_get E url attempt) ->
  Z.of_nat attempt < max_retries ->
  attempt_once E (JStr url) p filename quality max_retries attempt w
  = (Val None,
     {| staging := staging w;
        trace := (trace w ++ [GetUrl url; Sleep (2 ^ Z.of_nat attempt)])%list |}).
Proof.
  intros Hfail Hlt. apply Z.ltb_lt in Hlt.
  unfold attempt_once, client_get. run_py.
  destruct (http_get E url attempt) as [response|e]; cbn in Hfail |- *.
  - apply Z.eqb_neq in Hfail. rewrite Hfail, Hlt. run_py.
    rewrite <- app_assoc. reflexivity.
  - rewrite Hlt. run_py. rewrite <- app_assoc. reflexivity.
Qed.

(** [k] failed attempts leave their requests and back-offs in the trace and
    nothing else. *)
Lemma attempts_after_failures (k : nat) :
  forall remaining attempt w,
    (forall a, (attempt <= a < attempt + k)%nat ->
               attempt_fails (http_get E url a)) ->
    Z.of_nat (attempt + k) <= max_retries ->
    attempts E (JStr url) p filename quality max_retries (k + remaining) attempt w
    = attempts E (JStr url) p filename quality max_retries remaining
               (attempt + k)
               {| staging := staging w;
                  trace := (trace w ++ backoff url attempt k)%list |}.
Proof.
  induction k as [|k IH]; intros remaining attempt w Hfail Hle.
  - cbn [backoff seq flat_map Nat.add]. rewrite app_nil_r, Nat.add_0_r.
    destruct w; reflexivity.
  - cbn [Nat.add attempts]. unfold bind at 1.
    rewrite attempt_once_failing by (try apply Hfail; lia).
    rewrite IH by (try (intros a Ha; apply Hfail); lia).
    cbn [staging trace]. unfold backoff. cbn [seq flat_map].
    rewrite <- !app_assoc. cbn [app].
    replace (S attempt + k)%nat with (attempt + S k)%nat by lia.
    reflexivity.
Qed.

(** What [store] does once the file can be written. *)
Lemma store_writes (response : Response) (w : World)
      (files : list (string * string)) :
  staging w = Some files ->
  can_write E p = true ->
  exists size c bytes t,
    store E response p filename quality w
    = (Val (Downloaded p filename size c),
       {| staging := Some (assign files p bytes);
          trace := (trace w ++ t)%list |}) /\
    forallb is_tool t = true /\
    (is_compression_supported p = false ->
     c = NotTried /\ bytes = content response /\ t = []) /\
    (c = NotTried \/ (exists error, c = CompressionError error) ->
     size = Z.of_nat (String.length (content response))).
Proof.
  intros Hst Hcan. unfold store.
  destruct (is_compression_supported p) eqn:Hsup.
  2:{ exists (Z.of_nat (String.length (content response))), NotTried,
        (content response), [].
      split; [run_known; rewrite app_nil_r; reflexivity|].
      repeat split; reflexivity. }
  destruct (compress_image_run E p quality true (content response))
    as (r & ob & t & Hrun).
  destruct (compress_image_appends
              E p quality true
              {| staging := Some (assign files p (content response));
                 trace := trace w |}) as (t' & Ht' & Htool).
  rewrite (Hrun {| staging := Some (assign files p (content response));
                   trace := trace w |}
                (assign files p (content response)) eq_refl
                (lookup_assign_same files p (content response))) in Ht'.
  cbn [snd trace] in Ht'. apply app_inv_head in Ht'. subst t'.
  destruct r as [o c ra red m qr|error];
    eexists; eexists;
    exists (match ob with Some b => b | None => content response end), t;
    (split;
     [run_known;
      (erewrite Hrun; [|reflexivity|apply lookup_assign_same]);
      run_py; destruct ob; cbn [rewritten]; rewrite ?assign_assign; reflexivity|]);
    (split; [exact Htool|]);
    (split; [discriminate|]).
  - intros [Hc|[error Hc]]; discriminate Hc.
  - reflexivity.
Qed.

Lemma attempt_once_stores (response : Response) (attempt : nat) (w : World)
      (files : list (string * string)) :
  http_get E url attempt = Val response ->
  status_code response = 200 ->
  staging w = Some files ->
  can_write E p = true ->
  exists size c bytes t,
    attempt_once E (JStr url) p filename quality max_retries attempt w
    = (Val (Some (Downloaded p filename size c)),
       {| staging := Some (assign files p bytes);
          trace := (trace w ++ [GetUrl url] ++ t)%list |}) /\
    forallb is_tool t = true /\
    (is_compression_supported p = false ->
     c = NotTried /\ bytes = content response /\ t = []) /\
    (c = NotTried \/ (exists error, c = CompressionError error) ->
     size = Z.of_nat (String.length (content response))).
Proof.
  intros Hget Hcode Hst Hcan.
  destruct (store_writes response
              {| staging := staging w; trace := (trace w ++ [GetUrl url])%list |}
              files Hst Hcan)
    as (size & c & bytes & t & Hstore & Htool & Hraw & Hsize).
  exists size, c, bytes, t.
  split; [|split; [exact Htool|split; [exact Hraw|exact Hsize]]].
  unfold attempt_once, client_get. run_py. rewrite Hget. run_py.
  rewrite Hcode. cbn [Z.eqb Pos.eqb]. fold p. unfold bind in Hstore |- *.
  rewrite Hstore. cbn [trace]. rewrite <- app_assoc. reflexivity.
Qed.

End OneAttempt.

Section AfterRetries.
Variable E : Env.

Lemma tool_events_silent (t : list Event) :
  forallb is_tool t = true -> requests t = [] /\ delays t = [].
Proof.
  induction t as [|e t IH]; [now split|].
  cbn [forallb]. intros H. apply andb_true_iff in H. destruct H as [He Ht].
  destruct (IH Ht) as [Hr Hd].
  destruct e; try discriminate He; cbn; now split.
Qed.

(** The download whose attempt number [k] is the first to be answered with
    status 200. *)
Lemma download_after_retries (url filename : string) (quality : Q)
      (max_retries : Z) (k : nat) (response : Response) (w : World) :
  Z.of_nat k <= max_retries ->
  staging w <> None \/ can_create_dir E Files.STAGING = true ->
  (forall a, (a < k)%nat -> attempt_fails (http_get E url a)) ->
  http_get E url k = Val response ->
  status_code response = 200 ->
  can_write E (Files.join Files.STAGING filename) = true ->
  exists size c bytes t,
    download_image_from_url E (JStr url) filename quality max_retries w
    = (Val (Downloaded (Files.join Files.STAGING filename) filename size c),
       {| staging :=
            Some (assign (match staging w with Some files => files | None => [] end)
                         (Files.join Files.STAGING filename) bytes);
          trace := (trace w ++ backoff url 0 k ++ [GetUrl url] ++ t)%list |}) /\
    forallb is_tool t = true /\
    (is_compression_supported (Files.join Files.STAGING filename) = false ->
     c = NotTried /\ bytes = content response /\ t = []) /\
    (c = NotTried \/ (exists error, c = CompressionError error) ->
     size = Z.of_nat (String.length (content response))).
Proof.
  intros Hk Hdir Hfail Hget Hcode Hcan.
  set (files := match staging w with Some files => files | None => [] end).
  assert (Hmk : Files.mkdir E w
                = (Val tt, {| staging := Some files; trace := trace w |})).
  { unfold Files.mkdir, files. run_py.
    destruct (staging w) as [l|] eqn:Hst.
    - run_py. destruct w; cbn in *; subst; reflexivity.
    - destruct Hdir as [Hdir|Hdir]; [contradiction|]. rewrite Hdir.
      reflexivity. }
  destruct (attempt_once_stores
              E url filename quality max_retries response k
              {| staging := Some files;
                 trace := (trace w ++ backoff url 0 k)%list |}
              files Hget Hcode eq_refl Hcan)
    as (size & c & bytes & t & Hrun & Htool & Hraw & Hsize).
  exists size, c, bytes, t.
  split; [|split; [exact Htool|split; [exact Hraw|exact Hsize]]].
  unfold download_image_from_url. unfold bind at 1. rewrite Hmk.
  replace (Z.to_nat (max_retries + 1))
    with (k + S (Z.to_nat max_retries - k))%nat by lia.
  rewrite attempts_after_failures
    by (try (intros a Ha; apply Hfail); lia).
  cbn [Nat.add staging trace attempts]. unfold bind at 1.
  rewrite Hrun. unfold ret. cbn [trace]. rewrite <- !app_assoc. reflexivity.
Qed.

End AfterRetries.

(** When the attempts numbered 0 to k-1 fail and attempt k, with
    [k <= max_retries], is answered with status 200 for a file that can be
    written, the download succeeds: it has sent k+1 requests, slept 1, 2,
    ..., 2^(k-1) seconds between them, and after its last request only a
    compression tool has run.  A compression that fails does not make the
    download fail: the result is successful whatever the compression gave,
    and without a successful compression its [file_size] is the length of
    the answer's body.  The file is in the staging directory afterwards. *)
Theorem download_succeeds_after_retries (E : Env) (url filename : string)
        (quality : Q) (max_retries : Z) (k : nat) (response : Response)
        (w : World) :
  Z.of_nat k <= max_retries ->
  staging w <> None \/ can_create_dir E Files.STAGING = true ->
  (forall a, (a < k)%nat -> attempt_fails (http_get E url a)) ->
  http_get E url k = Val response ->
  status_code response = 200 ->
  can_write E (Files.join Files.STAGING filename) = true ->
  exists size c w' new,
    download_image_from_url E (JStr url) filename quality max_retries w
    = (Val (Downloaded (Files.join Files.STAGING filename) filename size c), w') /\
    trace w' = (trace w ++ new)%list /\
    (exists tools,
        new = (backoff url 0 k ++ [GetUrl url] ++ tools)%list /\
        forallb is_tool tools = true) /\
    requests new = repeat url (S k) /\
    delays new = map (fun i => 2 ^ Z.of_nat i) (seq 0 k) /\
    (c = NotTried \/ (exists error, c = CompressionError error) ->
     size = Z.of_nat (String.length (content response))) /\
    exists files bytes,
      staging w' = Some files /\
      lookup files (Files.join Files.STAGING filename) = Some bytes.
Proof.
  intros Hk Hdir Hfail Hget Hcode Hcan.
  destruct (download_after_retries E url filename quality max_retries k response
              w Hk Hdir Hfail Hget Hcode Hcan)
    as (size & c & bytes & t & Hrun & Htool & _ & Hsize).
  destruct (tool_events_silent t Htool) as [Hreq Hdel].
  exists size, c. eexists; exists (backoff url 0 k ++ [GetUrl url] ++ t)%list.
  split; [exact Hrun|]. cbn [trace staging].
  split; [reflexivity|]. split; [now exists t|]. split; [|split; [|split]].
  - unfold requests. rewrite !flat_map_app.
    fold (requests (backoff url 0 k)). fold (requests t).
    rewrite requests_backoff, Hreq. cbn [flat_map app].
    replace (S k) with (k + 1)%nat by lia. now rewrite repeat_app.
  - unfold delays. rewrite !flat_map_app.
    fold (delays (backoff url 0 k)). fold (delays t).
    rewrite delays_backoff, Hdel. cbn [flat_map app]. now rewrite app_nil_r.
  - exact Hsize.
  - eexists; exists bytes. split; [reflexivity|apply lookup_assign_same].
Qed.

Lemma download_succeeds_after_retries_witness :
  exists size c w',
    download_image_from_url
      (with_http_get offline_env
         (fun _ attempt =>
            if (attempt <? 2)%nat
            then Val {| status_code := 503; content := ""; json_body := None |}
            else Val {| status_code := 200; content := "<svg/>";
                        json_body := None |}))
      (JStr "https://img.example/1") "icon.svg" (85 # 100) 3
      {| staging := None; trace := [] |}
    = (Val (Downloaded "temp-images/icon.svg" "icon.svg" size c), w') /\
    requests (trace w') = repeat "https://img.example/1" 3 /\
    delays (trace w') = [1; 2].
Proof.
  destruct (download_succeeds_after_retries
              (with_http_get offline_env
                 (fun _ attempt =>
                    if (attempt <? 2)%nat
                    then Val {| status_code := 503; content := "";
                                json_body := None |}
                    else Val {| status_code := 200; content := "<svg/>";
                                json_body := None |}))
              "https://img.example/1" "icon.svg" (85 # 100) 3 2
              {| status_code := 200; content := "<svg/>"; json_body := None |}
              {| staging := None; trace := [] |})
    as (size & c & w' & new & Hrun & Htrace & _ & Hreq & Hdel & _).
  - lia.
  - right. reflexivity.
  - intros a Ha. destruct a as [|[|a]]; cbn; [discriminate|discriminate|lia].
  - reflexivity.
  - reflexivity.
  - reflexivity.
  - exists size, c, w'. cbn [trace app] in Htrace. rewrite Htrace.
    split; [exact Hrun|]. split; [exact Hreq|exact Hdel].
Defined.

(** A download in format svg or pdf is not compressed: once its first
    request is answered with status 200, the file holds the body of the
    answer byte for byte, the result carries the length of that body and no
    compression entry, and nothing but the one request has happened. *)
Theorem vector_formats_are_stored_verbatim (E : Env)
        (url name format : string) (quality : Q) (max_retries : Z)
        (response : Response) (w : World) (files : list (string * string)) :
  In format ["svg"; "pdf"] ->
  0 <= max_retries ->
  staging w = Some files ->
  http_get E url 0 = Val response ->
  status_code response = 200 ->
  can_write E (Files.join Files.STAGING (name ++ "." ++ format)) = true ->
  is_compression_supported (Files.join Files.STAGING (name ++ "." ++ format))
  = false /\
  download_image_from_url E (JStr url) (name ++ "." ++ format) quality
                          max_retries w
  = (Val (Downloaded (Files.join Files.STAGING (name ++ "." ++ format))
                     (name ++ "." ++ format)
                     (Z.of_nat (String.length (content response))) NotTried),
     {| staging :=
          Some (assign files (Files.join Files.STAGING (name ++ "." ++ format))
                       (content response));
        trace := (trace w ++ [GetUrl url])%list |}).
Proof.
  intros Hfmt Hmr Hst Hget Hcode Hcan.
  assert (Hsup : is_compression_supported
                   (Files.join Files.STAGING (name ++ "." ++ format)) = false).
  { unfold Files.join.
    replace (Files.STAGING ++ "/" ++ name ++ "." ++ format)
      with ((Files.STAGING ++ "/" ++ name) ++ "." ++ format)
      by (now rewrite !append_assoc).
    now apply vector_formats_unsupported. }
  split; [exact Hsup|].
  destruct (download_after_retries E url (name ++ "." ++ format) quality
              max_retries 0 response w)
    as (size & c & bytes & t & Hrun & _ & Hraw & Hsize);
    [exact Hmr|left; congruence|intros a Ha; lia|exact Hget|exact Hcode
    |exact Hcan|].
  destruct (Hraw Hsup) as (-> & -> & ->).
  rewrite Hsize in Hrun by now left.
  rewrite Hrun, Hst. reflexivity.
Qed.

Lemma vector_formats_are_stored_verbatim_witness :
  download_image_from_url
    (with_http_get offline_env
       (fun _ _ => Val {| status_code := 200; content := "%PDF-1.7";
                          json_body := None |}))
    (JStr "https://img.example/1") "Cover.pdf" (85 # 100) 3 fresh_world
  = (Val (Downloaded "temp-images/Cover.pdf" "Cover.pdf" 8 NotTried),
     {| staging := Some [("temp-images/Cover.pdf", "%PDF-1.7")];
        trace := [GetUrl "https://img.example/1"] |}).
Proof.
  apply (proj2 (vector_formats_are_stored_verbatim
                  (with_http_get offline_env
                     (fun _ _ => Val {| status_code := 200;
                                        content := "%PDF-1.7";
                                        json_body := None |}))
                  "https://img.example/1" "Cover" "pdf" (85 # 100) 3
                  {| status_code := 200; content := "%PDF-1.7";
                     json_body := None |}
                  fresh_world []
                  (or_intror (or_introl eq_refl))
                  ltac:(lia) eq_refl eq_refl eq_refl eq_refl)).
Defined.

(** ** The return after the retry loop *)

Section FallThrough.
Variable E : Env.
Variables (image_url : json) (full_path filename : string) (quality : Q)
          (max_retries : Z).

Lemma store_returns_file (response : Response) (w w' : World)
      (r : DownloadResult) :
  store E response full_path filename quality w = (Val r, w') ->
  exists size c, r = Downloaded full_path filename size c.
Proof.
  unfold store, bind.
  destruct (Files.write_bytes E full_path (content response) w) as [[u|e] w1];
    [|discriminate].
  destruct (is_compression_supported full_path).
  - destruct (compress_image E full_path quality true w1) as [[cr|e] w2];
      [|discriminate].
    destruct cr; unfold ret; intros [= <- <-]; eexists; eexists; reflexivity.
  - unfold ret. intros [= <- <-]. eexists; eexists; reflexivity.
Qed.

(** A turn of the loop never raises; it ends in [continue] only when an
    attempt is left, and what it returns is not the failure of line 267. *)
Lemma attempt_once_outcome (attempt : nat) (w : World) :
  exists o,
    fst (attempt_once E image_url full_path filename quality max_retries
                      attempt w) = Val o /\
    match o with
    | None => Z.of_nat attempt < max_retries
    | Some r => r <> NotDownloaded "所有下载尝试都失败了"
    end.
Proof.
  unfold attempt_once, try_except, bind at 1.
  destruct (client_get E image_url attempt w) as [[response|e] w1].
  - destruct (status_code response =? 200).
    + unfold bind.
      destruct (store E response full_path filename quality w1)
        as [[r|e] w2] eqn:Hstore.
      * exists (Some r). split; [reflexivity|].
        destruct (store_returns_file response w1 w2 r Hstore)
          as (size & c & ->).
        discriminate.
      * destruct (Z.ltb_spec (Z.of_nat attempt) max_retries).
        -- exists None. split; [reflexivity|assumption].
        -- eexists. split; [reflexivity|]. intros H0. discriminate H0.
    + destruct (Z.ltb_spec (Z.of_nat attempt) max_retries).
      * exists None. split; [reflexivity|assumption].
      * eexists. split; [reflexivity|]. intros H0. discriminate H0.
  - destruct (Z.ltb_spec (Z.of_nat attempt) max_retries).
    + exists None. split; [reflexivity|assumption].
    + eexists. split; [reflexivity|]. intros H0. discriminate H0.
Qed.

Lemma attempts_return_in_the_loop (remaining : nat) :
  forall attempt w,
    Z.of_nat attempt + Z.of_nat (S remaining) = max_retries + 1 ->
    fst (attempts E image_url full_path filename quality max_retries
                  (S remaining) attempt w)
    <> Val (NotDownloaded "所有下载尝试都失败了").
Proof.
  induction remaining as [|remaining IH]; intros attempt w Hsum;
    cbn [attempts]; unfold bind at 1;
    destruct (attempt_once_outcome attempt w) as (o & Ho & Hshape);
    destruct (attempt_once E image_url full_path filename quality max_retries
                           attempt w) as [r w1];
    cbn [fst] in Ho; subst r; destruct o as [r|].
  - unfold ret. cbn [fst]. congruence.
  - lia.
  - unfold ret. cbn [fst]. congruence.
  - apply IH. lia.
Qed.

End FallThrough.

(** The failure "所有下载尝试都失败了" of line 267 is returned exactly when
    there is no attempt to make.  With a negative [max_retries] the loop
    body never runs: the directory is created, no request is sent and that
    failure is returned.  With [max_retries >= 0] the return after the loop
    is never reached, whatever the URL and the answers: the last attempt
    returns a result of its own. *)
Theorem fall_through_only_without_attempts (E : Env) (image_url : json)
        (filename : string) (quality : Q) (max_retries : Z) (w : World) :
  (max_retries < 0 ->
   staging w <> None \/ can_create_dir E Files.STAGING = true ->
   download_image_from_url E image_url filename quality max_retries w
   = (Val (NotDownloaded "所有下载尝试都失败了"),
      {| staging := Some (match staging w with
                          | Some files => files
                          | None => []
                          end);
         trace := trace w |})) /\
  (0 <= max_retries ->
   fst (download_image_from_url E image_url filename quality max_retries w)
   <> Val (NotDownloaded "所有下载尝试都失败了")).
Proof.
  split.
  - intros Hneg Hdir. unfold download_image_from_url.
    replace (Z.to_nat (max_retries + 1)) with 0%nat by lia.
    cbn [attempts]. unfold Files.mkdir. run_py.
    destruct (staging w) as [files|] eqn:Hst; run_py.
    + destruct w; cbn in *; subst; reflexivity.
    + destruct Hdir as [Hdir|Hdir]; [contradiction|]. rewrite Hdir.
      reflexivity.
  - intros Hmr. unfold download_image_from_url, bind at 1.
    destruct (Files.mkdir E w) as [[u|e] w1]; [|discriminate].
    replace (Z.to_nat (max_retries + 1)) with (S (Z.to_nat max_retries)) by lia.
    apply attempts_return_in_the_loop. lia.
Qed.

Lemma fall_through_only_without_attempts_witness :
  download_image_from_url offline_env (JStr "https://img.example/1") "a.png"
                          (85 # 100) (-1) fresh_world
  = (Val (NotDownloaded "所有下载尝试都失败了"), fresh_world) /\
  fst (download_image_from_url offline_env (JStr "https://img.example/1")
                               "a.png" (85 # 100) 0 fresh_world)
  <> Val (NotDownloaded "所有下载尝试都失败了").
Proof.
  destruct (fall_through_only_without_attempts
              offline_env (JStr "https://img.example/1") "a.png" (85 # 100)
              (-1) fresh_world) as [Hneg _].
  destruct (fall_through_only_without_attempts
              offline_env (JStr "https://img.example/1") "a.png" (85 # 100)
              0 fresh_world) as [_ Hpos].
  split.
  - apply Hneg; [lia|left; discriminate].
  - apply Hpos. lia.
Defined.

(** ** Exports that stop before any download *)

Section ExportRun.
Variable E : Env.

Lemma images_query_run (file_key access_token node_ids format : string)
      (scale : Q) (w : World) :
  get_figma_images_data E file_key access_token node_ids format scale w
  = (fst (get_figma_images_data E file_key access_token node_ids format scale
                                fresh_world),
     {| staging := staging w;
        trace := (trace w
                  ++ trace (snd (get_figma_images_data
                                   E file_key access_token node_ids format scale
                                   fresh_world)))%list |}).
Proof.
  destruct (get_figma_images_data_run E file_key access_token node_ids format
              scale) as (r & t & Hrun).
  rewrite (Hrun w), (Hrun fresh_world). reflexivity.
Qed.

Lemma successful_query_trace (file_key access_token node_ids format : string)
      (scale : Q) (w : World) (data : ImagesData) :
  fst (get_figma_images_data E file_key access_token node_ids format scale w)
  = Val (Success data) ->
  get_figma_images_data E file_key access_token node_ids format scale w
  = (Val (Success data),
     {| staging := staging w;
        trace := (trace w ++ [GetImages file_key node_ids format scale])%list |}).
Proof.
  intros Hdata.
  destruct (images_query_cases E file_key access_token node_ids format scale w)
    as (r & Hrun & _ & Hsuccess).
  rewrite Hrun in Hdata |- *. cbn [fst] in Hdata. injection Hdata as ->.
  destruct (Hsuccess data eq_refl) as (-> & _). reflexivity.
Qed.

Lemma query_after_names (file_key access_token node_ids format : string)
      (scale : Q) (w : World) (data : ImagesData) :
  fst (get_figma_images_data E file_key access_token node_ids format scale
                             fresh_world) = Val (Success data) ->
  get_figma_images_data
    E file_key access_token node_ids format scale
    {| staging := staging w;
       trace := (trace w ++ [GetNodes file_key node_ids])%list |}
  = (Val (Success data),
     {| staging := staging w;
        trace := (trace w ++ [GetNodes file_key node_ids;
                              GetImages file_key node_ids format scale])%list |}).
Proof.
  intros Hdata. rewrite (successful_query_trace _ _ _ _ _ _ data).
  - cbn [staging trace]. rewrite <- app_assoc. reflexivity.
  - rewrite images_query_run. exact Hdata.
Qed.

Lemma export_when_query_fails (order : list nat)
      (file_key access_token node_ids format : string) (scale quality : Q)
      (w : World) (f : Failure) :
  fst (get_figma_images_data E file_key access_token node_ids format scale
                             fresh_world) = Val (Failed f) ->
  export_figma_images_to_folder E order file_key access_token node_ids
                                format scale quality w
  = (Val (Failed f),
     {| staging := staging w;
        trace := (trace w
                  ++ GetNodes file_key node_ids
                  :: (if valid_query format scale
                      then [GetImages file_key node_ids format scale]
                      else []))%list |}).
Proof.
  intros Hf.
  destruct (images_query_cases
              E file_key access_token node_ids format scale
              {| staging := staging w;
                 trace := (trace w ++ [GetNodes file_key node_ids])%list |})
    as (r & Hrun & _).
  assert (Hr : r = Failed f).
  { rewrite images_query_run in Hrun. rewrite Hf in Hrun. congruence. }
  subst r.
  unfold export_figma_images_to_folder.
  unfold try_except, bind at 1. rewrite fetch_node_names_run.
  unfold bind at 1. rewrite Hrun. unfold ret. cbn [staging trace].
  rewrite <- app_assoc. reflexivity.
Qed.

Lemma export_when_no_image (order : list nat)
      (file_key access_token node_ids format : string) (scale quality : Q)
      (w : World) (data : ImagesData) :
  fst (get_figma_images_data E file_key access_token node_ids format scale
                             fresh_world) = Val (Success data) ->
  images data = [] ->
  export_figma_images_to_folder E order file_key access_token node_ids
                                format scale quality w
  = (Val (Failed (failure "未获取到任何图像URL")),
     {| staging := staging w;
        trace := (trace w ++ [GetNodes file_key node_ids;
                              GetImages file_key node_ids format scale])%list |}).
Proof.
  intros Hdata Hnone.
  unfold export_figma_images_to_folder.
  unfold try_except, bind at 1. rewrite fetch_node_names_run.
  unfold bind at 1.
  rewrite (query_after_names _ _ _ _ _ _ data Hdata), Hnone. reflexivity.
Qed.

Lemma export_when_no_directory (order : list nat)
      (file_key access_token node_ids format : string) (scale quality : Q)
      (w : World) (data : ImagesData) :
  fst (get_figma_images_data E file_key access_token node_ids format scale
                             fresh_world) = Val (Success data) ->
  images data <> [] ->
  staging w = None ->
  can_create_dir E Files.STAGING = false ->
  export_figma_images_to_folder E order file_key access_token node_ids
                                format scale quality w
  = (Val (Failed {| error := "导出Figma图像到文件夹时发生未知错误: "
                             ++ "cannot create " ++ Files.STAGING;
                    failure_status_code := Some 500 |}),
     {| staging := None;
        trace := (trace w ++ [GetNodes file_key node_ids;
                              GetImages file_key node_ids format scale])%list |}).
Proof.
  intros Hdata Hsome Hst Hdir.
  unfold export_figma_images_to_folder.
  unfold try_except, bind at 1. rewrite fetch_node_names_run.
  unfold bind at 1. rewrite (query_after_names _ _ _ _ _ _ data Hdata).
  destruct (images data) as [|item items]; [contradiction|].
  unfold bind at 1, Files.mkdir. run_py. rewrite Hst, Hdir. run_py.
  reflexivity.
Qed.

End ExportRun.

(** The export returns a failure without starting a download in three
    cases.  When the image query fails, its failure is returned as it is:
    the request for the node names has been sent by then, so that an invalid
    format or scale is refused only after that request.  When the query
    answers with no image at all, the failure is "未获取到任何图像URL", and
    the staging directory is not created.  When the staging directory cannot
    be created, the failure has status 500. *)
Theorem export_stops_before_downloading (E : Env) (order : list nat)
        (file_key access_token node_ids format : string) (scale quality : Q)
        (w : World) :
  (forall f,
      fst (get_figma_images_data E file_key access_token node_ids format scale
                                 fresh_world) = Val (Failed f) ->
      export_figma_images_to_folder E order file_key access_token node_ids
                                    format scale quality w
      = (Val (Failed f),
         {| staging := staging w;
            trace := (trace w
                      ++ GetNodes file_key node_ids
                      :: (if valid_query format scale
                          then [GetImages file_key node_ids format scale]
                          else []))%list |})) /\
  (forall data,
      fst (get_figma_images_data E file_key access_token node_ids format scale
                                 fresh_world) = Val (Success data) ->
      (images data = [] ->
       export_figma_images_to_folder E order file_key access_token node_ids
                                     format scale quality w
       = (Val (Failed (failure "未获取到任何图像URL")),
          {| staging := staging w;
             trace := (trace w ++ [GetNodes file_key node_ids;
                                   GetImages file_key node_ids format scale])%list |}))
      /\
      (images data <> [] ->
       staging w = None ->
       can_create_dir E Files.STAGING = false ->
       exists msg,
         export_figma_images_to_folder E order file_key access_token node_ids
                                       format scale quality w
         = (Val (Failed {| error := "导出Figma图像到文件夹时发生未知错误: " ++ msg;
                           failure_status_code := Some 500 |}),
            {| staging := None;
               trace := (trace w ++ [GetNodes file_key node_ids;
                                     GetImages file_key node_ids format scale])%list |}))).
Proof.
  split.
  - apply export_when_query_fails.
  - intros data Hdata. split.
    + now apply export_when_no_image.
    + intros Hsome Hst Hdir. exists ("cannot create " ++ Files.STAGING).
      now apply (export_when_no_directory E order _ _ _ _ _ _ w data).
Qed.

Lemma export_stops_before_downloading_witness :
  exists f,
    export_figma_images_to_folder offline_env [] "KEY" "token" "1:2" "bmp" 1
                                  (85 # 100) stale_world
    = (Val (Failed f),
       {| staging := Some [("temp-images/old.png", "stale")];
          trace := [GetNodes "KEY" "1:2"] |}) /\
    failure_status_code f = None.
Proof.
  eexists. split.
  - apply (proj1 (export_stops_before_downloading
                    offline_env [] "KEY" "token" "1:2" "bmp" 1 (85 # 100)
                    stale_world)).
    reflexivity.
  - reflexivity.
Defined.

(** ** The entries of downloaded_files *)

Section GatherPost.
Context {A : Type}.
Import Asyncio.

(** Every task keeps [Inv], establishes its own [Post] and keeps the
    [Post] of the others. *)
Variable Inv : World -> Prop.
Variable Post : nat -> World -> Prop.
Variable tasks : list (M A).
Hypothesis step :
  forall i task w,
    nth_error tasks i = Some task -> Inv w ->
    Inv (snd (task w)) /\ Post i (snd (task w)) /\
    forall j, Post j w -> Post j (snd (task w)).

Lemma run_in_order_post (order : list nat) :
  forall done w,
    Inv w ->
    (forall i, find_done i done <> None -> Post i w) ->
    Inv (snd (run_in_order tasks order done w)) /\
    (forall i, find_done i (fst (run_in_order tasks order done w)) <> None ->
               Post i (snd (run_in_order tasks order done w))) /\
    (forall i, find_done i done <> None ->
               find_done i (fst (run_in_order tasks order done w)) <> None) /\
    (forall i, In i order -> (i < length tasks)%nat ->
               find_done i (fst (run_in_order tasks order done w)) <> None).
Proof.
  induction order as [|j order IH]; intros done w Hinv Hdone.
  - cbn. repeat split; auto; intros i [].
  - cbn [run_in_order].
    destruct (nth_error tasks j) as [task|] eqn:Htask.
    + destruct (find_done j done) as [x|] eqn:Hfound.
      * destruct (IH done w Hinv Hdone) as (H1 & H2 & H3 & H4).
        repeat split; auto.
        intros i [<-|Hin] Hlt; [|now apply H4].
        apply H3. congruence.
      * destruct (step j task w Htask Hinv) as (Hinv' & Hown & Hkeep).
        destruct (task w) as [r w'] eqn:Hrun. cbn [fst snd] in *.
        assert (Hdone' : forall i, find_done i (done ++ [(j, r)]) <> None ->
                                   Post i w').
        { intros i. rewrite find_done_app.
          destruct (find_done i done) eqn:Hi.
          - intros _. apply Hkeep, Hdone. congruence.
          - destruct (Nat.eqb_spec j i) as [<-|]; [intros _; exact Hown|].
            congruence. }
        destruct (IH (done ++ [(j, r)])%list w' Hinv' Hdone')
          as (H1 & H2 & H3 & H4).
        repeat split; auto.
        -- intros i Hi. apply H3. rewrite find_done_app.
           destruct (find_done i done); [discriminate|contradiction].
        -- intros i [<-|Hin] Hlt; [|now apply H4].
           apply H3. rewrite find_done_app, Hfound, Nat.eqb_refl. discriminate.
    + destruct (IH done w Hinv Hdone) as (H1 & H2 & H3 & H4).
      repeat split; auto.
      intros i [<-|Hin] Hlt; [|now apply H4].
      apply nth_error_None in Htask. lia.
Qed.

(** When all the tasks have completed, every [Post] holds. *)
Lemma gather_return_exceptions_post (order : list nat) (w : World) :
  Inv w ->
  Inv (snd (gather_return_exceptions order tasks w)) /\
  forall i, (i < length tasks)%nat ->
            Post i (snd (gather_return_exceptions order tasks w)).
Proof.
  intros Hinv. unfold gather_return_exceptions, run_all.
  destruct (run_in_order_post (order ++ seq 0 (length tasks))%list [] w Hinv)
    as (H1 & H2 & _ & H4); [intros i Hi; now cbn in Hi|].
  destruct (run_in_order tasks (order ++ seq 0 (length tasks)) [] w)
    as [done w'].
  cbn [fst snd] in *. split; [exact H1|].
  intros i Hi. apply H2, H4; [|exact Hi].
  apply in_or_app. right. apply in_seq. lia.
Qed.

End GatherPost.

Section ExportWorld.
Variable E : Env.

(** The export once the image query has answered: its result, and the
    world it leaves, which is the one the downloads leave. *)
Lemma export_run (order : list nat)
      (file_key access_token node_ids format : string) (scale quality : Q)
      (w : World) (data : ImagesData) :
  fst (get_figma_images_data E file_key access_token node_ids format scale w)
  = Val (Success data) ->
  images data <> [] ->
  staging w <> None \/ can_create_dir E Files.STAGING = true ->
  export_figma_images_to_folder E order file_key access_token node_ids
                                format scale quality w
  = (Val (Success
            {| downloaded_files :=
                 lefts (map (fun t =>
                               file_result
                                 (node_names_of E file_key access_token node_ids)
                                 (fst t) (download_alone E quality t))
                            (snd (plan_downloads
                                    E (node_names_of E file_key access_token
                                                     node_ids)
                                    format (images data) 0)));
               failed_downloads :=
                 (fst (plan_downloads
                         E (node_names_of E file_key access_token node_ids)
                         format (images data) 0)
                  ++ rights (map (fun t =>
                                    file_result
                                      (node_names_of E file_key access_token
                                                     node_ids)
                                      (fst t) (download_alone E quality t))
                                 (snd (plan_downloads
                                         E (node_names_of E file_key
                                                          access_token node_ids)
                                         format (images data) 0))))%list |}),
     match snd (plan_downloads
                  E (node_names_of E file_key access_token node_ids)
                  format (images data) 0) with
     | [] =>
         {| staging := Some (match staging w with
                             | Some files => files
                             | None => []
                             end);
            trace := (trace w ++ [GetNodes file_key node_ids;
                                  GetImages file_key node_ids format scale])%list |}
     | tasks =>
         snd (Asyncio.gather_return_exceptions
                order
                (map (fun t => download_image_from_url
                                 E (fst (snd t)) (snd (snd t)) quality 3)
                     tasks)
                {| staging := Some (match staging w with
                                    | Some files => files
                                    | None => []
                                    end);
                   trace := (trace w ++ [GetNodes file_key node_ids;
                                         GetImages file_key node_ids format
                                                   scale])%list |})
     end).
Proof.
  intros Hdata Hitems Hdir.
  assert (Hquery : get_figma_images_data
                     E file_key access_token node_ids format scale
                     {| staging := staging w;
                        trace := (trace w ++ [GetNodes file_key node_ids])%list |}
                   = (Val (Success data),
                      {| staging := staging w;
                         trace := (trace w ++ [GetNodes file_key node_ids;
                                               GetImages file_key node_ids
                                                         format scale])%list |})).
  { rewrite (successful_query_trace E _ _ _ _ _ _ data).
    - cbn [staging trace]. rewrite <- app_assoc. reflexivity.
    - rewrite images_query_run. rewrite images_query_run in Hdata.
      exact Hdata. }
  unfold export_figma_images_to_folder.
  unfold try_except, bind at 1. rewrite fetch_node_names_run.
  unfold bind at 1. rewrite Hquery.
  set (names := node_names_of E file_key access_token node_ids).
  destruct (images data) as [|item items] eqn:Himages; [contradiction|].
  clear Hitems.
  set (plan := plan_downloads E names format (item :: items) 0).
  set (w2 := {| staging := Some (match staging w with
                                 | Some files => files
                                 | None => []
                                 end);
                trace := (trace w ++ [GetNodes file_key node_ids;
                                      GetImages file_key node_ids format
                                                scale])%list |}).
  assert (Hmk : Files.mkdir
                  E {| staging := staging w;
                       trace := (trace w ++ [GetNodes file_key node_ids;
                                             GetImages file_key node_ids format
                                                       scale])%list |}
                = (Val tt, w2)).
  { unfold Files.mkdir, w2. run_py.
    destruct (staging w) as [files|] eqn:Hst; [reflexivity|].
    destruct Hdir as [Hdir|Hdir]; [contradiction|]. rewrite Hdir. reflexivity. }
  unfold bind at 1. rewrite Hmk.
  destruct plan as [failed_early download_tasks]. cbn [fst snd].
  destruct download_tasks as [|task tasks] eqn:Htasks.
  - reflexivity.
  - rewrite <- Htasks.
    destruct (gather_return_exceptions_outcomes
                (fun w0 => staging w0 <> None)
                (map (fun t0 => download_image_from_url E (fst (snd t0))
                                                        (snd (snd t0)) quality 3)
                     download_tasks)
                (map (download_alone E quality) download_tasks))
      with (order := order) (w := w2) as [Hres _].
    + now rewrite !length_map.
    + intros i dl outcome w0 Hdl Hout Hw0.
      rewrite nth_error_map in Hdl, Hout.
      destruct (nth_error download_tasks i) as [t0|]; [|discriminate].
      cbn in Hdl, Hout. injection Hdl as <-. injection Hout as <-.
      now apply download_in_staging.
    + discriminate.
    + unfold bind at 1.
      replace (match download_tasks with
               | [] => ret []
               | _ :: _ =>
                   Asyncio.gather_return_exceptions order
                     (map (fun t0 => download_image_from_url
                                       E (fst (snd t0)) (snd (snd t0)) quality 3)
                          download_tasks)
               end)
        with (Asyncio.gather_return_exceptions order
                (map (fun t0 => download_image_from_url
                                  E (fst (snd t0)) (snd (snd t0)) quality 3)
                     download_tasks))
        by (rewrite Htasks; reflexivity).
      destruct (Asyncio.gather_return_exceptions order _ w2) as [results w3].
      cbn [fst snd] in Hres. subst results.
      unfold ret. rewrite combine_map_r, map_map. cbn [fst snd].
      reflexivity.
Qed.

End ExportWorld.

Section Entries.
Variable E : Env.

Lemma in_lefts_map {A B C : Type} (f : A -> B + C) (l : list A) (b : B) :
  In b (lefts (map f l)) -> exists a, In a l /\ f a = inl b.
Proof.
  induction l as [|a l IH]; cbn [map lefts]; [intros []|].
  destruct (f a) as [b'|c] eqn:Hfa.
  - intros [<-|Hin].
    + exists a. split; [now left|exact Hfa].
    + destruct (IH Hin) as (a' & Ha' & Hf). exists a'. split; [now right|exact Hf].
  - intros Hin. destruct (IH Hin) as (a' & Ha' & Hf).
    exists a'. split; [now right|exact Hf].
Qed.

Lemma lookup_assign_kept (d : list (string * string)) (k p v b : string) :
  lookup d k = Some b -> exists b', lookup (assign d p v) k = Some b'.
Proof.
  induction d as [|[k' x] d IH]; cbn [lookup assign]; [discriminate|].
  destruct (String.eqb k' p) eqn:Hp.
  - cbn [lookup]. destruct (String.eqb k' k); [eexists; reflexivity|].
    intros H. now exists b.
  - cbn [lookup]. destruct (String.eqb k' k); [intros H; now exists b|].
    exact IH.
Qed.

Lemma lookup_rewritten_kept (d : list (string * string)) (k p b : string)
      (ob : option string) :
  lookup d k = Some b -> exists b', lookup (rewritten p ob d) k = Some b'.
Proof.
  destruct ob as [v|]; cbn [rewritten].
  - apply lookup_assign_kept.
  - intros H. now exists b.
Qed.

(** A successful download is a file of the staging directory under the name
    it was given. *)
Lemma downloaded_alone (quality : Q) (t : string * (json * string))
      (fp fn : string) (size : Z) (c : Compression) :
  download_alone E quality t = Val (Downloaded fp fn size c) ->
  fp = Files.join Files.STAGING (task_filename t) /\ fn = task_filename t.
Proof.
  destruct (download_run E (snd (snd t)) quality 3 (fst (snd t)))
    as (r & ob & tr & Hrun & Hstored).
  unfold download_alone. rewrite (Hrun fresh_world [] eq_refl). cbn [fst].
  intros [= ->]. destruct Hstored as (-> & -> & _). now split.
Qed.

(** Each download leaves its own file in the directory and removes none. *)
Lemma download_leaves_its_file (quality : Q)
      (tasks : list (string * (json * string))) (i : nat)
      (task : M DownloadResult) (w : World) :
  nth_error (map (fun t => download_image_from_url
                             E (fst (snd t)) (snd (snd t)) quality 3) tasks) i
  = Some task ->
  staging w <> None ->
  let present := fun (j : nat) (w0 : World) =>
    forall t, nth_error tasks j = Some t ->
              download_ok E quality t = true ->
              exists files bytes,
                staging w0 = Some files /\
                lookup files (Files.join Files.STAGING (task_filename t))
                = Some bytes in
  staging (snd (task w)) <> None /\
  present i (snd (task w)) /\
  forall j, present j w -> present j (snd (task w)).
Proof.
  intros Htask Hst present. rewrite nth_error_map in Htask.
  destruct (nth_error tasks i) as [t0|] eqn:Ht0; [|discriminate].
  cbn in Htask. injection Htask as <-.
  destruct (staging w) as [files|] eqn:Hfiles; [|contradiction].
  destruct (download_run E (snd (snd t0)) quality 3 (fst (snd t0)))
    as (r & ob & tr & Hrun & Hstored).
  rewrite (Hrun w files Hfiles). cbn [snd staging].
  split; [discriminate|]. split.
  - intros t Hnth Hok. rewrite Ht0 in Hnth. injection Hnth as <-.
    unfold download_ok, download_alone in Hok.
    rewrite (Hrun fresh_world [] eq_refl) in Hok. cbn [fst] in Hok.
    destruct r as [fp fn size c|error]; [|discriminate].
    destruct Hstored as (_ & _ & Hob). destruct ob as [b|]; [|contradiction].
    exists (assign files (Files.join Files.STAGING (snd (snd t0))) b), b.
    split; [reflexivity|apply lookup_assign_same].
  - intros j Hj t Ht Hok. destruct (Hj t Ht Hok) as (files0 & bytes & Hs & Hlk).
    rewrite Hfiles in Hs. injection Hs as <-.
    destruct (lookup_rewritten_kept
                files (Files.join Files.STAGING (task_filename t))
                (Files.join Files.STAGING (snd (snd t0))) bytes ob Hlk)
      as [b' Hb'].
    eexists; exists b'. split; [reflexivity|exact Hb'].
Qed.

End Entries.

(** When the export succeeds, every entry of [downloaded_files] names a
    file that is in the staging directory when the export returns, under
    the path temp-images/filename, whatever the order in which the
    downloads completed.  Its flag [uses_original_name] tells how the file
    is named: after the sanitized name of the node when that is known, and
    else after the node id, the time and the position of the node among the
    images. *)
Theorem downloaded_entries_name_their_files (E : Env) (order : list nat)
        (file_key access_token node_ids format : string) (scale quality : Q)
        (w : World) (data : ImagesData) :
  fst (get_figma_images_data E file_key access_token node_ids format scale w)
  = Val (Success data) ->
  images data <> [] ->
  staging w <> None \/ can_create_dir E Files.STAGING = true ->
  exists exported w',
    export_figma_images_to_folder E order file_key access_token node_ids
                                  format scale quality w
    = (Val (Success exported), w') /\
    forall d,
      In d (downloaded_files exported) ->
      df_file_path d = Files.join Files.STAGING (df_filename d) /\
      (exists files bytes,
          staging w' = Some files /\
          lookup files (df_file_path d) = Some bytes) /\
      (uses_original_name d = true ->
       exists name,
         lookup (node_names_of E file_key access_token node_ids) (df_node_id d)
         = Some name /\
         df_filename d = name ++ "." ++ format) /\
      (uses_original_name d = false ->
       lookup (node_names_of E file_key access_token node_ids) (df_node_id d)
       = None /\
       exists i,
         df_filename d
         = "figma_export_" ++ df_node_id d ++ "_" ++ now E i ++ "_"
             ++ str_int (Z.of_nat (i + 1)) ++ "." ++ format).
Proof.
  intros Hdata Hitems Hdir.
  pose proof (export_run E order file_key access_token node_ids format scale
                quality w data Hdata Hitems Hdir) as Hrun.
  set (names := node_names_of E file_key access_token node_ids) in *.
  remember (snd (plan_downloads E names format (images data) 0)) as tasks
    eqn:Htasks in *.
  eexists; eexists. split; [exact Hrun|].
  cbn [downloaded_files]. intros d Hd.
  apply in_lefts_map in Hd. destruct Hd as (t & Ht & Hres).
  destruct (download_alone E quality t) as [[fp fn size c|error]|e] eqn:Halone;
    try discriminate Hres.
  cbn [file_result] in Hres. injection Hres as <-.
  cbn [df_file_path df_filename df_node_id uses_original_name].
  destruct (downloaded_alone E quality t fp fn size c Halone) as [-> ->].
  assert (Hname : exists j, task_filename t
                            = choose_filename E names format j (fst t)).
  { rewrite Htasks in Ht.
    destruct (planned_filename E names format (images data) 0 t Ht)
      as (j & _ & Hname).
    now exists j. }
  destruct Hname as [j Hname].
  split; [reflexivity|]. split; [|split].
  - destruct (In_nth_error tasks t Ht) as [i Hi].
    destruct (gather_return_exceptions_post
                (fun w0 => staging w0 <> None)
                (fun (j0 : nat) (w0 : World) =>
                   forall t1, nth_error tasks j0 = Some t1 ->
                              download_ok E quality t1 = true ->
                              exists files bytes,
                                staging w0 = Some files /\
                                lookup files (Files.join Files.STAGING
                                                         (task_filename t1))
                                = Some bytes)
                (map (fun t1 => download_image_from_url
                                  E (fst (snd t1)) (snd (snd t1)) quality 3)
                     tasks))
      with (order := order)
           (w := {| staging := Some (match staging w with
                                     | Some files => files
                                     | None => []
                                     end);
                    trace := (trace w ++ [GetNodes file_key node_ids;
                                          GetImages file_key node_ids format
                                                    scale])%list |})
      as [_ Hpost].
    + intros i0 task w0 Htask Hw0.
      apply (download_leaves_its_file E quality tasks i0 task w0 Htask Hw0).
    + discriminate.
    + assert (Hfile := Hpost i).
      rewrite length_map in Hfile.
      specialize (Hfile (proj1 (nth_error_Some tasks i)
                               ltac:(congruence)) t Hi).
      unfold download_ok in Hfile. rewrite Halone in Hfile.
      specialize (Hfile eq_refl).
      clear - Hfile Ht. destruct tasks as [|t0 l]; [destruct Ht|exact Hfile].
  - unfold choose_filename in Hname.
    destruct (lookup names (fst t)) as [name|]; [|discriminate].
    intros _. exists name. split; [reflexivity|exact Hname].
  - unfold choose_filename in Hname.
    destruct (lookup names (fst t)) as [name|]; [discriminate|].
    intros _. split; [reflexivity|]. exists j. exact Hname.
Qed.

Lemma downloaded_entries_name_their_files_witness :
  exists exported w',
    export_figma_images_to_folder one_empty_env [] "KEY" "token" "1:2,1:3"
                                  "png" 1 (85 # 100) stale_world
    = (Val (Success exported), w') /\
    forall d,
      In d (downloaded_files exported) ->
      df_file_path d = Files.join Files.STAGING (df_filename d) /\
      exists files bytes,
        staging w' = Some files /\ lookup files (df_file_path d) = Some bytes.
Proof.
  destruct (downloaded_entries_name_their_files
              one_empty_env [] "KEY" "token" "1:2,1:3" "png" 1%Q (85 # 100)%Q
              stale_world
              {| images := [("1:2", JNull); ("1:3", JStr "https://img.example/3")];
                 failed_nodes := ["1:2"]; err := JNull |})
    as (exported & w' & Hrun & Hall).
  - reflexivity.
  - discriminate.
  - left. discriminate.
  - exists exported, w'. split; [exact Hrun|].
    intros d Hd. destruct (Hall d Hd) as (Hpath & Hfile & _).
    split; assumption.
Defined.

(** ** What the pipeline needs and what it leaves *)

Section DownloadEvents.
Variable E : Env.

Lemma is_tool_is_download (e : Event) : is_tool e = true -> is_download e = true.
Proof. destruct e; cbn; congruence. Qed.

Lemma client_get_appends (image_url : json) (attempt : nat) :
  appends is_download (client_get E image_url attempt).
Proof. unfold client_get. follow. Qed.

Lemma store_appends (response : Response) (full_path filename : string)
      (quality : Q) :
  appends is_download (store E response full_path filename quality).
Proof.
  unfold store.
  pose proof (write_bytes_appends E is_download) as Hwrite.
  pose proof (fun p q o =>
                appends_weaken is_tool is_download _ is_tool_is_download
                               (compress_image_appends E p q o)) as Hcompress.
  follow; auto.
Qed.

Lemma attempt_once_appends (image_url : json) (full_path filename : string)
      (quality : Q) (max_retries : Z) (attempt : nat) :
  appends is_download
          (attempt_once E image_url full_path filename quality max_retries
                        attempt).
Proof.
  unfold attempt_once.
  pose proof client_get_appends as Hget. pose proof store_appends as Hstore.
  follow; auto.
Qed.

Lemma attempts_appends (image_url : json) (full_path filename : string)
      (quality : Q) (max_retries : Z) (remaining : nat) :
  forall attempt,
    appends is_download
            (attempts E image_url full_path filename quality max_retries
                      remaining attempt).
Proof.
  induction remaining as [|remaining IH]; intros attempt; cbn [attempts].
  - apply appends_ret.
  - apply appends_bind; [apply attempt_once_appends|].
    intros [r|]; [apply appends_ret|apply IH].
Qed.

(** A download sends requests for its URL, sleeps and compresses; it does
    nothing else. *)
Lemma download_appends (image_url : json) (filename : string) (quality : Q)
      (max_retries : Z) :
  appends is_download
          (download_image_from_url E image_url filename quality max_retries).
Proof.
  unfold download_image_from_url.
  apply appends_bind; [apply mkdir_appends|].
  intros _. apply attempts_appends.
Qed.

Lemma uploads_of_downloads (t : list Event) :
  forallb is_download t = true -> uploads t = [].
Proof.
  induction t as [|e t IH]; [reflexivity|].
  cbn [forallb]. intros H. apply andb_true_iff in H. destruct H as [He Ht].
  unfold uploads in *. cbn [flat_map]. rewrite (IH Ht).
  destruct e; try discriminate He; reflexivity.
Qed.

Lemma uploads_app (t1 t2 : list Event) :
  uploads (t1 ++ t2) = (uploads t1 ++ uploads t2)%list.
Proof. unfold uploads. apply flat_map_app. Qed.

End DownloadEvents.

(** ** The access token and the files of earlier runs *)

(** Without FIGMA_ACCESS_TOKEN, unset or empty, the tool raises a
    ValueError before doing anything: the world is as it was, the staging
    directory is not even removed.  With a token it never raises, every
    exception ending as a failure dictionary; and since it begins by
    removing the staging directory, neither its result nor the world it
    leaves depend on what that directory held before the call. *)
Theorem token_is_required (E : Env) (download_order upload_order : list nat)
        (file_key node_ids format : string) (scale quality : Q)
        (export_children : bool) (w : World) :
  (nonempty (FIGMA_ACCESS_TOKEN E) = false ->
   get_figma_images E download_order upload_order file_key node_ids format
                    scale quality export_children w
   = (Raise (PyError "ValueError"
                     "FIGMA_ACCESS_TOKEN environment variable not set."), w)) /\
  (nonempty (FIGMA_ACCESS_TOKEN E) = true ->
   exists r w',
     forall earlier,
       get_figma_images E download_order upload_order file_key node_ids format
                        scale quality export_children
                        {| staging := earlier; trace := trace w |}
       = (Val r, w')).
Proof.
  unfold get_figma_images.
  destruct (FIGMA_ACCESS_TOKEN E) as [[|a token]|]; cbn [nonempty].
  - split; [reflexivity|discriminate].
  - split; [discriminate|]. intros _.
    unfold try_except, bind at 1, Files.rmtree, put_staging. cbn [trace].
    match goal with
    | |- context [match ?c ?w0 with _ => _ end] =>
        destruct (c w0) as [[r|e] w1]
    end; eexists; eexists; intros earlier; reflexivity.
  - split; [reflexivity|discriminate].
Qed.

Lemma token_is_required_witness :
  get_figma_images (with_token offline_env None) [] [] "KEY" "1:2" "png" 1
                   (85 # 100) true stale_world
  = (Raise (PyError "ValueError"
                    "FIGMA_ACCESS_TOKEN environment variable not set."),
     stale_world) /\
  exists r w',
    forall earlier,
      get_figma_images offline_env [] [] "KEY" "1:2" "png" 1 (85 # 100) true
                       {| staging := earlier; trace := [] |}
      = (Val r, w').
Proof.
  split.
  - apply (proj1 (token_is_required (with_token offline_env None) [] [] "KEY"
                                    "1:2" "png" 1 (85 # 100) true stale_world)).
    reflexivity.
  - apply (proj2 (token_is_required offline_env [] [] "KEY" "1:2" "png" 1
                                    (85 # 100) true
                                    {| staging := None; trace := [] |})).
    reflexivity.
Defined.

(** ** Exports in format pdf *)

Section ExportLeaves.
Variable E : Env.

Lemma in_assign_keys (d : list (string * string)) (p v k : string) :
  In k (map fst (assign d p v)) -> In k (map fst d) \/ k = p.
Proof.
  induction d as [|[k' x] d IH]; cbn [assign map fst In].
  - intros [<-|[]]. now right.
  - destruct (String.eqb k' p); cbn [map fst In].
    + intros [<-|Hin]; left; [now left|now right].
    + intros [<-|Hin]; [left; now left|].
      destruct (IH Hin) as [H|H]; [left; now right|now right].
Qed.

(** Whatever the export returns, it has posted nothing, and the staging
    directory, when it left one, holds files it has named itself. *)
Lemma export_leaves (mine : string -> bool) (order : list nat)
      (file_key access_token node_ids format : string) (scale quality : Q)
      (w : World) :
  (forall names i node_id,
      mine (Files.join Files.STAGING (choose_filename E names format i node_id))
      = true) ->
  staging w = None ->
  exists r w',
    export_figma_images_to_folder E order file_key access_token node_ids
                                  format scale quality w
    = (Val r, w') /\
    uploads (trace w') = uploads (trace w) /\
    match staging w' with
    | Some files => forall k, In k (map fst files) -> mine k = true
    | None => True
    end.
Proof.
  intros Hmine Hst.
  destruct (images_query_cases E file_key access_token node_ids format scale
              fresh_world) as (r & Hq & _ & _).
  assert (Hfst : fst (get_figma_images_data E file_key access_token node_ids
                                            format scale fresh_world) = Val r)
    by now rewrite Hq.
  clear Hq. destruct r as [data|f].
  2:{ eexists; eexists.
      split; [apply (export_when_query_fails E order _ _ _ _ _ _ w f Hfst)|].
      cbn [trace staging]. rewrite Hst. split; [|exact I].
      rewrite uploads_app.
      destruct (valid_query format scale); cbn; now rewrite app_nil_r. }
  destruct (images data) as [|item items] eqn:Himages.
  { eexists; eexists.
    split; [apply (export_when_no_image E order _ _ _ _ _ _ w data Hfst Himages)|].
    cbn [trace staging]. rewrite Hst. split; [|exact I].
    rewrite uploads_app. cbn. now rewrite app_nil_r. }
  destruct (can_create_dir E Files.STAGING) eqn:Hdir.
  2:{ assert (Hrun := export_when_no_directory
                          E order file_key access_token node_ids format scale
                          quality w data Hfst).
      rewrite Himages in Hrun.
      specialize (Hrun ltac:(discriminate) Hst Hdir).
      eexists; eexists. split; [exact Hrun|].
      cbn [trace staging]. split; [|exact I].
      rewrite uploads_app. cbn. now rewrite app_nil_r. }
  assert (Hdata : fst (get_figma_images_data E file_key access_token node_ids
                                             format scale w) = Val (Success data))
    by (rewrite images_query_run; exact Hfst).
  pose proof (export_run E order file_key access_token node_ids format scale
                quality w data Hdata) as Hrun.
  rewrite Himages in Hrun.
  specialize (Hrun ltac:(discriminate) (or_intror Hdir)).
  set (names := node_names_of E file_key access_token node_ids) in *.
  remember (snd (plan_downloads E names format (item :: items) 0)) as tasks
    eqn:Htasks in *.
  eexists; eexists. split; [exact Hrun|].
  rewrite Hst.
  set (w2 := {| staging := Some [];
                trace := (trace w ++ [GetNodes file_key node_ids;
                                      GetImages file_key node_ids format
                                                scale])%list |}).
  assert (Hw2 : uploads (trace w2) = uploads (trace w))
    by (unfold w2; cbn [trace]; rewrite uploads_app; cbn; now rewrite app_nil_r).
  destruct (gather_return_exceptions_post
              (fun w0 =>
                 (exists files,
                     staging w0 = Some files /\
                     forall k, In k (map fst files) -> mine k = true) /\
                 uploads (trace w0) = uploads (trace w))
              (fun (_ : nat) (_ : World) => True)
              (map (fun t => download_image_from_url
                               E (fst (snd t)) (snd (snd t)) quality 3)
                   tasks))
    with (order := order) (w := w2) as [Hinv _].
  - intros i task w0 Htask [(files & Hfiles & Hkeys) Hup].
    rewrite nth_error_map in Htask.
    destruct (nth_error tasks i) as [t0|] eqn:Ht0; [|discriminate].
    cbn in Htask. injection Htask as <-.
    split; [|split; [exact I|intros; exact I]].
    destruct (download_run E (snd (snd t0)) quality 3 (fst (snd t0)))
      as (r & ob & tr & Hdl & _).
    destruct (download_appends E (fst (snd t0)) (snd (snd t0)) quality 3 w0)
      as (t & Ht & Hdown).
    split.
    + rewrite (Hdl w0 files Hfiles). cbn [snd staging].
      eexists. split; [reflexivity|].
      intros k Hk. destruct ob as [b|]; cbn [rewritten] in Hk; [|now apply Hkeys].
      apply in_assign_keys in Hk. destruct Hk as [Hk| ->]; [now apply Hkeys|].
      apply nth_error_In in Ht0. rewrite Htasks in Ht0.
      destruct (planned_filename E names format (item :: items) 0 t0 Ht0)
        as (j & _ & Hname).
      unfold task_filename in Hname. rewrite Hname. apply Hmine.
    + rewrite Ht, uploads_app, (uploads_of_downloads t Hdown), app_nil_r.
      exact Hup.
  - split; [|exact Hw2]. exists []. split; [reflexivity|]. intros k [].
  - destruct tasks as [|t0 l].
    + cbn [trace staging]. split; [exact Hw2|]. intros k [].
    + destruct Hinv as [(files & Hfiles & Hkeys) Hup].
      split; [exact Hup|]. rewrite Hfiles. exact Hkeys.
Qed.

End ExportLeaves.

Section PdfTail.
Variable E : Env.

Lemma pdf_files_are_not_images (p ext : string) :
  endswith p ".pdf" = true -> In ext default_extensions ->
  endswith p ext = false.
Proof.
  intros Hpdf Hext. destruct (endswith p ext) eqn:Hend; [|reflexivity].
  destruct (endswith_both p ".pdf" ext Hpdf Hend) as [H|H];
    cbn in Hext;
    repeat (destruct Hext as [<-|Hext]; [discriminate H|]);
    destruct Hext.
Qed.

Lemma pdf_filename (names : list (string * string)) (i : nat)
      (node_id : string) :
  endswith (Files.join Files.STAGING (choose_filename E names "pdf" i node_id))
           ".pdf" = true.
Proof.
  destruct (choose_filename_extension E names "pdf" i node_id) as [stem ->].
  unfold Files.join.
  replace (Files.STAGING ++ "/" ++ stem ++ "." ++ "pdf")
    with ((Files.STAGING ++ "/" ++ stem) ++ ".pdf")
    by (now rewrite !append_assoc).
  apply endswith_append.
Qed.

(** A staging directory in which every file is a PDF gives the server
    nothing to report. *)
Lemma upload_of_pdf_folder (order : list nat) (w : World) :
  match staging w with
  | Some files => forall k, In k (map fst files) -> endswith k ".pdf" = true
  | None => True
  end ->
  exists r,
    upload_folder_images E order "temp-images" None w = (Val r, w) /\
    get_successful_uploads r = [] /\ get_failed_uploads r = [].
Proof.
  intros Hpdf. unfold upload_folder_images. run_py.
  destruct (staging w) as [files|] eqn:Hst.
  - cbn [String.eqb Ascii.eqb Bool.eqb Files.STAGING]. cbv beta iota.
    rewrite (scan_none files default_extensions).
    + eexists. split; [reflexivity|]. split; reflexivity.
    + intros p ext Hp Hext. apply pdf_files_are_not_images; [|exact Hext].
      now apply Hpdf.
  - eexists. split; [reflexivity|]. split; reflexivity.
Qed.

End PdfTail.

(** pdf is a format the tool accepts, but a run in format pdf never reports
    a file: the PDFs are downloaded into the staging directory, the folder
    upload looks for .png, .jpg, .jpeg, .gif, .svg and .webp only and finds
    none of them, and the report, when there is one, has both of its lists
    empty.  Nothing is posted. *)
Theorem pdf_export_reports_nothing (E : Env)
        (download_order upload_order : list nat) (file_key node_ids : string)
        (scale quality : Q) (export_children : bool) (w : World) :
  nonempty (FIGMA_ACCESS_TOKEN E) = true ->
  exists r w',
    get_figma_images E download_order upload_order file_key node_ids "pdf"
                     scale quality export_children w
    = (Val r, w') /\
    (forall report,
        r = Success report ->
        report = {| report_successful_uploads := [];
                    report_failed_uploads := [] |}) /\
    uploads (trace w') = uploads (trace w).
Proof.
  intros Htoken. unfold get_figma_images.
  destruct (FIGMA_ACCESS_TOKEN E) as [[|a token]|]; try discriminate Htoken.
  clear Htoken. set (access_token := String a token).
  assert (Htail : forall target w2,
             staging w2 = None ->
             uploads (trace w2) = uploads (trace w) ->
             exists r w',
               (result <- export_figma_images_to_folder
                            E download_order file_key access_token target "pdf"
                            scale quality ;;
                match result with
                | Failed f => ret (Failed f)
                | Success exported =>
                    match downloaded_files exported with
                    | [] =>
                        ret (Success {| report_successful_uploads := [];
                                        report_failed_uploads := [] |})
                    | _ =>
                        upload_result <- upload_folder_images
                                           E upload_order "temp-images" None ;;
                        ret (Success
                               {| report_successful_uploads :=
                                    flat_map successful_entry
                                             (get_successful_uploads upload_result);
                                  report_failed_uploads :=
                                    flat_map failed_entry
                                             (get_failed_uploads upload_result) |})
                    end
                end) w2 = (Val r, w') /\
               (forall report,
                   r = Success report ->
                   report = {| report_successful_uploads := [];
                               report_failed_uploads := [] |}) /\
               uploads (trace w') = uploads (trace w)).
  { intros target w2 Hst Hup.
    destruct (export_leaves E (fun k => endswith k ".pdf") download_order
                file_key access_token target "pdf" scale quality w2
                (pdf_filename E) Hst)
      as (r & w3 & Hrun & Hup3 & Hkeys).
    unfold bind at 1. rewrite Hrun.
    destruct r as [exported|f].
    - destruct (downloaded_files exported) as [|d l].
      + eexists; eexists. split; [reflexivity|].
        split; [now intros report [= <-]|congruence].
      + destruct (upload_of_pdf_folder E upload_order w3 Hkeys)
          as (u & Hu & Hs & Hf).
        unfold bind. rewrite Hu, Hs, Hf. unfold ret.
        eexists; eexists. split; [reflexivity|].
        split; [now intros report [= <-]|congruence].
    - eexists; eexists. split; [reflexivity|].
      split; [discriminate|congruence]. }
  unfold try_except, bind at 1, Files.rmtree, put_staging.
  destruct export_children.
  - destruct (get_child_node_ids_run E file_key access_token node_ids)
      as [r0 Hr0].
    unfold bind at 1. unfold bind at 1. rewrite Hr0. cbn [staging trace].
    assert (Hup : uploads (trace w ++ [GetNodes file_key node_ids])
                  = uploads (trace w))
      by (rewrite uploads_app; cbn; now rewrite app_nil_r).
    destruct r0 as [c|f].
    + destruct (child_node_ids c) as [|id ids].
      * eexists; eexists. split; [reflexivity|]. split; [discriminate|exact Hup].
      * unfold bind at 1, lift.
        destruct (join_ids (id :: ids)) as [target|e].
        -- destruct (Htail target
                       {| staging := None;
                          trace := (trace w ++ [GetNodes file_key node_ids])%list |}
                       eq_refl Hup) as (r & w' & Hrun & Hempty & Hup').
           unfold ret at 1.
           rewrite Hrun. exists r, w'. split; [reflexivity|].
           split; [exact Hempty|exact Hup'].
        -- eexists; eexists. split; [reflexivity|].
           split; [discriminate|exact Hup].
    + eexists; eexists. split; [reflexivity|]. split; [discriminate|exact Hup].
  - unfold bind at 1, ret at 1.
    destruct (Htail node_ids {| staging := None; trace := trace w |}
                    eq_refl eq_refl) as (r & w' & Hrun & Hempty & Hup').
    rewrite Hrun. exists r, w'. split; [reflexivity|].
    split; [exact Hempty|exact Hup'].
Qed.

Lemma pdf_export_reports_nothing_witness :
  exists r w',
    get_figma_images one_empty_env [] [] "KEY" "1:2,1:3" "pdf" 1 (85 # 100)
                     false stale_world
    = (Val r, w') /\
    (forall report,
        r = Success report ->
        report = {| report_successful_uploads := [];
                    report_failed_uploads := [] |}) /\
    uploads (trace w') = [].
Proof.
  apply (pdf_export_reports_nothing one_empty_env [] [] "KEY" "1:2,1:3" 1
                                    (85 # 100) false stale_world).
  reflexivity.
Defined.

(** ** The child query *)

Section ChildIds.

Lemma child_ids_truthy (children : list json) (ids : list json) :
  child_ids children = Val ids -> Forall (fun id => truthy id = true) ids.
Proof.
  revert ids. induction children as [|child rest IH]; intros ids; cbn [child_ids].
  - intros [= <-]. constructor.
  - destruct (py_get child "id" JNull) as [child_id|e]; cbn [rbind];
      [|discriminate].
    destruct (child_ids rest) as [more|e]; cbn [rbind]; [|discriminate].
    intros [= <-]. specialize (IH more eq_refl).
    destruct (truthy child_id) eqn:Hid; [now constructor|exact IH].
Qed.

Lemma collect_children_truthy (nodes : list (string * json)) (ids : list json) :
  collect_children nodes = Val ids -> Forall (fun id => truthy id = true) ids.
Proof.
  revert ids.
  induction nodes as [|[node_id node_info] rest IH]; intros ids;
    cbn [collect_children].
  - intros [= <-]. constructor.
  - destruct (if truthy node_info then py_contains "document" node_info
              else Val false) as [has_document|e]; cbn [rbind]; [|discriminate].
    assert (Hown : forall own,
               (if has_document
                then rbind (py_index node_info "document")
                           (fun document =>
                              rbind (py_get document "children" (JList []))
                                    (fun children =>
                                       rbind (py_iter children) child_ids))
                else Val []) = Val own ->
               Forall (fun id => truthy id = true) own).
    { intros own. destruct has_document; [|intros [= <-]; constructor].
      destruct (py_index node_info "document") as [document|e]; cbn [rbind];
        [|discriminate].
      destruct (py_get document "children" (JList [])) as [children|e];
        cbn [rbind]; [|discriminate].
      destruct (py_iter children) as [l|e]; cbn [rbind]; [|discriminate].
      apply child_ids_truthy. }
    destruct (if has_document then _ else _) as [own|e]; cbn [rbind];
      [|discriminate].
    destruct (collect_children rest) as [more|e]; cbn [rbind]; [|discriminate].
    intros [= <-]. apply Forall_app. split; [now apply Hown|now apply IH].
Qed.

(** The children of a parent whose answer is well formed. *)
Lemma child_ids_of_objects (children : list (list (string * json))) :
  child_ids (map JDict children) = Val (ids_of_children children).
Proof.
  unfold ids_of_children.
  induction children as [|child rest IH]; [reflexivity|].
  cbn [map child_ids py_get rbind filter]. rewrite IH. cbn [rbind].
  reflexivity.
Qed.

End ChildIds.

Section Parents.

(** A parent that is null, empty or without document is passed over. *)
Lemma collect_children_skips (first : string) (info : json)
      (rest : list (string * json)) :
  truthy info = false \/
  (exists d, info = JDict d /\ dict_mem d "document" = false) ->
  collect_children ((first, info) :: rest) = collect_children rest.
Proof.
  intros [Hfalsy|(d & -> & Hno)]; cbn [collect_children].
  - rewrite Hfalsy. cbn [rbind]. destruct (collect_children rest); reflexivity.
  - destruct d as [|kv d]; cbn [truthy py_contains rbind]; rewrite ?Hno;
      cbn [rbind]; destruct (collect_children rest); reflexivity.
Qed.

(** A parent whose document lists objects as children. *)
Lemma collect_children_reads (first : string) (d doc : list (string * json))
      (children : list (list (string * json))) (rest : list (string * json)) :
  dict_mem d "document" = true ->
  dict_get d "document" JNull = JDict doc ->
  dict_get doc "children" (JList []) = JList (map JDict children) ->
  collect_children ((first, JDict d) :: rest)
  = rbind (collect_children rest)
          (fun more => Val (ids_of_children children ++ more)%list).
Proof.
  intros Hmem Hdoc Hchildren. cbn [collect_children].
  destruct d as [|kv d]; [discriminate Hmem|].
  cbn [truthy py_contains rbind py_index]. rewrite Hmem. cbn [rbind].
  rewrite Hdoc. cbn [py_get rbind]. rewrite Hchildren. cbn [py_iter rbind].
  rewrite child_ids_of_objects. reflexivity.
Qed.

End Parents.

(** [get_child_node_ids] never raises and changes no file; it sends one
    request.  A failure carries a status code, which is never 200.  A
    success comes from an answer with status 200 only; its
    [total_children] is the number of ids returned and none of these ids is
    null or empty.  In the loop that collects the ids, a parent that is
    null, empty or without document contributes no id, and a parent whose
    document lists objects as children contributes, in their order, the ids
    of its children that are not missing, null or empty; the parents are
    taken in the order of the answer. *)
Theorem child_query_outcomes (E : Env) (file_key access_token node_ids : string)
        (w : World) :
  exists r,
    get_child_node_ids E file_key access_token node_ids w
    = (Val r, {| staging := staging w;
                 trace := (trace w ++ [GetNodes file_key node_ids])%list |}) /\
    (forall f, r = Failed f ->
               exists code, failure_status_code f = Some code /\ code <> 200) /\
    (forall c, r = Success c ->
               (exists response,
                   figma_nodes E file_key node_ids = Val response /\
                   status_code response = 200) /\
               total_children c = length (child_node_ids c) /\
               Forall (fun id => truthy id = true) (child_node_ids c)) /\
    (forall first info rest,
        truthy info = false \/
        (exists d, info = JDict d /\ dict_mem d "document" = false) ->
        collect_children ((first, info) :: rest) = collect_children rest) /\
    (forall first d doc children rest,
        dict_mem d "document" = true ->
        dict_get d "document" JNull = JDict doc ->
        dict_get doc "children" (JList []) = JList (map JDict children) ->
        collect_children ((first, JDict d) :: rest)
        = rbind (collect_children rest)
                (fun more => Val (ids_of_children children ++ more)%list)).
Proof.
  assert (Hfail : forall e : PyExc,
             exists code,
               failure_status_code (handle_exception e "获取子节点信息")
               = Some code /\ code <> 200)
    by (intros e; destruct e; cbn; eexists; (split; [reflexivity|discriminate])).
  pose proof collect_children_skips as Hskip.
  pose proof collect_children_reads as Hread.
  unfold get_child_node_ids.
  destruct (figma_nodes E file_key node_ids) as [response|e] eqn:Hnet.
  2:{ eexists. split; [run_known; reflexivity|].
      split; [intros f [= <-]; apply Hfail|].
      split; [discriminate|split; assumption]. }
  destruct (status_code response =? 200) eqn:Hcode.
  2:{ eexists. split; [run_known; reflexivity|].
      split; [|split; [discriminate|split; assumption]].
      intros f [= <-]. cbn. eexists. split; [reflexivity|].
      now apply Z.eqb_neq. }
  destruct (response_json response) as [data|e] eqn:Hjson;
    [destruct (py_get data "nodes" (JDict [])) as [nodes|e] eqn:Hnodes;
     [destruct (py_items nodes) as [items|e] eqn:Hitems;
      [destruct (collect_children items) as [ids|e] eqn:Hids| ]| ]| ];
    (eexists; split; [run_known; reflexivity|]);
    (split; [intros f Heq; try discriminate Heq; injection Heq as <-;
             apply Hfail|]);
    (split; [|split; assumption]);
    intros c Heq; try discriminate Heq; injection Heq as <-.
  cbn [total_children child_node_ids].
  split; [|split; [reflexivity|exact (collect_children_truthy items ids Hids)]].
  exists response. split; [reflexivity|now apply Z.eqb_eq].
Qed.

Lemma child_query_outcomes_witness :
  exists r,
    get_child_node_ids
      (with_figma_nodes offline_env
         (fun _ _ => Val {| status_code := 403; content := "";
                            json_body := None |}))
      "KEY" "token" "1:2" fresh_world
    = (Val r, {| staging := Some []; trace := [GetNodes "KEY" "1:2"] |}) /\
    forall f, r = Failed f ->
              exists code, failure_status_code f = Some code /\ code <> 200.
Proof.
  destruct (child_query_outcomes
              (with_figma_nodes offline_env
                 (fun _ _ => Val {| status_code := 403; content := "";
                                    json_body := None |}))
              "KEY" "token" "1:2" fresh_world)
    as (r & Hrun & Hfailed & _).
  exists r. split; [exact Hrun|exact Hfailed].
Defined.

(** ** The names given to the files *)

Section SafeNames.

Lemma occurs_rev (c : ascii) (s : string) :
  occurs c (rev_string s) = occurs c s.
Proof.
  induction s as [|a s IH]; [reflexivity|].
  cbn [rev_string occurs]. rewrite occurs_append, IH. cbn [occurs].
  rewrite orb_false_r. apply orb_comm.
Qed.

Lemma occurs_lstrip (c : ascii) (s : string) :
  occurs c (lstrip_space s) = true -> occurs c s = true.
Proof.
  induction s as [|a s IH]; cbn [lstrip_space occurs]; [discriminate|].
  destruct (is_space a); [|trivial].
  intros H. rewrite (IH H). apply orb_true_r.
Qed.

Lemma occurs_strip (c : ascii) (s : string) :
  occurs c (strip s) = true -> occurs c s = true.
Proof.
  unfold strip. rewrite occurs_rev. intros H.
  apply occurs_lstrip in H. rewrite occurs_rev in H.
  now apply occurs_lstrip.
Qed.

Lemma occurs_replaced (c : ascii) (s : string) :
  illegal c = true ->
  occurs c (smap (fun a => if illegal a then "_"%char else a) s) = false.
Proof.
  intros Hc. induction s as [|a s IH]; [reflexivity|].
  cbn [smap occurs]. rewrite IH, orb_false_r.
  destruct (illegal a) eqn:Ha.
  - destruct (Ascii.eqb_spec "_"%char c) as [<-|]; [discriminate Hc|reflexivity].
  - destruct (Ascii.eqb_spec a c) as [->|]; [congruence|reflexivity].
Qed.

(** A sanitized name holds none of the characters the regular expression
    of line 328 replaces. *)
Lemma safe_name_legal (c : ascii) (s : string) :
  illegal c = true -> occurs c (safe_name s) = false.
Proof.
  intros Hc. unfold safe_name.
  destruct (occurs c (strip _)) eqn:H; [|reflexivity].
  apply occurs_strip in H. now rewrite occurs_replaced in H.
Qed.

Lemma lookup_assign_cases (d : list (string * string)) (k v id n : string) :
  lookup (assign d k v) id = Some n -> n = v \/ lookup d id = Some n.
Proof.
  induction d as [|[k' x] d IH]; cbn [assign lookup].
  - destruct (String.eqb k id); [intros [= <-]; now left|discriminate].
  - destruct (String.eqb k' k) eqn:Hk; cbn [lookup].
    + destruct (String.eqb k' id); [intros [= <-]; now left|now right].
    + destruct (String.eqb k' id); [now right|exact IH].
Qed.

(** Every name the loop of lines 320-331 stores is a sanitized name that is
    not empty. *)
Lemma extract_names_safe (nodes : list (string * json)) :
  forall acc,
    (forall id n, lookup acc id = Some n ->
                  n <> "" /\ exists raw, n = safe_name raw) ->
    forall id n, lookup (extract_names nodes acc) id = Some n ->
                 n <> "" /\ exists raw, n = safe_name raw.
Proof.
  induction nodes as [|[node_id node_info] rest IH]; intros acc Hacc;
    cbn [extract_names]; [exact Hacc|].
  destruct (if truthy node_info then py_contains "document" node_info
            else Val false) as [[|]|e];
    [|exact (IH acc Hacc)|exact Hacc].
  destruct (rbind (py_index node_info "document")
                  (fun document => py_get document "name" (JStr "")))
    as [[ |b|q|name|l|d]|e]; try exact Hacc.
  destruct (String.eqb (strip name) ""); [exact (IH acc Hacc)|].
  destruct (String.eqb (safe_name (strip name)) "") eqn:Hempty;
    [exact (IH acc Hacc)|].
  apply (IH (assign acc node_id (safe_name (strip name)))).
  intros id n Hn. apply lookup_assign_cases in Hn.
  destruct Hn as [->|Hn]; [|exact (Hacc id n Hn)].
  split; [now apply String.eqb_neq|now exists (strip name)].
Qed.

End SafeNames.

(** The names the export obtains for the nodes are safe as file names:
    none is empty and none holds an angle bracket, a colon, a double
    quote, a slash, a backslash, a bar, a question mark or a star.  A node
    with such a name gets the file name
    name.format, and since that holds no slash the file lies in the staging
    directory itself: the base name of its path, which is what an upload
    reports as [file_name], is the file name the export chose. *)
Theorem node_names_are_safe (E : Env) (file_key access_token node_ids : string)
        (w : World) (names : list (string * string)) :
  fst (fetch_node_names E file_key access_token node_ids w) = Val names ->
  forall node_id name,
    lookup names node_id = Some name ->
    name <> "" /\
    (forall c, illegal c = true -> occurs c name = false) /\
    forall format i,
      In format valid_formats ->
      choose_filename E names format i node_id = name ++ "." ++ format /\
      basename (Files.join Files.STAGING (name ++ "." ++ format))
      = name ++ "." ++ format.
Proof.
  intros Hnames node_id name Hname.
  assert (Hsafe : name <> "" /\ exists raw, name = safe_name raw).
  { revert Hnames. unfold fetch_node_names, try_except, bind at 1.
    unfold emit. cbv beta iota. unfold bind at 1, lift.
    destruct (figma_nodes E file_key node_ids) as [response|e];
      [|intros [= <-]; discriminate Hname].
    destruct (status_code response =? 200);
      [|intros [= <-]; discriminate Hname].
    unfold bind at 1.
    destruct (response_json response) as [data|e];
      [|intros [= <-]; discriminate Hname].
    unfold bind at 1.
    destruct (py_get data "nodes" (JDict [])) as [nodes|e];
      [|intros [= <-]; discriminate Hname].
    unfold bind at 1.
    destruct (py_items nodes) as [items|e];
      [|intros [= <-]; discriminate Hname].
    unfold ret. cbn [fst]. intros [= <-].
    apply (extract_names_safe items [] ltac:(discriminate) node_id name Hname). }
  destruct Hsafe as [Hne [raw ->]].
  split; [exact Hne|]. split; [intros c Hc; now apply safe_name_legal|].
  intros format i Hformat. split.
  - unfold choose_filename. now rewrite Hname.
  - unfold basename, Files.join.
    change (Files.STAGING ++ "/" ++ safe_name raw ++ "." ++ format)
      with (Files.STAGING ++ String "/" (safe_name raw ++ "." ++ format)).
    apply after_last_found. rewrite occurs_append.
    rewrite safe_name_legal by reflexivity.
    cbn in Hformat.
    repeat (destruct Hformat as [<-|Hformat]; [reflexivity|]).
    destruct Hformat.
Qed.

Lemma node_names_are_safe_witness :
  choose_filename twin_env [("1:2", "a_b")] "png" 0 "1:2" = "a_b.png" /\
  exists names,
    fst (fetch_node_names
           (with_figma_nodes
              offline_env
              (fun _ _ =>
                 Val {| status_code := 200; content := "";
                        json_body :=
                          Some (JDict
                                  [("nodes",
                                    JDict [("1:2",
                                            JDict [("document",
                                                    JDict [("name",
                                                            JStr " a/b ")])])])]) |}))
           "KEY" "token" "1:2" fresh_world) = Val names /\
    lookup names "1:2" = Some "a_b" /\
    occurs "/" "a_b" = false.
Proof.
  split; [reflexivity|].
  exists [("1:2", "a_b")]. split; [reflexivity|]. split; [reflexivity|].
  refine (proj1 (proj2 (node_names_are_safe
                          (with_figma_nodes
                             offline_env
                             (fun _ _ =>
                                Val {| status_code := 200; content := "";
                                       json_body :=
                                         Some (JDict
                                                 [("nodes",
                                                   JDict [("1:2",
                                                           JDict [("document",
                                                                   JDict [("name",
                                                                           JStr " a/b ")])])])]) |}))
                          "KEY" "token" "1:2" fresh_world [("1:2", "a_b")]
                          eq_refl "1:2" "a_b" eq_refl)) "/"%char eq_refl).
Defined.

(** ** The order in which concurrent tasks complete *)

Section Orders.
Variable E : Env.

Lemma batch_is_determined (b b' : BatchResult) (results : list UploadResult)
      (n : nat) :
  successful_uploads b = filter ur_success results ->
  failed_uploads b = filter (fun r => negb (ur_success r)) results ->
  total_files b = n ->
  successful_count b = length (successful_uploads b) ->
  failed_count b = length (failed_uploads b) ->
  success b = (failed_count b =? 0)%nat ->
  total_size b = sum_sizes (successful_uploads b) ->
  successful_uploads b' = filter ur_success results ->
  failed_uploads b' = filter (fun r => negb (ur_success r)) results ->
  total_files b' = n ->
  successful_count b' = length (successful_uploads b') ->
  failed_count b' = length (failed_uploads b') ->
  success b' = (failed_count b' =? 0)%nat ->
  total_size b' = sum_sizes (successful_uploads b') ->
  b = b'.
Proof.
  destruct b, b'. cbn. intros. subst. reflexivity.
Qed.

Lemma export_result_whatever_the_order (order order' : list nat)
      (file_key access_token node_ids format : string) (scale quality : Q)
      (w : World) :
  fst (export_figma_images_to_folder E order file_key access_token node_ids
                                     format scale quality w)
  = fst (export_figma_images_to_folder E order' file_key access_token node_ids
                                       format scale quality w).
Proof.
  destruct (images_query_cases E file_key access_token node_ids format scale
              fresh_world) as (r & Hq & _ & _).
  assert (Hfst : fst (get_figma_images_data E file_key access_token node_ids
                                            format scale fresh_world) = Val r)
    by now rewrite Hq.
  clear Hq. destruct r as [data|f].
  2:{ now rewrite !(export_when_query_fails E _ _ _ _ _ _ _ w f Hfst). }
  destruct (images data) as [|item items] eqn:Himages.
  { now rewrite !(export_when_no_image E _ _ _ _ _ _ _ w data Hfst Himages). }
  assert (Hsome : images data <> []) by (rewrite Himages; discriminate).
  assert (Hdata : fst (get_figma_images_data E file_key access_token node_ids
                                             format scale w) = Val (Success data))
    by (rewrite images_query_run; exact Hfst).
  destruct (staging w) as [files|] eqn:Hst.
  - rewrite !(export_run E _ _ _ _ _ _ _ w data Hdata Hsome)
      by (left; congruence).
    reflexivity.
  - destruct (can_create_dir E Files.STAGING) eqn:Hdir.
    + rewrite !(export_run E _ _ _ _ _ _ _ w data Hdata Hsome)
        by (now right).
      reflexivity.
    + now rewrite !(export_when_no_directory E _ _ _ _ _ _ _ w data Hfst Hsome
                                             Hst Hdir).
Qed.

End Orders.

(** The dictionaries returned do not depend on the order in which the
    concurrent tasks happen to complete: a batch of uploads returns the same
    result, list for list and counter for counter, and leaves the same
    files, and an export returns the same [downloaded_files] and
    [failed_downloads] or the same failure.  The results are in the order of
    the tasks, and no task changes what another one returns. *)
Theorem completion_order_is_immaterial (E : Env) (order order' : list nat) :
  (forall paths w,
      fst (upload_multiple_files E order paths w)
      = fst (upload_multiple_files E order' paths w) /\
      staging (snd (upload_multiple_files E order paths w))
      = staging (snd (upload_multiple_files E order' paths w))) /\
  (forall file_key access_token node_ids format scale quality w,
      fst (export_figma_images_to_folder E order file_key access_token
                                         node_ids format scale quality w)
      = fst (export_figma_images_to_folder E order' file_key access_token
                                           node_ids format scale quality w)).
Proof.
  split.
  - intros paths w.
    destruct (upload_multiple_files_run E order paths w)
      as (b & w1 & Hrun & Hst & Hs & Hf & Hn & Hsc & Hfc & Hok & Hsize).
    destruct (upload_multiple_files_run E order' paths w)
      as (b' & w1' & Hrun' & Hst' & Hs' & Hf' & Hn' & Hsc' & Hfc' & Hok' & Hsize').
    rewrite Hrun, Hrun'. cbn [fst snd]. split; [|congruence].
    f_equal.
    apply (batch_is_determined b b' (map (upload_alone E w) paths)
                               (length paths)); assumption.
  - intros file_key access_token node_ids format scale quality w.
    apply export_result_whatever_the_order.
Qed.

Lemma completion_order_is_immaterial_witness :
  fst (upload_multiple_files mixed_env [1%nat; 0%nat]
                             ["temp-images/a.png"; "temp-images/gone.png"]
                             one_file_world)
  = fst (upload_multiple_files mixed_env [0%nat; 1%nat]
                               ["temp-images/a.png"; "temp-images/gone.png"]
                               one_file_world) /\
  fst (export_figma_images_to_folder mixed_env [1%nat; 0%nat] "KEY" "token"
                                     "1:2,1:3" "png" 1 (85 # 100) stale_world)
  = fst (export_figma_images_to_folder mixed_env [0%nat; 1%nat] "KEY" "token"
                                       "1:2,1:3" "png" 1 (85 # 100) stale_world).
Proof.
  destruct (completion_order_is_immaterial mixed_env [1%nat; 0%nat]
                                           [0%nat; 1%nat]) as [Hup Hdl].
  split; [apply Hup|apply Hdl].
Defined.

(** ** What is known of a picture *)

(** [get_image_info] only reads: it never raises and leaves the world as it
    was, whatever it returns.  Without Pillow it fails before it looks at
    the file.  When it succeeds the file is there and Pillow has opened it:
    the format and the mode are those of the picture, [width] and [height]
    are the two components of [size], and [file_size] is the size of the
    file.  A file that is not there gives a failure that begins with
    "获取图像信息失败". *)
Theorem image_info_only_reads (E : Env) (size : Image -> Z * Z)
        (path : string) (w : World) :
  exists r,
    get_image_info E size path w = (Val r, w) /\
    (PIL_AVAILABLE E = false ->
     r = NoInfo "图像处理功能需要安装 Pillow 库: pip install Pillow") /\
    (forall info,
        r = Info info ->
        (exists bytes img,
            fst (Files.read_bytes path w) = Val bytes /\
            pil_open E bytes = Val img /\
            info_format info = img_format img /\
            info_mode info = img_mode img /\
            info_size info = size img) /\
        info_width info = fst (info_size info) /\
        info_height info = snd (info_size info) /\
        fst (Files.stat_size path w) = Val (info_file_size info)) /\
    (PIL_AVAILABLE E = true ->
     fst (Files.exists_file path w) = Val false ->
     exists msg, r = NoInfo ("获取图像信息失败: " ++ msg)).
Proof.
  unfold get_image_info, Files.exists_file, Files.read_bytes, Files.stat_size.
  destruct (PIL_AVAILABLE E) eqn:Hpil; cbn [negb].
  2:{ eexists. split; [reflexivity|]. split; [reflexivity|].
      split; [discriminate|discriminate]. }
  destruct (staging w) as [files|] eqn:Hst.
  2:{ eexists. split; [run_known; reflexivity|]. split; [discriminate|].
      split; [discriminate|]. intros _ _. eexists. reflexivity. }
  destruct (lookup files path) as [bytes|] eqn:Hlk.
  2:{ eexists. split; [run_known; reflexivity|]. split; [discriminate|].
      split; [discriminate|]. intros _ _. eexists. reflexivity. }
  destruct (pil_open E bytes) as [img|e] eqn:Hopen.
  2:{ eexists. split; [run_known; reflexivity|]. split; [discriminate|].
      split; [discriminate|]. run_known. discriminate. }
  eexists. split; [run_known; reflexivity|]. split; [discriminate|].
  split; [|run_known; discriminate].
  intros info [= <-]. cbn.
  split; [|repeat split; run_known; reflexivity].
  exists bytes, img. run_known. repeat split; reflexivity.
Qed.

Lemma image_info_only_reads_witness :
  get_image_info offline_env (fun _ => (16, 9)) "temp-images/a.jpg" jpeg_world
  = (Val (Info {| info_format := Some "JPEG"; info_mode := "P";
                  info_size := (16, 9); info_width := 16; info_height := 9;
                  info_file_size := 10 |}), jpeg_world) /\
  exists r,
    get_image_info offline_env (fun _ => (16, 9)) "temp-images/gone.jpg"
                   jpeg_world = (Val r, jpeg_world) /\
    exists msg, r = NoInfo ("获取图像信息失败: " ++ msg).
Proof.
  split; [reflexivity|].
  destruct (image_info_only_reads offline_env (fun _ => (16, 9))
                                  "temp-images/gone.jpg" jpeg_world)
    as (r & Hrun & _ & _ & Hgone).
  exists r. split; [exact Hrun|]. apply Hgone; reflexivity.
Defined.

(** ** Which files a step may write *)

Section InPlace.
Variable E : Env.

Lemma lookup_assign_other (d : list (string * string)) (p v k : string) :
  k <> p -> lookup (assign d p v) k = lookup d k.
Proof.
  intros Hne. induction d as [|[k' x] d IH]; cbn [assign lookup].
  - destruct (String.eqb_spec p k); [congruence|reflexivity].
  - destruct (String.eqb_spec k' p) as [->|Hk]; cbn [lookup].
    + destruct (String.eqb_spec p k); [congruence|reflexivity].
    + destruct (String.eqb k' k); [reflexivity|exact IH].
Qed.

Lemma lookup_rewritten_other (d : list (string * string)) (p k : string)
      (ob : option string) :
  k <> p -> lookup (rewritten p ob d) k = lookup d k.
Proof.
  intros Hne. destruct ob as [b|]; cbn [rewritten]; [|reflexivity].
  now apply lookup_assign_other.
Qed.

Lemma compress_image_absent (p : string) (q : Q) (optimize : bool) (w : World) :
  file_at w p = None ->
  exists msg,
    compress_image E p q optimize w
    = (Val (NotCompressed ("压缩图像失败: " ++ msg)), w).
Proof.
  unfold file_at, compress_image. intros Hnone. run_py.
  destruct (staging w) as [files|]; run_py; rewrite ?Hnone;
    eexists; reflexivity.
Qed.

Lemma compress_image_in_place (p : string) (q : Q) (optimize : bool)
      (w : World) (other : string) :
  other <> p ->
  file_at (snd (compress_image E p q optimize w)) other = file_at w other.
Proof.
  intros Hne. destruct (file_at w p) as [b0|] eqn:Hp.
  - unfold file_at in Hp |- *.
    destruct (staging w) as [files|] eqn:Hst; [|discriminate].
    destruct (compress_image_run E p q optimize b0) as (r & ob & t & Hrun).
    rewrite (Hrun w files Hst Hp). cbn [snd staging].
    now apply lookup_rewritten_other.
  - destruct (compress_image_absent p q optimize w Hp) as [msg ->].
    reflexivity.
Qed.

Lemma download_in_place (image_url : json) (filename : string) (quality : Q)
      (max_retries : Z) (w : World) (other : string) :
  other <> Files.join Files.STAGING filename ->
  file_at (snd (download_image_from_url E image_url filename quality
                                        max_retries w)) other
  = file_at w other.
Proof.
  intros Hne.
  destruct (download_run E filename quality max_retries image_url)
    as (r & ob & t & Hrun & _).
  destruct (staging w) as [files|] eqn:Hst.
  - rewrite (Hrun w files Hst). unfold file_at. cbn [snd staging].
    rewrite Hst. now apply lookup_rewritten_other.
  - destruct (can_create_dir E Files.STAGING) eqn:Hdir.
    + assert (Hsame : download_image_from_url E image_url filename quality
                                              max_retries w
                      = download_image_from_url
                          E image_url filename quality max_retries
                          {| staging := Some []; trace := trace w |}).
      { unfold download_image_from_url, bind, Files.mkdir. run_py.
        rewrite Hst, Hdir. reflexivity. }
      rewrite Hsame,
        (Hrun {| staging := Some []; trace := trace w |} [] eq_refl).
      unfold file_at.
      cbn [snd staging]. rewrite Hst.
      now rewrite lookup_rewritten_other.
    + unfold download_image_from_url, bind, Files.mkdir. run_py.
      rewrite Hst, Hdir. reflexivity.
Qed.

End InPlace.

(** Compression is in place and a download writes one file.
    [compress_image] leaves every file other than the one it was given as
    it was, and creates none: for a path that is not there it returns a
    failure and changes nothing.  [download_image_from_url] leaves every
    file other than temp-images/filename as it was, whatever the answers,
    the retries and the compression. *)
Theorem writes_stay_in_place (E : Env) (w : World) (other : string) :
  (forall p q optimize,
      (other <> p ->
       file_at (snd (compress_image E p q optimize w)) other = file_at w other) /\
      (file_at w p = None ->
       exists msg,
         compress_image E p q optimize w
         = (Val (NotCompressed ("压缩图像失败: " ++ msg)), w))) /\
  (forall image_url filename quality max_retries,
      other <> Files.join Files.STAGING filename ->
      file_at (snd (download_image_from_url E image_url filename quality
                                            max_retries w)) other
      = file_at w other).
Proof.
  split.
  - intros p q optimize. split.
    + apply compress_image_in_place.
    + apply compress_image_absent.
  - intros image_url filename quality max_retries.
    apply download_in_place.
Qed.

Lemma writes_stay_in_place_witness :
  file_at (snd (download_image_from_url
                  (with_http_get offline_env
                     (fun _ _ => Val {| status_code := 200; content := "new";
                                        json_body := None |}))
                  (JStr "https://img.example/1") "a.png" (85 # 100) 3
                  stale_world)) "temp-images/old.png"
  = Some "stale".
Proof.
  apply (proj2 (writes_stay_in_place
                  (with_http_get offline_env
                     (fun _ _ => Val {| status_code := 200; content := "new";
                                        json_body := None |}))
                  stale_world "temp-images/old.png")
               (JStr "https://img.example/1") "a.png" (85 # 100) 3).
  discriminate.
Defined.

(** ** Exporting the children of a node *)

Section JoinIds.

Lemma join_ids_strings (ids : list string) :
  join_ids (map JStr ids) = Val (String.concat "," ids).
Proof.
  induction ids as [|x rest IH]; [reflexivity|].
  cbn [map join_ids]. destruct rest as [|y rest]; [reflexivity|].
  cbn [map] in IH |- *. rewrite IH. reflexivity.
Qed.

End JoinIds.

(** With [export_children], when the child query finds children whose ids
    are strings, the run is, after that one query, the run that exports
    these children as nodes of their own: the ids are joined with commas
    and from there on everything, the name query, the image query, the
    downloads, the uploads and the report, is what a call without
    [export_children] for the joined ids does. *)
Theorem children_are_exported_as_nodes (E : Env)
        (download_order upload_order : list nat)
        (file_key node_ids format : string) (scale quality : Q) (w : World)
        (access_token : string) (c : ChildNodes) (ids : list string) :
  FIGMA_ACCESS_TOKEN E = Some access_token ->
  access_token <> "" ->
  fst (get_child_node_ids E file_key access_token node_ids w) = Val (Success c) ->
  child_node_ids c = map JStr ids ->
  ids <> [] ->
  get_figma_images E download_order upload_order file_key node_ids format
                   scale quality true w
  = get_figma_images E download_order upload_order file_key
                     (String.concat "," ids) format scale quality false
                     {| staging := staging w;
                        trace := (trace w ++ [GetNodes file_key node_ids])%list |}.
Proof.
  intros Htoken Hne Hchild Hids Hsome.
  destruct (get_child_node_ids_run E file_key access_token node_ids) as [r Hrun].
  rewrite Hrun in Hchild. cbn [fst] in Hchild. injection Hchild as ->.
  unfold get_figma_images. rewrite Htoken.
  destruct access_token as [|a token]; [contradiction|].
  unfold try_except, bind at 1, Files.rmtree, put_staging.
  unfold bind at 1. unfold bind at 1. rewrite Hrun. cbn [staging trace].
  rewrite Hids. destruct ids as [|id ids]; [contradiction|].
  cbn [map]. unfold bind at 1, lift.
  change (JStr id :: map JStr ids) with (map JStr (id :: ids)).
  rewrite join_ids_strings. unfold ret at 1.
  unfold bind at 2. unfold bind at 2. unfold ret at 3. cbn [trace].
  reflexivity.
Qed.

Lemma children_are_exported_as_nodes_witness :
  get_figma_images
    (with_figma_nodes
       offline_env
       (fun _ _ =>
          Val {| status_code := 200; content := "";
                 json_body :=
                   Some (JDict
                           [("nodes",
                             JDict [("1:2",
                                     JDict [("document",
                                             JDict [("children",
                                                     JList [JDict [("id", JStr "1:3")];
                                                            JDict [("id", JStr "1:4")]])])])])]) |}))
    [] [] "KEY" "1:2" "png" 1 (85 # 100) true fresh_world
  = get_figma_images
      (with_figma_nodes
         offline_env
         (fun _ _ =>
            Val {| status_code := 200; content := "";
                   json_body :=
                     Some (JDict
                             [("nodes",
                               JDict [("1:2",
                                       JDict [("document",
                                               JDict [("children",
                                                       JList [JDict [("id", JStr "1:3")];
                                                              JDict [("id", JStr "1:4")]])])])])]) |}))
      [] [] "KEY" "1:3,1:4" "png" 1 (85 # 100) false
      {| staging := Some []; trace := [GetNodes "KEY" "1:2"] |}.
Proof.
  apply (children_are_exported_as_nodes
           _ [] [] "KEY" "1:2" "png" 1 (85 # 100) fresh_world "token"
           {| child_node_ids := [JStr "1:3"; JStr "1:4"];
              parent_nodes := ["1:2"]; total_children := 2 |}
           ["1:3"; "1:4"]).
  - reflexivity.
  - discriminate.
  - reflexivity.
  - reflexivity.
  - discriminate.
Defined.
